(** * etcd-benchmark: aggregation, executor, USL fit and workload selection

    A shallow embedding of the parts of the benchmark tool that its
    specification makes statements about:

    - [benchmark-etcd-cluster.py]: [EtcdBenchmark.analyze_results],
      [calc_percentiles], [EtcdBenchmark.percentile] and
      [EtcdBenchmarkClient.perform_operation];
    - [usl_analysis.py]: [usl_function], [fit_usl_model] and the data
      extraction of [create_usl_analysis_plots];
    - [benchmark.py]: the read/write selection of
      [benchmark_mixed_workload].

    Numbers.  Python [int]s are [Z].  Python [float]s (latencies, durations,
    throughputs) are modelled as exact rationals [Q] compared with [==],
    where rounding makes no difference to what is stated.  Where it does,
    the percentiles are evaluated on IEEE doubles as CPython evaluates them
    ([Binary64]).  Where the source relies on what a float operation does
    at a zero divisor, that is written out: Python's [/] raises
    [ZeroDivisionError] ([Py.truediv]) and numpy's [/] yields [inf] or [nan]
    ([Np.true_divide]). *)

From Stdlib Require Import ZArith QArith Qround Lia Lqa String.
From Stdlib Require PrimFloat Uint63 FloatOps SpecFloat.
From stdpp Require Import base list sorting gmap strings.

Open Scope Z_scope.

(** ** The Python runtime the sources rely on *)

(** The exceptions the modelled code can raise. *)
Inductive exn :=
| RuntimeError (msg : string)
| StatisticsError (msg : string)
| ValueError (msg : string)
| ZeroDivisionError
| IndexError
| KeyError
| Exception (msg : string).

(** A computation either returns a value or raises. *)
Inductive result (A : Type) :=
| Ok (a : A)
| Raise (e : exn).
Arguments Ok {A} a.
Arguments Raise {A} e.

#[global] Instance result_ret : MRet result := @Ok.
#[global] Instance result_bind : MBind result := fun A B k c =>
  match c with
  | Ok a => k a
  | Raise e => Raise e
  end.

Definition returns {A} (c : result A) : Prop := exists a, c = Ok a.

(** [statistics.quantiles] changed in CPython 3.13: a single data point is
    accepted from then on and rejected before. *)
Inductive version := Before313 | From313.

Module Py.

(** [str(e)] for the exceptions above. *)
Definition str (e : exn) : string :=
  match e with
  | RuntimeError m | StatisticsError m | ValueError m | Exception m => m
  | ZeroDivisionError => "float division by zero"
  | IndexError => "list index out of range"
  | KeyError => "key"
  end.

Definition len {A} (l : list A) : Z := Z.of_nat (length l).

(** [l[i]], with Python's negative indices and [IndexError]. *)
Definition index {A} (l : list A) (i : Z) : result A :=
  let k := if i <? 0 then i + len l else i in
  if k <? 0 then Raise IndexError
  else match l !! Z.to_nat k with
       | Some x => Ok x
       | None => Raise IndexError
       end.

(** [range(a, b)] *)
Definition range (a b : Z) : list Z := seqZ a (b - a).

(** [[f(x) for x in l]] where [f] may raise. *)
Fixpoint comprehension {A B} (f : A -> result B) (l : list A) : result (list B) :=
  match l with
  | [] => Ok []
  | x :: l' =>
      y ← f x; ys ← comprehension f l'; Ok (y :: ys)
  end.

(** [sum] of a sequence of integers. *)
Definition sum (l : list Z) : Z := foldl Z.add 0 l.

(** [x / y] on floats. *)
Definition truediv (x y : Q) : result Q :=
  if Qeq_bool y 0 then Raise ZeroDivisionError else Ok (x / y)%Q.

(** [int(x)]: truncation towards zero. *)
Definition int (x : Q) : Z := Z.quot (Qnum x) (Zpos (Qden x)).

#[global] Instance Qle_dec : RelDecision Qle.
Proof.
  intros x y. destruct (Qlt_le_dec y x) as [H|H]; [right|left]; auto.
  apply Qlt_not_le; auto.
Defined.

(** [sorted(data)] on floats. *)
Definition sorted (data : list Q) : list Q := merge_sort Qle data.

Definition Qmin (x y : Q) : Q := if Qle_bool x y then x else y.
Definition Qmax (x y : Q) : Q := if Qle_bool x y then y else x.

(** [min(data)] and [max(data)]. *)
Definition min (data : list Q) : result Q :=
  match data with
  | [] => Raise (ValueError "min() arg is an empty sequence")
  | x :: l => Ok (foldl Qmin x l)
  end.

Definition max (data : list Q) : result Q :=
  match data with
  | [] => Raise (ValueError "max() arg is an empty sequence")
  | x :: l => Ok (foldl Qmax x l)
  end.

End Py.

(** ** The [statistics] module (CPython, [Lib/statistics.py]) *)

Module statistics.

Definition mean (data : list Q) : result Q :=
  match data with
  | [] => Raise (StatisticsError "mean requires at least one data point")
  | _ => Ok (foldl Qplus 0%Q data / inject_Z (Py.len data))%Q
  end.

Definition median (data : list Q) : result Q :=
  let data := Py.sorted data in
  let n := Py.len data in
  if n =? 0 then Raise (StatisticsError "no median for empty data")
  else if n mod 2 =? 1 then Py.index data (n / 2)
  else
    let i := n / 2 in
    a ← Py.index data (i - 1);
    b ← Py.index data i;
    Ok ((a + b) / 2)%Q.

(** One cut point of the exclusive method: the body of the loop
    [for i in range(1, n)]. *)
Definition cut_point (data : list Q) (ld n i : Z) : result Q :=
  let m := ld + 1 in
  let j := i * m / n in
  let j := if j <? 1 then 1 else if ld - 1 <? j then ld - 1 else j in
  let delta := i * m - j * n in
  a ← Py.index data (j - 1);
  b ← Py.index data j;
  Ok ((a * inject_Z (n - delta) + b * inject_Z delta) / inject_Z n)%Q.

(** [quantiles(data, n=n)] with the default [method='exclusive']. *)
Definition quantiles (v : version) (data : list Q) (n : Z) : result (list Q) :=
  if n <? 1 then Raise (StatisticsError "n must be at least 1")
  else
    let data := Py.sorted data in
    let ld := Py.len data in
    if ld <? 2 then
      match v with
      | Before313 => Raise (StatisticsError "must have at least two data points")
      | From313 =>
          if ld =? 1 then Ok (mjoin (replicate (Z.to_nat (n - 1)) data))
          else Raise (StatisticsError "must have at least one data point")
      end
    else Py.comprehension (cut_point data ld n) (Py.range 1 n).

End statistics.

(** ** The percentiles on IEEE doubles

    [statistics.median], [statistics.quantiles] and
    [EtcdBenchmark.percentile] once more, on binary64 floats with the
    rounding of every operation as CPython performs it. *)

Module Binary64.

Import PrimFloat.

Definition float : Set := PrimFloat.float.

(** [float(z)] for an integer, exact below 2^53 in size. *)
Definition of_int (z : Z) : float :=
  if z <? 0 then opp (of_uint63 (Uint63.of_Z (- z)))
  else of_uint63 (Uint63.of_Z z).

(** [int(x)]: truncation towards zero. *)
Definition int (x : float) : result Z :=
  match FloatOps.Prim2SF x with
  | SpecFloat.S754_zero _ => Ok 0
  | SpecFloat.S754_finite s m e =>
      let v := if 0 <=? e then Z.shiftl (Zpos m) e else Z.shiftr (Zpos m) (- e) in
      Ok (if s then - v else v)
  | SpecFloat.S754_infinity _ =>
      Raise (Exception "cannot convert float infinity to integer")
  | SpecFloat.S754_nan => Raise (ValueError "cannot convert float NaN to integer")
  end.

Definition float_le (x y : float) : Prop := leb x y = true.

#[global] Instance float_le_dec : RelDecision float_le :=
  fun x y => decide (leb x y = true).

(** [sorted(data)] *)
Definition sorted (data : list float) : list float := merge_sort float_le data.

Definition median (data : list float) : result float :=
  let data := sorted data in
  let n := Py.len data in
  if n =? 0 then Raise (StatisticsError "no median for empty data")
  else if n mod 2 =? 1 then Py.index data (n / 2)
  else
    let i := n / 2 in
    a ← Py.index data (i - 1);
    b ← Py.index data i;
    Ok ((a + b) / of_int 2)%float.

(** [(data[j - 1] * (n - delta) + data[j] * delta) / n] *)
Definition cut_point (data : list float) (ld n i : Z) : result float :=
  let m := ld + 1 in
  let j := i * m / n in
  let j := if j <? 1 then 1 else if ld - 1 <? j then ld - 1 else j in
  let delta := i * m - j * n in
  a ← Py.index data (j - 1);
  b ← Py.index data j;
  Ok ((a * of_int (n - delta) + b * of_int delta) / of_int n)%float.

Definition quantiles (v : version) (data : list float) (n : Z)
  : result (list float) :=
  if n <? 1 then Raise (StatisticsError "n must be at least 1")
  else
    let data := sorted data in
    let ld := Py.len data in
    if ld <? 2 then
      match v with
      | Before313 => Raise (StatisticsError "must have at least two data points")
      | From313 =>
          if ld =? 1 then Ok (mjoin (replicate (Z.to_nat (n - 1)) data))
          else Raise (StatisticsError "must have at least one data point")
      end
    else Py.comprehension (cut_point data ld n) (Py.range 1 n).

(** [EtcdBenchmark.percentile(data, p)] *)
Definition percentile (v : version) (data : list float) (p : float)
  : result float :=
  match data with
  | [] => Ok zero
  | _ =>
      qs ← quantiles v data 100;
      k ← int (p * of_int 100)%float;
      Py.index qs (k - 1)
  end.

(** The literals 0.7, 0.95 and 0.99 of Python, and 0.6999999999999998. *)
Definition seven_tenths : float := 0x1.6666666666666p-1%float.
Definition below_seven_tenths : float := 0x1.6666666666665p-1%float.
Definition p_95 : float := 0x1.e666666666666p-1%float.
Definition p_99 : float := 0x1.fae147ae147aep-1%float.

End Binary64.

(** ** [benchmark-etcd-cluster.py]: data model *)

Record OperationResult := {
  operation : string;   (* 'read' or 'write' *)
  success : bool;
  latency_ms : Q;
  timestamp : Q;
  endpoint : string;
  error : string;       (* defaults to the empty string *)
}.

(** The six-tuple of [calc_percentiles], which also fills the dictionaries
    [read_latency_stats] and [write_latency_stats] (keys avg, min, max, p50,
    p95, p99). *)
Record LatencyStats := {
  avg : Q;
  min : Q;
  max : Q;
  p50 : Q;
  p95 : Q;
  p99 : Q;
}.

Record BenchmarkResults := {
  total_operations : Z;
  successful_operations : Z;
  failed_operations : Z;
  total_reads : Z;
  total_writes : Z;
  successful_reads : Z;
  successful_writes : Z;
  duration_seconds : Q;
  throughput_ops_per_sec : Q;
  read_throughput : Q;
  write_throughput : Q;
  avg_latency_ms : Q;
  min_latency_ms : Q;
  max_latency_ms : Q;
  p50_latency_ms : Q;
  p95_latency_ms : Q;
  p99_latency_ms : Q;
  read_latency_stats : LatencyStats;
  write_latency_stats : LatencyStats;
  endpoint_distribution : gmap string Z;
  errors : list string;
}.

(** ** [EtcdBenchmark]: the aggregation stage *)

Module EtcdBenchmark.

(** [percentile(data, p)] *)
Definition percentile (v : version) (data : list Q) (p : Q) : result Q :=
  match data with
  | [] => Ok 0%Q
  | _ =>
      qs ← statistics.quantiles v data 100;
      Py.index qs (Py.int (p * 100)%Q - 1)
  end.

(** The local function [calc_percentiles] of [analyze_results]. *)
Definition calc_percentiles (v : version) (data : list Q) : result LatencyStats :=
  match data with
  | [] => Ok {| avg := 0; min := 0; max := 0; p50 := 0; p95 := 0; p99 := 0 |}
  | _ =>
      a ← statistics.mean data;
      lo ← Py.min data;
      hi ← Py.max data;
      med ← statistics.median data;
      q95 ← percentile v data (95 # 100);
      q99 ← percentile v data (99 # 100);
      Ok {| avg := a; min := lo; max := hi; p50 := med; p95 := q95; p99 := q99 |}
  end.

(** [endpoint_counts[result.endpoint] += 1] on a [defaultdict(int)]. *)
Definition count_endpoint (counts : gmap string Z) (r : OperationResult)
  : gmap string Z :=
  <[endpoint r := default 0 (counts !! endpoint r) + 1]> counts.

(** [analyze_results(actual_duration)]; [clients] holds the result buffer
    of each client. *)
Definition analyze_results (v : version) (clients : list (list OperationResult))
    (actual_duration : Q) : result BenchmarkResults :=
  let all_results := foldl (fun acc rs => acc ++ rs) [] clients in
  match all_results return result BenchmarkResults with
  | [] => Raise (RuntimeError "No results to analyze")
  | _ =>
      let total_ops := Py.len all_results in
      let successful_ops :=
        Py.sum ((fun _ => 1) <$> filter (fun r => success r = true) all_results) in
      let failed_ops := total_ops - successful_ops in
      let reads := filter (fun r => operation r = "read"%string) all_results in
      let writes := filter (fun r => operation r = "write"%string) all_results in
      let successful_reads := filter (fun r => success r = true) reads in
      let successful_writes := filter (fun r => success r = true) writes in
      let successful_latencies :=
        latency_ms <$> filter (fun r => success r = true) all_results in
      let read_latencies := latency_ms <$> successful_reads in
      let write_latencies := latency_ms <$> successful_writes in
      let endpoint_counts := foldl count_endpoint ∅ all_results in
      let errors :=
        error <$> filter (fun r => success r = false ∧ error r ≠ EmptyString)
                    all_results in
      overall ← calc_percentiles v successful_latencies;
      read_stats ← calc_percentiles v read_latencies;
      write_stats ← calc_percentiles v write_latencies;
      tp ← Py.truediv (inject_Z successful_ops) actual_duration;
      rtp ← Py.truediv (inject_Z (Py.len successful_reads)) actual_duration;
      wtp ← Py.truediv (inject_Z (Py.len successful_writes)) actual_duration;
      Ok {|
        total_operations := total_ops;
        successful_operations := successful_ops;
        failed_operations := failed_ops;
        total_reads := Py.len reads;
        total_writes := Py.len writes;
        successful_reads := Py.len successful_reads;
        successful_writes := Py.len successful_writes;
        duration_seconds := actual_duration;
        throughput_ops_per_sec := tp;
        read_throughput := rtp;
        write_throughput := wtp;
        avg_latency_ms := avg overall;
        min_latency_ms := min overall;
        max_latency_ms := max overall;
        p50_latency_ms := p50 overall;
        p95_latency_ms := p95 overall;
        p99_latency_ms := p99 overall;
        read_latency_stats := read_stats;
        write_latency_stats := write_stats;
        endpoint_distribution := endpoint_counts;
        errors := elements (list_to_set errors : gset string);
      |}
  end.

End EtcdBenchmark.

(** The nearest-rank percentile, as the specification words it:
    [sorted[ceil(p * n) - 1]]. *)
Definition ceil (x : Q) : Z := (- ((- Qnum x) / Zpos (Qden x))).

Definition nearest_rank (data : list Q) (p : Q) : result Q :=
  let s := Py.sorted data in
  Py.index s (ceil (p * inject_Z (Py.len data))%Q - 1).

(** Closed forms of what [statistics.median] and the exclusive method of
    [statistics.quantiles] compute on a sorted sample [s]: the middle of the
    sample, and the straight line through two neighbouring points, followed
    beyond the last (or first) pair where the position falls outside. *)
Definition clamp (lo hi x : Z) : Z := Z.max lo (Z.min hi x).

Definition exclusive_cut (s : list Q) (i : Z) : Q :=
  let n := Py.len s in
  let j := clamp 1 (n - 1) (i * (n + 1) / 100) in
  let delta := i * (n + 1) - 100 * j in
  let a := nth (Z.to_nat (j - 1)) s 0%Q in
  let b := nth (Z.to_nat j) s 0%Q in
  (a + (b - a) * (delta # 100))%Q.

Definition middle (s : list Q) : Q :=
  let n := Py.len s in
  if Z.even n
  then ((nth (Z.to_nat (n / 2 - 1)) s 0 + nth (Z.to_nat (n / 2)) s 0) / 2)%Q
  else nth (Z.to_nat (n / 2)) s 0%Q.

(** The value the loop body of [statistics.quantiles] builds, with the
    indices read off directly. *)
Definition cut_value (s : list Q) (ld n i : Z) : Q :=
  let j := clamp 1 (ld - 1) (i * (ld + 1) / n) in
  let delta := i * (ld + 1) - j * n in
  ((nth (Z.to_nat (j - 1)) s 0 * inject_Z (n - delta)
    + nth (Z.to_nat j) s 0 * inject_Z delta) / inject_Z n)%Q.

(** The merged result list that [analyze_results] builds first, and the sum
    over all endpoints of an endpoint distribution. *)
Definition merged (clients : list (list OperationResult)) : list OperationResult :=
  foldl (fun acc rs => acc ++ rs) [] clients.

Definition sum_counts (m : gmap string Z) : Z :=
  map_fold (fun _ c acc => c + acc) 0 m.

(** [calc_percentiles] raises on exactly one input shape: a single data point
    on an interpreter older than 3.13. *)
Definition quantiles_defined (v : version) (data : list Q) : Prop :=
  v = From313 \/ Py.len data <> 1.

(** The three samples [analyze_results] hands to [calc_percentiles]: the
    latencies of all successful operations, of the successful reads and of
    the successful writes. *)
Definition successful_latencies (rs : list OperationResult) : list Q :=
  latency_ms <$> filter (fun r => success r = true) rs.

Definition of_kind (kind : string) (rs : list OperationResult) : list OperationResult :=
  filter (fun r => operation r = kind) rs.

Definition samples_defined (v : version) (rs : list OperationResult) : Prop :=
  quantiles_defined v (successful_latencies rs)
  /\ quantiles_defined v (successful_latencies (of_kind "read" rs))
  /\ quantiles_defined v (successful_latencies (of_kind "write" rs)).

Definition zero_stats : LatencyStats :=
  {| avg := 0; min := 0; max := 0; p50 := 0; p95 := 0; p99 := 0 |}.

(** All latency fields of a record are 0. *)
Definition latency_fields_zero (r : BenchmarkResults) : Prop :=
  avg_latency_ms r = 0%Q /\ min_latency_ms r = 0%Q /\ max_latency_ms r = 0%Q
  /\ p50_latency_ms r = 0%Q /\ p95_latency_ms r = 0%Q /\ p99_latency_ms r = 0%Q
  /\ read_latency_stats r = zero_stats /\ write_latency_stats r = zero_stats.

(** Sample operation results, as [perform_operation] builds them. *)
Definition read_ok (latency : Q) : OperationResult :=
  {| operation := "read"; success := true; latency_ms := latency;
     timestamp := 0; endpoint := "http://localhost:2379"; error := EmptyString |}.

Definition write_ok (latency : Q) : OperationResult :=
  {| operation := "write"; success := true; latency_ms := latency;
     timestamp := 0; endpoint := "http://localhost:2380"; error := EmptyString |}.

Definition read_failed (msg : string) : OperationResult :=
  {| operation := "read"; success := false; latency_ms := 5;
     timestamp := 0; endpoint := "http://localhost:2379"; error := msg |}.

(** ** [benchmark-etcd-cluster.py]: the executor

    [perform_operation] draws random numbers, reads two clocks and calls the
    store.  These live in a world that every operation takes and hands on;
    a computation is a function from the world to a result and the next
    world. *)

Record BenchmarkConfig := {
  endpoints : list string;
  num_clients : Z;
  duration : Z;
  write_ratio : Q;
  key_size : Z;
  value_size : Z;
  key_prefix : string;
  warmup_time : Z;
  report_interval : Z;
}.

(** A connected [etcd3.client]. *)
Record etcd3_client := {
  host : string;
  port : Z;
}.

(** The world outside the executor.  The random generator and the clocks
    return; [random()] lies in [0, 1) and [_randbelow(n)] below [n]; what the
    store does with a [put] or [get] is left open, it may raise anything. *)
Class Host (World : Type) := {
  random_random : World -> Q * World;
  random_randbelow : Z -> World -> Z * World;
  time_time : World -> Q * World;
  time_perf_counter : World -> Q * World;
  time_sleep : Q -> World -> World;
  etcd_put : etcd3_client -> string -> string -> World -> result unit * World;
  etcd_get : etcd3_client -> string -> World -> result (option string) * World;
  random_range w : (0 <= (random_random w).1)%Q /\ ((random_random w).1 < 1)%Q;
  randbelow_range n w : 0 < n -> 0 <= (random_randbelow n w).1 < n;
}.

Definition IO (World A : Type) : Type := World -> result A * World.

#[global] Instance IO_ret {World} : MRet (IO World) := fun A a w => (Ok a, w).
#[global] Instance IO_bind {World} : MBind (IO World) := fun A B k c w =>
  match c w with
  | (Ok a, w') => k a w'
  | (Raise e, w') => (Raise e, w')
  end.

(** An operation of the world that cannot raise, and a pure computation that
    can. *)
Definition total {World A} (f : World -> A * World) : IO World A :=
  fun w => (Ok (f w).1, (f w).2).

Definition pure {World A} (c : result A) : IO World A := fun w => (c, w).

(** [try: body except Exception as e: handler(e)] *)
Definition try_except {World A} (body : IO World A) (handler : exn -> IO World A)
  : IO World A :=
  fun w =>
    match body w with
    | (Ok a, w') => (Ok a, w')
    | (Raise e, w') => handler e w'
    end.

Module random.

Section Random.

Context `{Host World}.

(** [random.choice(seq)] *)
Definition choice {A} (seq : list A) : IO World A :=
  if Py.len seq =? 0 then pure (Raise IndexError)
  else
    i ← total (random_randbelow (Py.len seq));
    pure (Py.index seq i).

(** [random.choices(population, k=k)]: [k] independent draws
    [population[floor(random() * n)]]. *)
Fixpoint draws {A} (population : list A) (k : nat) : IO World (list A) :=
  match k with
  | O => mret []
  | S k' =>
      u ← total random_random;
      x ← pure (Py.index population
                  (Qfloor (u * inject_Z (Py.len population))));
      xs ← draws population k';
      mret (x :: xs)
  end.

Definition choices {A} (population : list A) (k : Z) : IO World (list A) :=
  draws population (Z.to_nat k).

End Random.

End random.

Module string_.

Definition ascii_letters : string :=
  "abcdefghijklmnopqrstuvwxyzABCDEFGHIJKLMNOPQRSTUVWXYZ".
Definition digits : string := "0123456789".

End string_.

Record EtcdBenchmarkClient := {
  client_id : Z;
  config : BenchmarkConfig;
  etcd_clients : gmap string etcd3_client;
}.

Module EtcdBenchmarkClient.

Section Client.

Context `{Host World}.

(** [generate_random_key()] *)
Definition generate_random_key (self : EtcdBenchmarkClient) : IO World string :=
  suffix ← random.choices
             (list_ascii_of_string (string_.ascii_letters +:+ string_.digits))
             (key_size (config self)
              - Z.of_nat (String.length (key_prefix (config self))) - 1);
  mret (key_prefix (config self) +:+ "_" +:+ string_of_list_ascii suffix).

(** [generate_random_value()] *)
Definition generate_random_value (self : EtcdBenchmarkClient) : IO World string :=
  chars ← random.choices
            (list_ascii_of_string
               (string_.ascii_letters +:+ string_.digits +:+ " "))
            (value_size (config self));
  mret (string_of_list_ascii chars).

(** [perform_operation()] *)
Definition perform_operation (self : EtcdBenchmarkClient)
  : IO World OperationResult :=
  u ← total random_random;
  let is_write := negb (Qle_bool (write_ratio (config self)) u) in
  let operation := if is_write then "write"%string else "read"%string in
  endpoint ← random.choice (endpoints (config self));
  match etcd_clients self !! endpoint with
  | None =>
      now ← total time_time;
      mret {| operation := operation; success := false; latency_ms := 0;
              timestamp := now; endpoint := endpoint;
              error := "No client available for endpoint" |}
  | Some client =>
      start_time ← total time_perf_counter;
      try_except
        (_ ← (if is_write then
                key ← generate_random_key self;
                value ← generate_random_value self;
                etcd_put client key value
              else
                key ← generate_random_key self;
                _ ← etcd_get client key;
                mret ());
         end_time ← total time_perf_counter;
         let latency_ms := ((end_time - start_time) * 1000)%Q in
         now ← total time_time;
         mret {| operation := operation; success := true;
                 latency_ms := latency_ms; timestamp := now;
                 endpoint := endpoint; error := EmptyString |})
        (fun e =>
           end_time ← total time_perf_counter;
           let latency_ms := ((end_time - start_time) * 1000)%Q in
           now ← total time_time;
           mret {| operation := operation; success := false;
                   latency_ms := latency_ms; timestamp := now;
                   endpoint := endpoint; error := Py.str e |})
  end.

(** The loop of [run(duration)], cut off after [fuel] iterations; [results]
    is the client's buffer.  The cut-off also stands for the flag
    [self.running], which [run] sets and only [stop()] clears. *)
Fixpoint run_loop (fuel : nat) (self : EtcdBenchmarkClient) (duration : Z)
    (start_time : Q) (results : list OperationResult)
  : IO World (list OperationResult) :=
  match fuel with
  | O => mret results
  | S fuel' =>
      now ← total time_time;
      if negb (Qle_bool (inject_Z duration) (now - start_time)) then
        result ← perform_operation self;
        _ ← total (fun w => ((), time_sleep (1 # 1000) w));
        run_loop fuel' self duration start_time (results ++ [result])
      else mret results
  end.

Definition run (fuel : nat) (self : EtcdBenchmarkClient) (duration : Z)
  : IO World (list OperationResult) :=
  start_time ← total time_time;
  run_loop fuel self duration start_time [].

End Client.

End EtcdBenchmarkClient.

(** A world for examples: a tick counter that drives the random generator
    and the clocks, and a store that refuses every call. *)
Definition refusing_put (c : etcd3_client) (k v : string) (w : nat)
  : result unit * nat := (Raise (Exception "etcd connection failed"), S w).

Definition refusing_get (c : etcd3_client) (k : string) (w : nat)
  : result (option string) * nat := (Raise (Exception "etcd connection failed"), S w).

#[refine] Instance refusing_host : Host nat :=
  {| random_random w := ((Z.of_nat w mod 10) # 10, S w);
     random_randbelow n w := (Z.of_nat w mod n, S w);
     time_time w := (inject_Z (Z.of_nat w), S w);
     time_perf_counter w := (inject_Z (Z.of_nat w), S w);
     time_sleep _ w := S w;
     etcd_put := refusing_put;
     etcd_get := refusing_get |}.
Proof.
  - intros w. simpl. unfold Qle, Qlt. simpl.
    pose proof (Z.mod_pos_bound (Z.of_nat w) 10). lia.
  - intros n w Hn. simpl. apply Z.mod_pos_bound. lia.
Defined.

Definition example_config : BenchmarkConfig :=
  {| endpoints := ["http://localhost:2379"%string];
     num_clients := 10; duration := 30; write_ratio := 3 # 10;
     key_size := 12; value_size := 4; key_prefix := "benchmark";
     warmup_time := 5; report_interval := 5 |}.

Definition example_client : EtcdBenchmarkClient :=
  {| client_id := 0; config := example_config;
     etcd_clients := {[ "http://localhost:2379"%string := {| host := "localhost"; port := 2379 |} ]} |}.

(** A store that fails now and then: a call raises when the tick is even
    and returns when it is odd. *)
Definition flaky_put (c : etcd3_client) (k v : string) (w : nat)
  : result unit * nat :=
  (if Nat.even w then Raise (Exception "etcd connection failed") else Ok (), S w).

Definition flaky_get (c : etcd3_client) (k : string) (w : nat)
  : result (option string) * nat :=
  (if Nat.even w then Raise (Exception "etcd connection failed") else Ok None, S w).

Definition flaky_host : Host nat.
Proof.
  refine
    {| random_random w := ((Z.of_nat w mod 10) # 10, S w);
       random_randbelow n w := (Z.of_nat w mod n, S w);
       time_time w := (inject_Z (Z.of_nat w), S w);
       time_perf_counter w := (inject_Z (Z.of_nat w), S w);
       time_sleep _ w := S w;
       etcd_put := flaky_put;
       etcd_get := flaky_get |}.
  - intros w. simpl. unfold Qle, Qlt. simpl.
    pose proof (Z.mod_pos_bound (Z.of_nat w) 10). lia.
  - intros n w Hn. simpl. apply Z.mod_pos_bound. lia.
Defined.

(** A call of the store and how it ended: [None] when it returned, the
    exception when it raised. *)
Inductive store_event :=
| Put (client : etcd3_client) (key value : string) (raised : option exn)
| Get (client : etcd3_client) (key : string) (raised : option exn).

Definition raised_by {A} (r : result A) : option exn :=
  match r with
  | Ok _ => None
  | Raise e => Some e
  end.

(** The host [H] with a log of its store calls beside its world: every
    operation is that of [H] on the world, and [put] and [get] also append
    the call and its outcome to the log. *)
Definition recording `(H : Host World) : Host (list store_event * World) :=
  {| random_random lw :=
       ((random_random lw.2).1, (lw.1, (random_random lw.2).2));
     random_randbelow n lw :=
       ((random_randbelow n lw.2).1, (lw.1, (random_randbelow n lw.2).2));
     time_time lw := ((time_time lw.2).1, (lw.1, (time_time lw.2).2));
     time_perf_counter lw :=
       ((time_perf_counter lw.2).1, (lw.1, (time_perf_counter lw.2).2));
     time_sleep d lw := (lw.1, time_sleep d lw.2);
     etcd_put c k v lw :=
       ((etcd_put c k v lw.2).1,
        (lw.1 ++ [Put c k v (raised_by (etcd_put c k v lw.2).1)],
         (etcd_put c k v lw.2).2));
     etcd_get c k lw :=
       ((etcd_get c k lw.2).1,
        (lw.1 ++ [Get c k (raised_by (etcd_get c k lw.2).1)],
         (etcd_get c k lw.2).2));
     random_range lw := random_range lw.2;
     randbelow_range n lw := randbelow_range n lw.2 |}.

(** What a result says of a store call that ended with [raised]. *)
Definition reports (r : OperationResult) (raised : option exn) : Prop :=
  match raised with
  | None => success r = true /\ error r = EmptyString
  | Some e => success r = false /\ error r = Py.str e
  end.

(** The store calls of one operation, against its result: none when the
    endpoint has no client, else one [put] for a write or one [get] for a
    read, by the client of the endpoint, whose outcome is what the result
    reports. *)
Definition captured (self : EtcdBenchmarkClient) (r : OperationResult)
    (events : list store_event) : Prop :=
  match events with
  | [] =>
      etcd_clients self !! endpoint r = None
      /\ success r = false
      /\ error r = "No client available for endpoint"%string
  | [Put client key value raised] =>
      etcd_clients self !! endpoint r = Some client
      /\ operation r = "write"%string /\ reports r raised
  | [Get client key raised] =>
      etcd_clients self !! endpoint r = Some client
      /\ operation r = "read"%string /\ reports r raised
  | _ => False
  end.

(** ** numpy floats

    [usl_analysis.py] divides with numpy, where a zero divisor yields [inf]
    or [nan] (and a warning) instead of an exception.  Finite values are
    exact rationals; signed zeros are not distinguished. *)

Module Np.

Inductive float :=
| Fin (q : Q)
| PInf
| NInf
| NaN.

Definition neg (x : float) : float :=
  match x with
  | Fin q => Fin (- q)
  | PInf => NInf
  | NInf => PInf
  | NaN => NaN
  end.

Definition add (x y : float) : float :=
  match x, y with
  | NaN, _ | _, NaN => NaN
  | Fin a, Fin b => Fin (a + b)
  | PInf, NInf | NInf, PInf => NaN
  | PInf, _ | _, PInf => PInf
  | NInf, _ | _, NInf => NInf
  end.

Definition sub (x y : float) : float := add x (neg y).

(** An infinity scaled by a finite factor. *)
Definition scale_inf (inf : float) (a : Q) : float :=
  match (a ?= 0)%Q with
  | Eq => NaN
  | Gt => inf
  | Lt => neg inf
  end.

Definition mul (x y : float) : float :=
  match x, y with
  | NaN, _ | _, NaN => NaN
  | Fin a, Fin b => Fin (a * b)
  | Fin a, inf | inf, Fin a => scale_inf inf a
  | PInf, PInf | NInf, NInf => PInf
  | PInf, NInf | NInf, PInf => NInf
  end.

Definition true_divide (x y : float) : float :=
  match x, y with
  | NaN, _ | _, NaN => NaN
  | Fin a, Fin b =>
      match (b ?= 0)%Q with
      | Eq => match (a ?= 0)%Q with Eq => NaN | Gt => PInf | Lt => NInf end
      | _ => Fin (a / b)
      end
  | Fin _, _ => Fin 0
  | inf, Fin b => match (b ?= 0)%Q with Lt => neg inf | _ => inf end
  | _, _ => NaN
  end.

Definition sum (l : list float) : float := foldl add (Fin 0) l.

Definition mean (l : list float) : float :=
  true_divide (sum l) (Fin (inject_Z (Py.len l))).

Definition square (x : float) : float := mul x x.

End Np.

(** ** [usl_analysis.py] *)

(** What [fit_usl_model] returns when the fit went through; the all-[None]
    tuple of its [except] branch is [None]. *)
Record USLFit := {
  alpha : Np.float;
  beta : Np.float;
  alpha_err : Np.float;
  beta_err : Np.float;
  r_squared : Np.float;
  normalized_throughput : list Np.float;
}.

(** A 2 x 2 covariance matrix, by rows. *)
Definition covariance : Type := (Np.float * Np.float) * (Np.float * Np.float).

(** The numerical libraries behind [fit_usl_model]: [scipy.optimize.curve_fit]
    called with a model function, x and y data, [bounds=(lb, ub)] and
    [maxfev], and [np.sqrt].  Of [curve_fit] only its contract on [bounds]
    is fixed: parameters it returns lie within them. *)
Class NumLib := {
  curve_fit :
    (Np.float -> Np.float -> Np.float -> Np.float) ->
    list Np.float -> list Np.float -> Q * Q -> Q * Q -> Z ->
    result ((Np.float * Np.float) * covariance);
  sqrt : Np.float -> Np.float;
  curve_fit_within_bounds f xdata ydata lb ub maxfev a b pcov :
    curve_fit f xdata ydata lb ub maxfev = Ok ((a, b), pcov) ->
    exists qa qb,
      a = Np.Fin qa /\ b = Np.Fin qb
      /\ (lb.1 <= qa)%Q /\ (qa <= ub.1)%Q /\ (lb.2 <= qb)%Q /\ (qb <= ub.2)%Q;
}.

Module usl_analysis.

(** [usl_function(N, alpha, beta)], on one element of the array [N]. *)
Definition usl_function (N alpha beta : Np.float) : Np.float :=
  let one := Np.Fin 1 in
  Np.true_divide N
    (Np.add (Np.add one (Np.mul alpha (Np.sub N one)))
            (Np.mul (Np.mul beta N) (Np.sub N one))).

(** [np.array(throughput) / throughput[0]] *)
Definition normalize (throughput : list Q) : result (list Np.float) :=
  t0 ← Py.index throughput 0;
  Ok ((fun t => Np.true_divide (Np.Fin t) (Np.Fin t0)) <$> throughput).

(** [try: ... except Exception as e: ... return None, ...] *)
Definition try_except {A} (body : result A) : result (option A) :=
  match body with
  | Ok a => Ok (Some a)
  | Raise _ => Ok None
  end.

Definition fit_usl_model `{NumLib} (nodes : list Z) (throughput : list Q)
  : result (option USLFit) :=
  normalized_throughput ← normalize throughput;
  let nodes_array := (fun n => Np.Fin (inject_Z n)) <$> nodes in
  try_except (
    '(popt, pcov) ← curve_fit usl_function nodes_array normalized_throughput
                      (0%Q, 0%Q) (1%Q, 1%Q) 10000;
    let '(alpha, beta) := popt in
    let param_errors := (sqrt pcov.1.1, sqrt pcov.2.2) in
    let '(alpha_err, beta_err) := param_errors in
    let y_pred := (fun N => usl_function N alpha beta) <$> nodes_array in
    let ss_res :=
      Np.sum (Np.square <$> zip_with Np.sub normalized_throughput y_pred) in
    let ss_tot :=
      Np.sum ((fun y => Np.square (Np.sub y (Np.mean normalized_throughput)))
                <$> normalized_throughput) in
    let r_squared := Np.sub (Np.Fin 1) (Np.true_divide ss_res ss_tot) in
    Ok {| alpha := alpha; beta := beta;
          alpha_err := alpha_err; beta_err := beta_err;
          r_squared := r_squared;
          normalized_throughput := normalized_throughput |}).

(** The data extraction of [create_usl_analysis_plots] for one workload:
    [results] maps a node count to the throughput of that workload. *)
Definition extract (results : gmap Z Q) : result (list Z * list Q) :=
  let nodes := merge_sort Z.le (elements (dom results)) in
  throughput ← Py.comprehension
                 (fun n => match results !! n with
                           | Some t => Ok t
                           | None => Raise KeyError
                           end) nodes;
  Ok (nodes, throughput).

(** Extraction followed by the fit, as the loop body of
    [create_usl_analysis_plots] does. *)
Definition analyse `{NumLib} (results : gmap Z Q) : result (option USLFit) :=
  '(nodes, throughput) ← extract results;
  fit_usl_model nodes throughput.

End usl_analysis.

(** An optimizer about which only this is fixed: started at the midpoint of
    the box, the initial guess [curve_fit] makes when [bounds] are given and
    [p0] is not, it stays there when every residual is already zero, and
    reports an infinite covariance.  Elsewhere it gives up. *)
Definition residuals_zero (f : Np.float -> Np.float -> Np.float -> Np.float)
    (xdata ydata : list Np.float) (a b : Q) : bool :=
  forallb (fun xy => match Np.sub (f xy.1 (Np.Fin a) (Np.Fin b)) xy.2 with
                     | Np.Fin r => Qeq_bool r 0
                     | _ => false
                     end) (zip xdata ydata).

Definition midpoint (lo hi : Q) : Q := Qred ((lo + hi) / 2).

Definition stationary_curve_fit
    (f : Np.float -> Np.float -> Np.float -> Np.float)
    (xdata ydata : list Np.float) (lb ub : Q * Q) (maxfev : Z)
  : result ((Np.float * Np.float) * covariance) :=
  let a := midpoint lb.1 ub.1 in
  let b := midpoint lb.2 ub.2 in
  if Qle_bool lb.1 ub.1 && Qle_bool lb.2 ub.2 && residuals_zero f xdata ydata a b
  then Ok ((Np.Fin a, Np.Fin b), ((Np.PInf, Np.PInf), (Np.PInf, Np.PInf)))
  else Raise (RuntimeError "Optimal parameters not found").

(** ** [benchmark.py]: the selection of [benchmark_mixed_workload] *)

Module benchmark.

Section Selection.

(** Python floats, with the two operations the selection uses:
    [read_ratio * 10] and [int < float]. *)
Context {float : Type}.
Variable mul_int : float -> Z -> float.
Variable int_lt : Z -> float -> bool.

(** The [if]/[else] that sets [should_read] in the loop. *)
Definition should_read (operation_count : Z) (read_ratio : float) : bool :=
  if operation_count mod 100 =? 0
  then int_lt (operation_count mod 10) (mul_int read_ratio 10)
  else int_lt (operation_count mod 10) (mul_int read_ratio 10).

End Selection.

End benchmark.

(** The single rule of the specification:
    read iff [(operation_count % 10) < read_ratio * 10]. *)
Definition single_rule {float : Type} (mul_int : float -> Z -> float)
    (int_lt : Z -> float -> bool) (operation_count : Z) (read_ratio : float) : bool :=
  int_lt (operation_count mod 10) (mul_int read_ratio 10).

(** Floats as exact rationals. *)
Definition Qmul_int (x : Q) (k : Z) : Q := (x * inject_Z k)%Q.
Definition Qint_lt (k : Z) (x : Q) : bool := negb (Qle_bool x (inject_Z k)).

(** [np.sqrt], tabulated at the arguments met with the optimizer above. *)
Definition sqrt_tabulated (x : Np.float) : Np.float :=
  match x with
  | Np.Fin q => if Qeq_bool q 0 then Np.Fin 0 else if Qeq_bool q 1 then Np.Fin 1 else Np.NaN
  | Np.PInf => Np.PInf
  | _ => Np.NaN
  end.

#[refine] Instance stationary_numlib : NumLib :=
  {| curve_fit := stationary_curve_fit; sqrt := sqrt_tabulated |}.
Proof.
  intros f xdata ydata [l1 l2] [u1 u2] maxfev a b pcov.
  unfold stationary_curve_fit, midpoint. simpl.
  destruct (Qle_bool l1 u1) eqn:E1; [|discriminate].
  destruct (Qle_bool l2 u2) eqn:E2; [|discriminate].
  destruct (residuals_zero _ _ _ _ _); [|discriminate].
  intros [= <- <- _]. eexists _, _. split; [reflexivity|]. split; [reflexivity|].
  apply Qle_bool_iff in E1, E2. rewrite !Qred_correct.
  repeat split; apply Qle_shift_div_l || apply Qle_shift_div_r; lra.
Defined.

(** * Further definitions *)

From Stdlib Require Decimal DecimalString DecimalN.
From Stdlib Require Import Ascii.

(** The number of operations attempted against an endpoint. *)
Definition attempts_at (ep : string) (rs : list OperationResult) : Z :=
  Py.len (filter (fun r => endpoint r = ep) rs).

(** Every result is a read or a write, as [perform_operation] builds them. *)
Definition read_or_write (r : OperationResult) : Prop :=
  operation r = "read"%string \/ operation r = "write"%string.

(** What the configuration and the clients of [self] say about a result
    of [perform_operation]: its kind, its endpoint, and the result for an
    endpoint without a client. *)
Definition as_configured (self : EtcdBenchmarkClient) (r : OperationResult)
  : Prop :=
  read_or_write r
  /\ endpoint r ∈ endpoints (config self)
  /\ ((write_ratio (config self) <= 0)%Q -> operation r = "read"%string)
  /\ ((1 <= write_ratio (config self))%Q -> operation r = "write"%string)
  /\ (etcd_clients self !! endpoint r = None ->
      success r = false /\ latency_ms r = 0%Q
      /\ error r = "No client available for endpoint"%string)
  /\ (success r = true -> error r = EmptyString).

(** [rs] is the buffer of a client after [run]. *)
Definition run_of `{Host World} (self : EtcdBenchmarkClient)
    (rs : list OperationResult) : Prop :=
  exists (fuel : nat) (duration : Z) (w w' : World),
    EtcdBenchmarkClient.run fuel self duration w = (Ok rs, w').

(** ** [benchmark.py]: the etcdctl benchmarks *)

(** [format(i, "0<width>d")]: the decimal digits of [i], filled with zeros
    after the sign up to [width] characters; [width = 0] gives [str(i)]. *)
Definition zero_fill (k : nat) (d : Decimal.uint) : Decimal.uint :=
  Nat.iter k Decimal.D0 d.

Definition format_0d (width : nat) (i : Z) : string :=
  let d := N.to_uint (Z.abs_N i) in
  if i <? 0
  then "-" +:+ DecimalString.NilEmpty.string_of_uint
                 (zero_fill (width - 1 - Decimal.nb_digits d) d)
  else DecimalString.NilEmpty.string_of_uint (zero_fill (width - Decimal.nb_digits d) d).

(** How [subprocess.run] ends: the process completes with a return code and
    its two outputs, the timeout expires, or another exception is raised. *)
Inductive completed :=
| Completed (returncode : Z) (stdout stderr : string)
| TimeoutExpired
| Failed (e : exn).

(** The world of [benchmark.py]: the wall clock and the processes it
    starts. *)
Class Shell (World : Type) := {
  shell_time : World -> Q * World;
  subprocess_run : list string -> Z -> World -> completed * World;
}.

Module benchmark_py.

(** The dictionary that the sequential and the concurrent benchmarks
    return. *)
Record OperationStats := {
  total_operations : Z;
  successful_operations : Z;
  failed_operations : Z;
  duration_seconds : Q;
  operations_per_second : Q;
  average_latency_ms : Q;
}.

(** The dictionary that [benchmark_mixed_workload] returns. *)
Record MixedStats := {
  mixed_duration_seconds : Q;
  mixed_total_operations : Z;
  read_operations : Z;
  write_operations : Z;
  read_failures : Z;
  write_failures : Z;
  total_operations_per_second : Q;
  read_ops_per_second : Q;
  write_ops_per_second : Q;
  read_ratio_actual : Q;
}.

(** [x / y if y > 0 else 0] *)
Definition guarded_div (x y : Q) : Q :=
  if Qlt_le_dec 0 y then (x / y)%Q else 0%Q.

(** [successful_ops / duration if duration > 0 else 0] and
    [(duration * 1000) / successful_ops if successful_ops > 0 else 0], in a
    dictionary with the counts. *)
Definition operation_stats (total successful failed : Z) (duration : Q)
  : OperationStats :=
  {| total_operations := total;
     successful_operations := successful;
     failed_operations := failed;
     duration_seconds := duration;
     operations_per_second := guarded_div (inject_Z successful) duration;
     average_latency_ms :=
       if 0 <? successful then ((duration * 1000) / inject_Z successful)%Q else 0%Q |}.

(** The worker of [benchmark_concurrent_writes].  The threads share the
    store, so what a [put] returns is not a function of one thread's past:
    [put_ok thread_id i] says whether the [i]-th put of a thread
    succeeded. *)
Definition worker_thread (put_ok : Z -> Z -> bool) (thread_id ops_count : Z)
  : Z * Z :=
  foldl (fun '(successful, failed) i =>
           if put_ok thread_id i then (successful + 1, failed)
           else (successful, failed + 1))
        (0, 0) (Py.range 0 ops_count).

(** [benchmark_concurrent_writes(total_ops, concurrency)]; [duration] is
    the time the pool took.  The dictionary it returns has the entries of
    the sequential ones and the key [concurrency]. *)
Definition benchmark_concurrent_writes (put_ok : Z -> Z -> bool)
    (total_ops concurrency : Z) (duration : Q) : result (OperationStats * Z) :=
  if concurrency =? 0 then Raise ZeroDivisionError
  else
    let ops_per_thread := total_ops / concurrency in
    let remaining_ops := total_ops mod concurrency in
    if concurrency <? 0
    then Raise (ValueError "max_workers must be greater than 0")
    else
      let results :=
        (fun thread_id =>
           worker_thread put_ok thread_id
             (ops_per_thread + (if thread_id <? remaining_ops then 1 else 0)))
          <$> Py.range 0 concurrency in
      let total_successful := Py.sum (fst <$> results) in
      let total_failed := Py.sum (snd <$> results) in
      Ok (operation_stats total_ops total_successful total_failed duration,
          concurrency).

(** The two rates of a dictionary, from its own counts and duration: the
    successes over the duration and the duration over the successes, each
    0 where its divisor is not positive. *)
Definition rates_consistent (r : OperationStats) : Prop :=
  ((0 < duration_seconds r)%Q ->
   (operations_per_second r
    == inject_Z (successful_operations r) / duration_seconds r)%Q)
  /\ ((duration_seconds r <= 0)%Q -> operations_per_second r = 0%Q)
  /\ (0 < successful_operations r ->
      (average_latency_ms r
       == duration_seconds r * 1000 / inject_Z (successful_operations r))%Q)
  /\ (successful_operations r <= 0 -> average_latency_ms r = 0%Q).

Section Sequential.

Context `{Shell World}.

(** [run_etcdctl_command(command, timeout)] *)
Definition run_etcdctl_command (compose_file : string) (command : list string)
    (timeout : Z) (w : World) : (bool * string * string) * World :=
  let full_command :=
    ["docker-compose"; "-f"; compose_file; "exec"; "-T"; "etcd-1"; "etcdctl"]%string
    ++ command in
  match subprocess_run full_command timeout w with
  | (Completed returncode stdout stderr, w') => ((returncode =? 0, stdout, stderr), w')
  | (TimeoutExpired, w') => ((false, EmptyString, "Command timed out"%string), w')
  | (Failed e, w') => ((false, EmptyString, Py.str e), w')
  end.

(** The loop of [benchmark_sequential_writes] over [range(count)]. *)
Fixpoint write_loop (compose_file key_prefix : string) (indices : list Z)
    (failed_ops : Z) (w : World) : Z * World :=
  match indices with
  | [] => (failed_ops, w)
  | i :: rest =>
      let key := key_prefix +:+ "/key-" +:+ format_0d 6 i in
      let '(now, w1) := shell_time w in
      let value :=
        "value-" +:+ format_0d 6 i +:+ "-" +:+ format_0d 0 (Py.int (now * 1000000)) in
      let '((success, _, _), w2) :=
        run_etcdctl_command compose_file ["put"%string; key; value] 10 w1 in
      write_loop compose_file key_prefix rest
        (if success then failed_ops else failed_ops + 1) w2
  end.

(** [benchmark_sequential_writes(count, key_prefix)] *)
Definition benchmark_sequential_writes (compose_file : string) (count : Z)
    (key_prefix : string) (w : World) : OperationStats * World :=
  let '(start_time, w1) := shell_time w in
  let '(failed_ops, w2) :=
    write_loop compose_file key_prefix (Py.range 0 count) 0 w1 in
  let '(end_time, w3) := shell_time w2 in
  let duration := (end_time - start_time)%Q in
  let successful_ops := count - failed_ops in
  (operation_stats count successful_ops failed_ops duration, w3).

(** The loop of [benchmark_sequential_reads] over [range(count)]. *)
Fixpoint read_loop (compose_file key_prefix : string) (indices : list Z)
    (failed_ops : Z) (w : World) : Z * World :=
  match indices with
  | [] => (failed_ops, w)
  | i :: rest =>
      let key := key_prefix +:+ "/key-" +:+ format_0d 6 i in
      let '((success, _, _), w1) :=
        run_etcdctl_command compose_file ["get"%string; key] 10 w in
      read_loop compose_file key_prefix rest
        (if success then failed_ops else failed_ops + 1) w1
  end.

(** [benchmark_sequential_reads(count, key_prefix)] *)
Definition benchmark_sequential_reads (compose_file : string) (count : Z)
    (key_prefix : string) (w : World) : OperationStats * World :=
  let '(start_time, w1) := shell_time w in
  let '(failed_ops, w2) :=
    read_loop compose_file key_prefix (Py.range 0 count) 0 w1 in
  let '(end_time, w3) := shell_time w2 in
  let duration := (end_time - start_time)%Q in
  let successful_ops := count - failed_ops in
  (operation_stats count successful_ops failed_ops duration, w3).

End Sequential.

Section Mixed.

Context `{Shell World}.

(** The five counters of [benchmark_mixed_workload]. *)
Record MixedCounters := {
  read_count : Z;
  write_count : Z;
  failed_reads : Z;
  failed_writes : Z;
  operation_count : Z;
}.

Definition no_operations : MixedCounters :=
  {| read_count := 0; write_count := 0; failed_reads := 0; failed_writes := 0;
     operation_count := 0 |}.

(** The loop over [range(100)] that puts the keys to read. *)
Fixpoint prepopulate (compose_file : string) (indices : list Z) (w : World)
  : World :=
  match indices with
  | [] => w
  | i :: rest =>
      let key := "/benchmark/mixed/key-" +:+ format_0d 6 i in
      let value := "value-" +:+ format_0d 6 i in
      let '(_, w1) :=
        run_etcdctl_command compose_file ["put"%string; key; value] 30 w in
      prepopulate compose_file rest w1
  end.

(** The body of the [while] loop. *)
Definition mixed_operation (compose_file : string) (read_ratio : Q)
    (c : MixedCounters) (w : World) : MixedCounters * World :=
  let operation_count := operation_count c + 1 in
  if benchmark.should_read Qmul_int Qint_lt operation_count read_ratio
  then
    let key := "/benchmark/mixed/key-" +:+ format_0d 6 (operation_count mod 100) in
    let '((success, _, _), w1) :=
      run_etcdctl_command compose_file ["get"%string; key] 5 w in
    (if success
     then {| read_count := read_count c + 1; write_count := write_count c;
             failed_reads := failed_reads c; failed_writes := failed_writes c;
             operation_count := operation_count |}
     else {| read_count := read_count c; write_count := write_count c;
             failed_reads := failed_reads c + 1; failed_writes := failed_writes c;
             operation_count := operation_count |}, w1)
  else
    let key := "/benchmark/mixed/key-" +:+ format_0d 6 operation_count in
    let '(now, w1) := shell_time w in
    let value :=
      "value-" +:+ format_0d 6 operation_count +:+ "-"
      +:+ format_0d 0 (Py.int (now * 1000000)) in
    let '((success, _, _), w2) :=
      run_etcdctl_command compose_file ["put"%string; key; value] 5 w1 in
    (if success
     then {| read_count := read_count c; write_count := write_count c + 1;
             failed_reads := failed_reads c; failed_writes := failed_writes c;
             operation_count := operation_count |}
     else {| read_count := read_count c; write_count := write_count c;
             failed_reads := failed_reads c; failed_writes := failed_writes c + 1;
             operation_count := operation_count |}, w2).

(** [while time.time() < end_time: ...]; the loop has no bound of its own,
    [fuel] is the number of times that its test is evaluated at most, and
    [None] says that more are needed. *)
Fixpoint mixed_loop (fuel : nat) (compose_file : string) (read_ratio end_time : Q)
    (c : MixedCounters) (w : World) : option (MixedCounters * World) :=
  match fuel with
  | O => None
  | S fuel' =>
      let '(now, w1) := shell_time w in
      if Qlt_le_dec now end_time
      then
        let '(c', w2) := mixed_operation compose_file read_ratio c w1 in
        mixed_loop fuel' compose_file read_ratio end_time c' w2
      else Some (c, w1)
  end.

(** [benchmark_mixed_workload(duration_seconds, read_ratio)] *)
Definition benchmark_mixed_workload (fuel : nat) (compose_file : string)
    (duration_seconds read_ratio : Q) (w : World) : option (MixedStats * World) :=
  let '(start_time, w1) := shell_time w in
  let end_time := (start_time + duration_seconds)%Q in
  let w2 := prepopulate compose_file (Py.range 0 100) w1 in
  match mixed_loop fuel compose_file read_ratio end_time no_operations w2 with
  | None => None
  | Some (c, w3) =>
      let '(now, w4) := shell_time w3 in
      let actual_duration := (now - start_time)%Q in
      let total_ops := read_count c + write_count c in
      Some
        ({| mixed_duration_seconds := actual_duration;
            mixed_total_operations := total_ops;
            read_operations := read_count c;
            write_operations := write_count c;
            read_failures := failed_reads c;
            write_failures := failed_writes c;
            total_operations_per_second :=
              guarded_div (inject_Z total_ops) actual_duration;
            read_ops_per_second :=
              guarded_div (inject_Z (read_count c)) actual_duration;
            write_ops_per_second :=
              guarded_div (inject_Z (write_count c)) actual_duration;
            read_ratio_actual :=
              if 0 <? total_ops
              then (inject_Z (read_count c) / inject_Z total_ops)%Q else 0%Q |},
         w4)
  end.

(** A clock that advances: [now] is a lower bound of the next reading of
    the clock, a reading takes [delta] at least, and running a command does
    not turn the clock back. *)
Record advancing_clock (now : World -> Q) (delta : Q) : Prop := {
  clock_reading : forall w, (now w <= (shell_time w).1)%Q;
  clock_tick : forall w, (now w + delta <= now (shell_time w).2)%Q;
  clock_run : forall command timeout w,
    (now w <= now (subprocess_run command timeout w).2)%Q;
}.

End Mixed.

End benchmark_py.

(** The operations attempted by the mixed workload. *)
Definition mixed_attempts (r : benchmark_py.MixedStats) : Z :=
  benchmark_py.read_operations r + benchmark_py.write_operations r
  + benchmark_py.read_failures r + benchmark_py.write_failures r.

(** The number of last digits [0..9] that select a read. *)
Definition read_slots (read_ratio : Q) : Z :=
  Z.max 0 (Z.min 10 (Qceiling (read_ratio * 10))).

(** The reads among the operations [1..n]: [read_slots] in every ten, and
    in the rest the digits [1..n mod 10] below it. *)
Definition reads_among (read_ratio : Q) (n : Z) : Z :=
  read_slots read_ratio * (n / 10)
  + Z.min (n mod 10) (Z.max 0 (read_slots read_ratio - 1)).

(** What the loop keeps: no counter is negative, every operation is
    counted once, and the reads are those that the selection picks. *)
Definition counted (read_ratio : Q) (c : benchmark_py.MixedCounters) : Prop :=
  0 <= benchmark_py.read_count c /\ 0 <= benchmark_py.write_count c
  /\ 0 <= benchmark_py.failed_reads c /\ 0 <= benchmark_py.failed_writes c
  /\ benchmark_py.operation_count c
     = benchmark_py.read_count c + benchmark_py.write_count c
       + benchmark_py.failed_reads c + benchmark_py.failed_writes c
  /\ benchmark_py.read_count c + benchmark_py.failed_reads c
     = reads_among read_ratio (benchmark_py.operation_count c).

(** ** [benchmark-etcd-cluster.py]: preparing the benchmark *)

(** Two methods of [str]. *)
Module str_.

(** [s.replace(old, new)] for a non-empty [old]: the occurrences of [old]
    are replaced from left to right; [skip] counts the characters of an
    occurrence that are still to be passed over. *)
Fixpoint replace_from (old new s : string) (skip : nat) : string :=
  match s with
  | EmptyString => EmptyString
  | String c s' =>
      match skip with
      | S k => replace_from old new s' k
      | O =>
          if String.prefix old s
          then new +:+ replace_from old new s' (String.length old - 1)
          else String c (replace_from old new s' 0)
      end
  end.

Definition replace (s old new : string) : string := replace_from old new s 0.

(** [s.split(sep)] for a separator of one character. *)
Fixpoint split (s : string) (sep : Ascii.ascii) : list string :=
  match s with
  | EmptyString => [EmptyString]
  | String c s' =>
      if Ascii.eqb c sep then EmptyString :: split s' sep
      else match split s' sep with
           | part :: parts => String c part :: parts
           | [] => [String c EmptyString]
           end
  end.

End str_.

(** [a, b = l] *)
Definition unpack_pair {A} (l : list A) : result (A * A) :=
  match l with
  | [a; b] => Ok (a, b)
  | [] => Raise (ValueError "not enough values to unpack (expected 2, got 0)")
  | [_] => Raise (ValueError "not enough values to unpack (expected 2, got 1)")
  | _ => Raise (ValueError "too many values to unpack (expected 2)")
  end.

(** The [etcd3] package and [int] on a string: what [int(port)] returns or
    raises, how [etcd3.client(host=..., port=...)] and [client.status()]
    end. *)
Class Etcd3 (World : Type) := {
  int_of_str : string -> result Z;
  etcd3_connect : string -> Z -> World -> result etcd3_client * World;
  client_status : etcd3_client -> World -> result unit * World;
}.

(** [config.endpoints = endpoints] *)
Definition with_endpoints (config : BenchmarkConfig) (endpoints : list string)
  : BenchmarkConfig :=
  {| endpoints := endpoints;
     num_clients := num_clients config;
     duration := duration config;
     write_ratio := write_ratio config;
     key_size := key_size config;
     value_size := value_size config;
     key_prefix := key_prefix config;
     warmup_time := warmup_time config;
     report_interval := report_interval config |}.

Module EtcdBenchmarkSetup.

Section Setup.

Context `{Host World} `{Etcd3 World}.

(** The body of the loop of [EtcdBenchmarkClient.__init__]. *)
Definition connect_endpoint (etcd_clients : gmap string etcd3_client)
    (endpoint : string) : IO World (gmap string etcd3_client) :=
  '(host, port) ← pure (unpack_pair
                          (str_.split (str_.replace endpoint "http://" EmptyString)
                             ":"%char));
  try_except
    (port_number ← pure (int_of_str port);
     client ← etcd3_connect host port_number;
     mret (<[endpoint := client]> etcd_clients))
    (fun e => mret etcd_clients).

Fixpoint connect_endpoints (endpoints : list string)
    (etcd_clients : gmap string etcd3_client)
  : IO World (gmap string etcd3_client) :=
  match endpoints with
  | [] => mret etcd_clients
  | endpoint :: rest =>
      etcd_clients' ← connect_endpoint etcd_clients endpoint;
      connect_endpoints rest etcd_clients'
  end.

(** [EtcdBenchmarkClient(client_id, config)] *)
Definition __init__ (client_id : Z) (config : BenchmarkConfig)
  : IO World EtcdBenchmarkClient :=
  etcd_clients ← connect_endpoints (endpoints config) ∅;
  mret {| client_id := client_id; config := config;
          etcd_clients := etcd_clients |}.

(** The loop of [detect_cluster_nodes] over [range(1, 11)]. *)
Fixpoint detect_loop (indices : list Z) (endpoints : list string)
  : IO World (list string) :=
  match indices with
  | [] => mret endpoints
  | i :: rest =>
      let port := 2379 + i - 1 in
      let endpoint := "http://localhost:" +:+ format_0d 0 port in
      endpoints' ←
        try_except
          (client ← etcd3_connect "localhost" port;
           _ ← client_status client;
           mret (endpoints ++ [endpoint]))
          (fun e => mret endpoints);
      detect_loop rest endpoints'
  end.

Definition detect_cluster_nodes : IO World (list string) :=
  detect_loop (Py.range 1 11) [].

(** [[EtcdBenchmarkClient(i, config) for i in range(num_clients)]] *)
Fixpoint create_clients (indices : list Z) (config : BenchmarkConfig)
  : IO World (list EtcdBenchmarkClient) :=
  match indices with
  | [] => mret []
  | i :: rest =>
      client ← __init__ i config;
      clients ← create_clients rest config;
      mret (client :: clients)
  end.

Fixpoint warmup_loop (rounds : list Z) (warmup_client : EtcdBenchmarkClient)
  : IO World unit :=
  match rounds with
  | [] => mret ()
  | _ :: rest =>
      _ ← EtcdBenchmarkClient.perform_operation warmup_client;
      _ ← total (fun w => ((), time_sleep (1 # 100) w));
      warmup_loop rest warmup_client
  end.

(** [run_warmup()] *)
Definition run_warmup (config : BenchmarkConfig) : IO World unit :=
  warmup_client ← __init__ 0 config;
  warmup_loop (Py.range 0 100) warmup_client.

(** [prepare_benchmark()]; it returns the configuration and the clients
    that it leaves in [self]. *)
Definition prepare_benchmark (config : BenchmarkConfig)
  : IO World (BenchmarkConfig * list EtcdBenchmarkClient) :=
  config ←
    (if Py.len (endpoints config) =? 0
     then
       detected_endpoints ← detect_cluster_nodes;
       if Py.len detected_endpoints =? 0
       then pure (Raise (RuntimeError
                           "No etcd nodes detected. Please start the cluster first."))
       else mret (with_endpoints config detected_endpoints)
     else mret config);
  clients ← create_clients (Py.range 0 (num_clients config)) config;
  _ ← (if 0 <? warmup_time config then run_warmup config else mret ());
  mret (config, clients).

End Setup.

End EtcdBenchmarkSetup.

(** The ten endpoints that [detect_cluster_nodes] probes. *)
Definition local_endpoints : list string :=
  (fun i => "http://localhost:" +:+ format_0d 0 (2379 + i - 1)) <$> Py.range 1 11.

(** An endpoint that [__init__] can take apart: a host and a port around
    one colon, once [http://] is removed. *)
Definition host_and_port (endpoint : string) : Prop :=
  exists host port,
    str_.split (str_.replace endpoint "http://" EmptyString) ":"%char = [host; port].

(** What [__init__] leaves in a client. *)
Definition initialised (i : Z) (cfg : BenchmarkConfig)
    (client : EtcdBenchmarkClient) : Prop :=
  client_id client = i
  /\ config client = cfg
  /\ forall k, is_Some (etcd_clients client !! k) -> k ∈ endpoints cfg.

(** A configuration that leaves the endpoints to the detection, and one
    with an endpoint that [__init__] cannot take apart. *)
Definition detecting_config : BenchmarkConfig := with_endpoints example_config [].

Definition https_config : BenchmarkConfig :=
  with_endpoints example_config ["https://localhost:2379"%string].

(** Three local nodes that answer, for examples. *)
#[export] Instance three_nodes : Etcd3 nat :=
  {| int_of_str s :=
       match DecimalString.NilEmpty.uint_of_string s with
       | Some d => Ok (Z.of_N (N.of_uint d))
       | None => Raise (ValueError "invalid literal for int() with base 10")
       end;
     etcd3_connect host port w :=
       (if port <? 2382 then Ok {| host := host; port := port |}
        else Raise (Exception "connection refused"), S w);
     client_status client w := (Ok (), S w) |}.

(** ** [usl_analysis.py]: the predictions *)

(** [np.arange] and [np.argmax] on a one-dimensional array of floats. *)
Module NpArray.

(** [x <= y]: false whenever one side is nan. *)
Definition le (x y : Np.float) : bool :=
  match x, y with
  | Np.NaN, _ | _, Np.NaN => false
  | Np.NInf, _ | _, Np.PInf => true
  | Np.Fin a, Np.Fin b => Qle_bool a b
  | _, _ => false
  end.

Definition isnan (x : Np.float) : bool :=
  match x with
  | Np.NaN => true
  | _ => false
  end.

(** The scan of [argmax]: [mp] is the maximum so far and [max_ind] its
    index; an element replaces it unless it is [<= mp], and a nan ends the
    scan. *)
Fixpoint argmax_scan (ip : list Np.float) (i max_ind : Z) (mp : Np.float) : Z :=
  match ip with
  | [] => max_ind
  | x :: rest =>
      if le x mp then argmax_scan rest (i + 1) max_ind mp
      else if isnan x then i
      else argmax_scan rest (i + 1) i x
  end.

Definition argmax (a : list Np.float) : result Z :=
  match a with
  | [] => Raise (ValueError "attempt to get argmax of an empty sequence")
  | mp :: rest => if isnan mp then Ok 0 else Ok (argmax_scan rest 1 0 mp)
  end.

Definition arange (start stop : Z) : list Z := Py.range start stop.

End NpArray.

(** ** [usl_analysis.py]: the result files *)

(** The regular expression [results-(\d+)nodes?\.json] of
    [extract_node_count], on strings of ASCII characters. *)
Module re_.

Definition is_digit (c : ascii) : bool :=
  (48 <=? nat_of_ascii c)%nat && (nat_of_ascii c <=? 57)%nat.

(** [(\d+)]: the longest run of digits at the start of [s], and what
    follows it. *)
Fixpoint digits (s : string) : string * string :=
  match s with
  | EmptyString => (EmptyString, EmptyString)
  | String c s' =>
      if is_digit c
      then let '(ds, rest) := digits s' in (String c ds, rest)
      else (EmptyString, s)
  end.

(** [s] without the literal [lit] at its start. *)
Fixpoint literal (lit s : string) : option string :=
  match lit with
  | EmptyString => Some s
  | String c lit' =>
      match s with
      | String c' s' => if Ascii.eqb c c' then literal lit' s' else None
      | EmptyString => None
      end
  end.

(** A match of the pattern at the start of [s]: its group 1.  Giving back
    digits of the run or the optional [s] cannot turn a failure into a
    match, as the pattern goes on with [n] and with [.]. *)
Definition match_here (s : string) : option string :=
  rest ← literal "results-" s;
  let '(group, rest) := digits rest in
  if String.eqb group EmptyString then None
  else
    rest ← literal "node" rest;
    let rest := match literal "s" rest with
                | Some rest' => rest'
                | None => rest
                end in
    _ ← literal ".json" rest;
    Some group.

(** [re.search]: the match that starts first. *)
Fixpoint search (s : string) : option string :=
  match match_here s with
  | Some group => Some group
  | None =>
      match s with
      | EmptyString => None
      | String _ s' => search s'
      end
  end.

End re_.

(** [int(s)] on a string of ASCII digits.  [max_str_digits] is the limit
    on the length of [s] that the interpreter enforces with [ValueError]
    (4300 by default from Python 3.11 on); 0 stands for no limit. *)
Definition int_of_digits (max_str_digits : Z) (s : string) : result Z :=
  if (0 <? max_str_digits) && (max_str_digits <? Z.of_nat (String.length s))
  then Raise (ValueError "Exceeds the limit for integer string conversion")
  else match DecimalString.NilEmpty.uint_of_string s with
       | Some Decimal.Nil | None =>
           Raise (ValueError "invalid literal for int() with base 10")
       | Some d => Ok (Z.of_N (N.of_uint d))
       end.

(** The name of a result file: a directory, [results-], the node count
    filled with zeros to [width] digits, [node] or [nodes], and [.json]. *)
Definition result_file (dir : string) (width : nat) (n : N) (plural : bool)
  : string :=
  dir +:+ "results-" +:+ format_0d width (Z.of_N n) +:+ "node"
  +:+ (if plural then "s" else EmptyString) +:+ ".json".

(** The files that [load_benchmark_results] reads: what [glob.glob]
    returns, and how [open] and [json.load] end on a file. *)
Class Files (World Json : Type) := {
  glob_glob : string -> World -> list string * World;
  json_load : string -> World -> result Json * World;
}.

Module usl_analysis_py.

(** [extract_node_count(filename)]; [None] is Python's [None]. *)
Definition extract_node_count (max_str_digits : Z) (filename : string)
  : result (option Z) :=
  match re_.search filename with
  | Some group => n ← int_of_digits max_str_digits group; Ok (Some n)
  | None => Ok None
  end.

Section Load.

Context `{Files World Json}.

(** The loop of [load_benchmark_results] over the files. *)
Fixpoint load_files (max_str_digits : Z) (files : list string)
    (results : gmap Z Json) : IO World (gmap Z Json) :=
  match files with
  | [] => mret results
  | file :: rest =>
      node_count ← pure (extract_node_count max_str_digits file);
      match node_count with
      | None => load_files max_str_digits rest results
      | Some n =>
          results' ←
            try_except
              (data ← json_load file; mret (<[n := data]> results))
              (fun e => mret results);
          load_files max_str_digits rest results'
      end
  end.

(** [load_benchmark_results(pattern)] *)
Definition load_benchmark_results (max_str_digits : Z) (pattern : string)
  : IO World (gmap Z Json) :=
  files ← total (glob_glob pattern);
  if Py.len files =? 0 then mret ∅
  else load_files max_str_digits files ∅.

End Load.


(** The tuple that [calculate_usl_predictions] returns. *)
Record USLPredictions := {
  nodes : list Z;
  capacity : list Np.float;
  throughput : list Np.float;
  optimal_nodes : Z;
  optimal_capacity : Np.float;
}.

(** [calculate_usl_predictions(alpha, beta, max_nodes)] *)
Definition calculate_usl_predictions (alpha beta : Np.float) (max_nodes : Z)
  : result USLPredictions :=
  let nodes := NpArray.arange 1 (max_nodes + 1) in
  let capacity :=
    (fun N => usl_analysis.usl_function (Np.Fin (inject_Z N)) alpha beta)
      <$> nodes in
  let throughput := capacity in
  optimal_idx ← NpArray.argmax capacity;
  optimal_nodes ← Py.index nodes optimal_idx;
  optimal_capacity ← Py.index capacity optimal_idx;
  Ok {| nodes := nodes; capacity := capacity; throughput := throughput;
        optimal_nodes := optimal_nodes; optimal_capacity := optimal_capacity |}.

End usl_analysis_py.

(** Every entry of [results] came from a file of the list. *)
Definition loaded_from `{Files World Json} (max_str_digits : Z)
    (files : list string) (results : gmap Z Json) : Prop :=
  forall n data,
    results !! n = Some data ->
    exists file w0,
      file ∈ files
      /\ usl_analysis_py.extract_node_count max_str_digits file = Ok (Some n)
      /\ (json_load file w0).1 = Ok data.

(** Three files for examples: one that loads, one that does not parse, and
    one whose name does not match. *)
#[export] Instance three_files : Files nat string :=
  {| glob_glob pattern w :=
       (["results-1nodes.json"; "results-3nodes.json"; "notes.txt"]%string, S w);
     json_load file w :=
       (if String.eqb file "results-3nodes.json"
        then Raise (Exception "Expecting value")
        else Ok "{}"%string, S w) |}.

(** The law as the module states it: C(N) = N / (1 + α(N-1) + βN(N-1)). *)
Definition relative_capacity (a b : Q) (n : Z) : Q :=
  (inject_Z n / (1 + a * (inject_Z n - 1) + b * inject_Z n * (inject_Z n - 1)))%Q.

(** [k] is the place of the first maximum [m] of [qs]. *)
Definition first_maximum (qs : list Q) (k : nat) (m : Q) : Prop :=
  qs !! k = Some m
  /\ (forall j x, qs !! j = Some x -> (x <= m)%Q)
  /\ (forall j x, (j < k)%nat -> qs !! j = Some x -> (x < m)%Q).

(** A shell that keeps a log of the commands it is asked to run, beside
    the world of the shell it wraps. *)
Definition logging `(S : Shell World) : Shell (list (list string) * World) :=
  {| shell_time lw :=
       let '(t, w') := shell_time lw.2 in (t, (lw.1, w'));
     subprocess_run command timeout lw :=
       let '(c, w') := subprocess_run command timeout lw.2 in
       (c, (lw.1 ++ [command], w')) |}.

(** A shell that keeps, beside the world of the shell it wraps, how each
    process that it started has ended. *)
Definition tracing `(S : Shell World) : Shell (list completed * World) :=
  {| shell_time lw :=
       let '(t, w') := shell_time lw.2 in (t, (lw.1, w'));
     subprocess_run command timeout lw :=
       let '(c, w') := subprocess_run command timeout lw.2 in
       (c, (lw.1 ++ [c], w')) |}.

(** The process completed with return code 0; a timeout and an exception
    are among the others. *)
Definition exited_zero (c : completed) : bool :=
  match c with
  | Completed returncode _ _ => returncode =? 0
  | TimeoutExpired | Failed _ => false
  end.

(** The counts of a dictionary against the processes that were run for it:
    one process for each operation, a success for each that completed with
    return code 0 and a failure for each of the others. *)
Definition counts_outcomes (stats : benchmark_py.OperationStats) (count : Z)
    (outcomes : list completed) : Prop :=
  benchmark_py.total_operations stats = count
  /\ Py.len outcomes = count
  /\ benchmark_py.successful_operations stats
     = Py.len (filter (fun c => exited_zero c = true) outcomes)
  /\ benchmark_py.failed_operations stats
     = Py.len (filter (fun c => exited_zero c = false) outcomes).

(** The key of an [etcdctl] command with the given verb ([put] or [get]):
    the word after the verb, which follows the seven words of
    [docker-compose ... etcdctl]. *)
Definition etcdctl_key (verb : string) (command : list string) : option string :=
  match drop 7 command with
  | v :: key :: _ => if String.eqb v verb then Some key else None
  | _ => None
  end.

Definition keys_of (verb : string) (log : list (list string)) : list string :=
  omap (etcdctl_key verb) log.

(** The keys of the sequential benchmarks and of the mixed workload. *)
Definition sequential_key (key_prefix : string) (i : Z) : string :=
  key_prefix +:+ "/key-" +:+ format_0d 6 i.

Definition mixed_key (i : Z) : string :=
  "/benchmark/mixed/key-" +:+ format_0d 6 i.

(** A shell for examples: a tick counter as the clock, and an [etcdctl]
    that fails on every third call. *)
#[export] Instance ticking_shell : Shell nat :=
  {| shell_time w := (inject_Z (Z.of_nat w), S w);
     subprocess_run command timeout w :=
       (if (Z.of_nat w mod 3 =? 0) then Completed 1 EmptyString "connection refused"
        else Completed 0 "OK" EmptyString, S w) |}.

(** * Verification *)

(** ** Facts about the runtime model *)

Section Runtime.

Lemma len_nonneg {A} (l : list A) : 0 <= Py.len l.
Proof. unfold Py.len. lia. Qed.

Lemma len_nil_iff {A} (l : list A) : Py.len l = 0 <-> l = [].
Proof.
  unfold Py.len. destruct l; simpl; split; intros H; try done; lia.
Qed.

Lemma len_sorted (data : list Q) : Py.len (Py.sorted data) = Py.len data.
Proof.
  unfold Py.len, Py.sorted.
  by rewrite (Permutation_length (merge_sort_Permutation Qle data)).
Qed.

(** An index within bounds never raises. *)
Lemma index_in_range {A} (l : list A) (d : A) (k : Z) :
  0 <= k < Py.len l -> Py.index l k = Ok (nth (Z.to_nat k) l d).
Proof.
  intros [H0 H1]. unfold Py.index, Py.len in *.
  destruct (Z.ltb_spec k 0) as [?|_]; [lia|].
  destruct (Z.ltb_spec k 0) as [?|_]; [lia|].
  destruct (nth_lookup_or_length l (Z.to_nat k) d) as [->|?]; [done|lia].
Qed.

Lemma Qle_total : Total Qle.
Proof.
  intros x y. destruct (Qlt_le_dec x y) as [H|H]; [left|right]; auto.
  by apply Qlt_le_weak.
Qed.

Lemma Qle_transitive : Transitive Qle.
Proof. intros x y z. apply Qle_trans. Qed.

Lemma sorted_StronglySorted (data : list Q) :
  StronglySorted Qle (Py.sorted data).
Proof.
  apply StronglySorted_merge_sort; [apply Qle_transitive|apply Qle_total].
Qed.

(** In a sorted list, later positions hold larger values. *)
Lemma StronglySorted_nth (s : list Q) (i j : nat) :
  StronglySorted Qle s -> (i <= j < length s)%nat ->
  (nth i s 0 <= nth j s 0)%Q.
Proof.
  intros Hs. revert i j. induction Hs as [|x s Hs IH Hx]; simpl; [lia|].
  intros [|i] [|j] Hij; try lia.
  - apply Qle_refl.
  - rewrite Forall_forall in Hx. apply Hx, list_elem_of_In, nth_In. lia.
  - apply IH. lia.
Qed.

(** A comprehension returns as soon as its body does, element-wise. *)
Lemma comprehension_lookup {A B} (f : A -> result B) (g : A -> B) (l : list A) :
  (forall x, x ∈ l -> f x = Ok (g x)) ->
  Py.comprehension f l = Ok (g <$> l).
Proof.
  induction l as [|x l IH]; intros Hf; simpl; [done|].
  rewrite Hf by set_solver. simpl.
  rewrite IH by (intros; apply Hf; set_solver). done.
Qed.

Lemma bind_Ok {A B} (a : A) (k : A -> result B) : (Ok a ≫= k) = k a.
Proof. done. Qed.

Lemma bind_Raise {A B} (e : exn) (k : A -> result B) :
  (Raise e ≫= k) = Raise e.
Proof. done. Qed.

Lemma bind_Ok_inv {A B} (c : result A) (k : A -> result B) (b : B) :
  (c ≫= k) = Ok b -> exists a, c = Ok a /\ k a = Ok b.
Proof.
  destruct c as [a|e]; intros H; [|discriminate].
  exists a; split; [reflexivity|exact H].
Qed.

Lemma bind_Raise_inv {A B} (c : result A) (k : A -> result B) (e : exn) :
  (c ≫= k) = Raise e -> c = Raise e \/ exists a, c = Ok a /\ k a = Raise e.
Proof.
  destruct c as [a|e']; intros H; [right|left; by injection H as ->].
  exists a; split; [reflexivity|exact H].
Qed.

Lemma truediv_Ok_inv (x y q : Q) :
  Py.truediv x y = Ok q -> ~ (y == 0)%Q /\ q = (x / y)%Q.
Proof.
  unfold Py.truediv. destruct (Qeq_bool y 0) eqn:E; [discriminate|].
  intros [= <-]. split; [|done]. intros Hy. apply Qeq_bool_iff in Hy. congruence.
Qed.

Lemma truediv_Raise_inv (x y : Q) (e : exn) :
  Py.truediv x y = Raise e -> e = ZeroDivisionError /\ (y == 0)%Q.
Proof.
  unfold Py.truediv. destruct (Qeq_bool y 0) eqn:E; [|discriminate].
  intros [= <-]. split; [done|]. by apply Qeq_bool_iff.
Qed.

Lemma sum_ones {A} (l : list A) : Py.sum ((fun _ => 1) <$> l) = Py.len l.
Proof.
  unfold Py.sum, Py.len.
  assert (H : forall a, foldl Z.add a ((fun _ => 1) <$> l) = a + Z.of_nat (length l)).
  { induction l as [|x l IH]; intros a; simpl; [lia|]. rewrite IH. lia. }
  by rewrite H.
Qed.

Lemma inject_Z_minus (x y : Z) : inject_Z (x - y) = (inject_Z x - inject_Z y)%Q.
Proof. unfold Z.sub, Qminus. by rewrite inject_Z_plus, inject_Z_opp. Qed.

Lemma truediv_nonzero (x y : Q) :
  ~ (y == 0)%Q -> Py.truediv x y = Ok (x / y)%Q.
Proof.
  intros H. unfold Py.truediv.
  destruct (Qeq_bool y 0) eqn:E; [|done].
  by apply Qeq_bool_iff in E.
Qed.

Lemma truediv_zero (x y : Q) :
  (y == 0)%Q -> Py.truediv x y = Raise ZeroDivisionError.
Proof.
  intros H. unfold Py.truediv. apply Qeq_bool_iff in H. by rewrite H.
Qed.

End Runtime.

(** ** Facts about [statistics] *)

Section Statistics.

(** With two or more data points both indices of the loop body are in
    range, whatever [i] is: the clamp sees to it. *)
Lemma cut_point_returns (s : list Q) (n i : Z) :
  2 <= Py.len s ->
  statistics.cut_point s (Py.len s) n i = Ok (cut_value s (Py.len s) n i).
Proof.
  intros Hld. unfold statistics.cut_point, cut_value, clamp.
  set (raw := i * (Py.len s + 1) / n).
  assert (Hj : (if raw <? 1 then 1 else if Py.len s - 1 <? raw
                then Py.len s - 1 else raw)
               = Z.max 1 (Z.min (Py.len s - 1) raw)).
  { destruct (Z.ltb_spec raw 1); [lia|].
    destruct (Z.ltb_spec (Py.len s - 1) raw); lia. }
  rewrite Hj. set (j := Z.max 1 (Z.min (Py.len s - 1) raw)).
  assert (1 <= j <= Py.len s - 1) by lia.
  rewrite (index_in_range s 0%Q (j - 1)) by lia.
  rewrite (index_in_range s 0%Q j) by lia.
  done.
Qed.

Lemma cut_value_closed (s : list Q) (i : Z) :
  (cut_value s (Py.len s) 100 i == exclusive_cut s i)%Q.
Proof.
  unfold cut_value, exclusive_cut.
  set (j := clamp _ _ _).
  replace (j * 100) with (100 * j) by lia.
  set (delta := i * (Py.len s + 1) - 100 * j).
  set (a := nth _ s _). set (b := nth _ s _).
  rewrite (Qmake_Qdiv delta 100), inject_Z_minus.
  change (inject_Z 100) with 100%Q. change (inject_Z (Z.pos 100)) with 100%Q.
  field.
Qed.

Lemma int_percent (i : Z) : Py.int ((i # 100) * 100)%Q = i.
Proof.
  unfold Py.int. simpl. rewrite Z.quot_mul; lia.
Qed.

(** [percentile] on two or more data points is the [i]-th cut point. *)
Lemma percentile_returns (v : version) (data : list Q) (i : Z) :
  2 <= Py.len data -> 1 <= i <= 99 ->
  EtcdBenchmark.percentile v data (i # 100)
  = Ok (cut_value (Py.sorted data) (Py.len data) 100 i).
Proof.
  intros Hld Hi. unfold EtcdBenchmark.percentile.
  destruct data as [|x data]; [unfold Py.len in Hld; simpl in Hld; lia|].
  set (d := x :: data) in *.
  unfold statistics.quantiles.
  change (100 <? 1) with false. cbv iota.
  rewrite len_sorted.
  destruct (Z.ltb_spec (Py.len d) 2) as [?|_]; [lia|].
  rewrite (comprehension_lookup _ (cut_value (Py.sorted d) (Py.len d) 100)).
  2:{ intros k _. rewrite <- (len_sorted d). apply cut_point_returns.
      rewrite len_sorted. lia. }
  rewrite bind_Ok, int_percent.
  unfold Py.index.
  destruct (Z.ltb_spec (i - 1) 0) as [?|_]; [lia|].
  destruct (Z.ltb_spec (i - 1) 0) as [?|_]; [lia|].
  rewrite list_lookup_fmap. unfold Py.range.
  rewrite lookup_seqZ_lt by lia. simpl.
  do 2 f_equal. lia.
Qed.

Lemma median_returns (data : list Q) :
  data <> [] -> statistics.median data = Ok (middle (Py.sorted data)).
Proof.
  intros Hne. unfold statistics.median, middle.
  set (s := Py.sorted data).
  assert (Hlen : 1 <= Py.len s).
  { unfold s. rewrite len_sorted. pose proof (len_nonneg data).
    pose proof (len_nil_iff data). destruct (decide (Py.len data = 0)); [tauto|lia]. }
  destruct (Z.eqb_spec (Py.len s) 0) as [?|_]; [lia|].
  destruct (Z.eqb_spec (Py.len s mod 2) 1) as [Hodd|Heven].
  - assert (Z.even (Py.len s) = false) as ->.
    { rewrite <- Z.negb_odd, Zodd_mod, Hodd. done. }
    apply index_in_range. Z.to_euclidean_division_equations. lia.
  - assert (Z.even (Py.len s) = true) as ->.
    { rewrite Zeven_mod.
      apply Z.eqb_eq. Z.to_euclidean_division_equations. lia. }
    rewrite (index_in_range s 0%Q (Py.len s / 2 - 1))
      by (Z.to_euclidean_division_equations; lia).
    rewrite (index_in_range s 0%Q (Py.len s / 2))
      by (Z.to_euclidean_division_equations; lia).
    done.
Qed.

(** The median is the 50th of the 99 cut points. *)
Lemma middle_cut_value (s : list Q) :
  2 <= Py.len s -> (middle s == cut_value s (Py.len s) 100 50)%Q.
Proof.
  intros Hld. unfold middle, cut_value, clamp.
  set (n := Py.len s) in *.
  destruct (Z.even n) eqn:E.
  - apply Zeven_bool_iff, Zeven_ex in E as [k Hk].
    assert (Hj : Z.max 1 (Z.min (n - 1) (50 * (n + 1) / 100)) = k)
      by (Z.to_euclidean_division_equations; lia).
    rewrite Hj.
    replace (n / 2) with k by (Z.to_euclidean_division_equations; lia).
    replace (50 * (n + 1) - k * 100) with 50 by lia.
    change (inject_Z (100 - 50)) with 50%Q. change (inject_Z 50) with 50%Q.
    change (inject_Z 100) with 100%Q. field.
  - assert (Ho : Z.odd n = true) by (rewrite <- Z.negb_even, E; done).
    apply Zodd_bool_iff, Zodd_ex in Ho as [k Hk].
    assert (Hj : Z.max 1 (Z.min (n - 1) (50 * (n + 1) / 100)) = k + 1)
      by (Z.to_euclidean_division_equations; lia).
    rewrite Hj.
    replace (n / 2) with k by (Z.to_euclidean_division_equations; lia).
    replace (k + 1 - 1) with k by lia.
    replace (50 * (n + 1) - (k + 1) * 100) with 0 by lia.
    change (inject_Z (100 - 0)) with 100%Q. change (inject_Z 0) with 0%Q.
    change (inject_Z 100) with 100%Q. field.
Qed.

Lemma interp_mono (a b d d' : Q) :
  (a <= b -> d <= d' ->
   (a * (100 - d) + b * d) / 100 <= (a * (100 - d') + b * d') / 100)%Q.
Proof. intros. apply Qle_shift_div_l; [lra|]. field_simplify. nra. Qed.

Lemma interp_le_hi (a b d : Q) :
  (a <= b -> d <= 100 -> (a * (100 - d) + b * d) / 100 <= b)%Q.
Proof. intros. apply Qle_shift_div_r; [lra|]. nra. Qed.

Lemma interp_ge_lo (a b d : Q) :
  (a <= b -> 0 <= d -> a <= (a * (100 - d) + b * d) / 100)%Q.
Proof. intros. apply Qle_shift_div_l; [lra|]. nra. Qed.

(** The cut points of a sorted sample grow with their rank: each lies on a
    piecewise linear curve whose slopes are differences of neighbouring
    order statistics. *)
Lemma cut_value_mono (s : list Q) (i i' : Z) :
  StronglySorted Qle s -> 2 <= Py.len s -> i <= i' ->
  (cut_value s (Py.len s) 100 i <= cut_value s (Py.len s) 100 i')%Q.
Proof.
  intros Hs Hld Hi. unfold cut_value, clamp.
  set (n := Py.len s) in *.
  assert (Hh : i * (n + 1) <= i' * (n + 1)) by nia.
  set (h := i * (n + 1)) in *. set (h' := i' * (n + 1)) in *.
  set (j := Z.max 1 (Z.min (n - 1) (h / 100))).
  set (j' := Z.max 1 (Z.min (n - 1) (h' / 100))).
  assert (Hj : 1 <= j <= n - 1) by lia.
  assert (Hj' : 1 <= j' <= n - 1) by lia.
  assert (Hjj : j <= j')
    by (unfold j, j'; Z.to_euclidean_division_equations; lia).
  assert (Hnth : forall p q : Z, 0 <= p <= q -> q < n ->
            (nth (Z.to_nat p) s 0 <= nth (Z.to_nat q) s 0)%Q).
  { intros p q Hp Hq. apply StronglySorted_nth; [done|].
    unfold n, Py.len in Hq. lia. }
  pose proof (Hnth (j - 1) j ltac:(lia) ltac:(lia)) as Hab.
  pose proof (Hnth (j' - 1) j' ltac:(lia) ltac:(lia)) as Hab'.
  rewrite (inject_Z_minus 100 (h - j * 100)), (inject_Z_minus 100 (h' - j' * 100)).
  change (inject_Z 100) with 100%Q.
  destruct (decide (j = j')) as [<-|Hne].
  - apply (interp_mono _ _ (inject_Z (h - j * 100)) (inject_Z (h' - j * 100))); [done|].
    rewrite <- Zle_Qle. lia.
  - eapply Qle_trans;
      [apply (interp_le_hi _ _ (inject_Z (h - j * 100))); [done|]|].
    { change 100%Q with (inject_Z 100). rewrite <- Zle_Qle.
      unfold j. Z.to_euclidean_division_equations. lia. }
    eapply Qle_trans;
      [|apply (interp_ge_lo _ _ (inject_Z (h' - j' * 100))); [done|]].
    { apply Hnth; lia. }
    change 0%Q with (inject_Z 0). rewrite <- Zle_Qle.
    unfold j'. Z.to_euclidean_division_equations. lia.
Qed.

End Statistics.

(** ** [calc_percentiles] *)

Section CalcPercentiles.

Lemma len_cases {A} (l : list A) :
  l = [] \/ (exists x, l = [x]) \/ 2 <= Py.len l.
Proof.
  destruct l as [|x [|y l]]; [by left|right; left; by exists x|].
  right; right. unfold Py.len. simpl. lia.
Qed.

(** Two or more data points: no exception, and the three percentiles are
    the median and the cut points 95 and 99. *)
Lemma calc_percentiles_many (v : version) (data : list Q) :
  2 <= Py.len data ->
  exists a lo hi,
    EtcdBenchmark.calc_percentiles v data
    = Ok {| avg := a; min := lo; max := hi;
            p50 := middle (Py.sorted data);
            p95 := cut_value (Py.sorted data) (Py.len data) 100 95;
            p99 := cut_value (Py.sorted data) (Py.len data) 100 99 |}.
Proof.
  intros Hld. unfold EtcdBenchmark.calc_percentiles.
  destruct data as [|x data]; [unfold Py.len in Hld; simpl in Hld; lia|].
  set (d := x :: data) in *.
  rewrite median_returns by done.
  rewrite !percentile_returns by lia.
  unfold statistics.mean, Py.min, Py.max, d. rewrite !bind_Ok.
  by eexists _, _, _.
Qed.

(** One data point: the answer depends on the interpreter. *)
Lemma calc_percentiles_single_From313 (x : Q) :
  EtcdBenchmark.calc_percentiles From313 [x]
  = Ok {| avg := (0 + x) / 1; min := x; max := x; p50 := x; p95 := x; p99 := x |}.
Proof. reflexivity. Qed.

Lemma calc_percentiles_single_Before313 (x : Q) :
  EtcdBenchmark.calc_percentiles Before313 [x]
  = Raise (StatisticsError "must have at least two data points").
Proof. reflexivity. Qed.

Lemma calc_percentiles_empty (v : version) :
  EtcdBenchmark.calc_percentiles v []
  = Ok {| avg := 0; min := 0; max := 0; p50 := 0; p95 := 0; p99 := 0 |}.
Proof. reflexivity. Qed.

Lemma calc_percentiles_returns (v : version) (data : list Q) :
  quantiles_defined v data -> returns (EtcdBenchmark.calc_percentiles v data).
Proof.
  intros Hq. destruct (len_cases data) as [->|[[x ->]|Hld]].
  - eexists; apply calc_percentiles_empty.
  - destruct Hq as [->|Hq]; [|by unfold Py.len in Hq].
    eexists; apply calc_percentiles_single_From313.
  - destruct (calc_percentiles_many v data Hld) as (a & lo & hi & ->).
    by eexists.
Qed.

Lemma calc_percentiles_Raise (v : version) (data : list Q) (e : exn) :
  EtcdBenchmark.calc_percentiles v data = Raise e ->
  e = StatisticsError "must have at least two data points"
  /\ v = Before313 /\ Py.len data = 1.
Proof.
  intros E. destruct (len_cases data) as [->|[[y ->]|Hld]].
  - discriminate.
  - destruct v; [|discriminate]. by injection E as <-.
  - destruct (calc_percentiles_many v data Hld) as (a & lo & hi & Hc).
    congruence.
Qed.

End CalcPercentiles.

(** C1 (as amended).  For every sample of two or more successful latencies
    the aggregation reports, without raising, p50 as the middle of the sorted
    sample (the mean of the two middle values when the size is even) and p95
    and p99 as the 95th and 99th cut points of the exclusive method, linearly
    interpolated between two neighbouring sorted values and extrapolated
    beyond the last pair where the rank falls outside the sample. *)
Theorem percentiles_interpolated (v : version) (data : list Q) :
  2 <= Py.len data ->
  exists st,
    EtcdBenchmark.calc_percentiles v data = Ok st
    /\ (p50 st == middle (Py.sorted data))%Q
    /\ (p95 st == exclusive_cut (Py.sorted data) 95)%Q
    /\ (p99 st == exclusive_cut (Py.sorted data) 99)%Q.
Proof.
  intros Hld. destruct (calc_percentiles_many v data Hld) as (a & lo & hi & ->).
  eexists; split; [done|]. simpl.
  rewrite <- (len_sorted data), !cut_value_closed. repeat split; reflexivity.
Qed.

Lemma percentiles_interpolated_witness :
  2 <= Py.len [1%Q; 2%Q; 4%Q]
  /\ exists st,
       EtcdBenchmark.calc_percentiles Before313 [1%Q; 2%Q; 4%Q] = Ok st
       /\ (p50 st == middle (Py.sorted [1%Q; 2%Q; 4%Q]))%Q
       /\ (p95 st == exclusive_cut (Py.sorted [1%Q; 2%Q; 4%Q]) 95)%Q
       /\ (p99 st == exclusive_cut (Py.sorted [1%Q; 2%Q; 4%Q]) 99)%Q.
Proof.
  split; [vm_compute; discriminate|].
  apply (percentiles_interpolated Before313 [1%Q; 2%Q; 4%Q]).
  vm_compute; discriminate.
Defined.

(** C1 (as stated) fails: on the sample 1, 2 the nearest-rank rule gives 1
    for p = 0.50 and 2 for p = 0.95, the aggregation reports 3/2 and 2.85. *)
Lemma nearest_rank_refuted :
  exists st q50 q95,
    EtcdBenchmark.calc_percentiles Before313 [1%Q; 2%Q] = Ok st
    /\ EtcdBenchmark.calc_percentiles From313 [1%Q; 2%Q] = Ok st
    /\ nearest_rank [1%Q; 2%Q] (50 # 100) = Ok q50
    /\ nearest_rank [1%Q; 2%Q] (95 # 100) = Ok q95
    /\ ~ (p50 st == q50)%Q
    /\ ~ (p95 st == q95)%Q.
Proof.
  eexists _, _, _.
  split; [vm_compute; reflexivity|].
  split; [vm_compute; reflexivity|].
  split; [vm_compute; reflexivity|].
  split; [vm_compute; reflexivity|].
  split; vm_compute; discriminate.
Qed.




(** ** [analyze_results] *)

Section AnalyzeResults.

Implicit Types (clients : list (list OperationResult)) (r : BenchmarkResults).

Lemma merged_concat clients : merged clients = mjoin clients.
Proof.
  unfold merged.
  assert (H : forall acc, foldl (fun a rs => a ++ rs) acc clients = acc ++ mjoin clients).
  { induction clients as [|c cs IH]; intros acc; simpl.
    - by rewrite app_nil_r.
    - by rewrite IH, app_assoc. }
  by rewrite H.
Qed.

(** What a returned record holds, field by field. *)
Lemma analyze_results_Ok v clients d r :
  EtcdBenchmark.analyze_results v clients d = Ok r ->
  merged clients <> [] /\ ~ (d == 0)%Q
  /\ total_operations r = Py.len (merged clients)
  /\ successful_operations r = Py.len (filter (fun x => success x = true) (merged clients))
  /\ failed_operations r = total_operations r - successful_operations r
  /\ successful_reads r
     = Py.len (filter (fun x => success x = true)
                 (filter (fun x => operation x = "read"%string) (merged clients)))
  /\ successful_writes r
     = Py.len (filter (fun x => success x = true)
                 (filter (fun x => operation x = "write"%string) (merged clients)))
  /\ (throughput_ops_per_sec r
      == inject_Z (successful_operations r) / d)%Q
  /\ (read_throughput r == inject_Z (successful_reads r) / d)%Q
  /\ (write_throughput r == inject_Z (successful_writes r) / d)%Q
  /\ endpoint_distribution r = foldl EtcdBenchmark.count_endpoint ∅ (merged clients).
Proof.
  unfold EtcdBenchmark.analyze_results. fold (merged clients).
  intros H.
  destruct (merged clients) as [|x l] eqn:E; [discriminate|].
  set (rs := x :: l) in *.
  apply bind_Ok_inv in H as (overall & _ & H).
  apply bind_Ok_inv in H as (rstat & _ & H).
  apply bind_Ok_inv in H as (wstat & _ & H).
  apply bind_Ok_inv in H as (tp & [Hd ->]%truediv_Ok_inv & H).
  apply bind_Ok_inv in H as (rtp & [_ ->]%truediv_Ok_inv & H).
  apply bind_Ok_inv in H as (wtp & [_ ->]%truediv_Ok_inv & H).
  injection H as <-. cbn [total_operations successful_operations
    failed_operations successful_reads successful_writes
    throughput_ops_per_sec read_throughput write_throughput
    endpoint_distribution].
  rewrite !sum_ones.
  repeat (split; [first [done|reflexivity]|]). reflexivity.
Qed.

(** The precondition error is raised on an empty merged list, before
    anything else is computed. *)
Lemma analyze_results_empty v clients d :
  merged clients = [] ->
  EtcdBenchmark.analyze_results v clients d
  = Raise (RuntimeError "No results to analyze").
Proof.
  unfold EtcdBenchmark.analyze_results. fold (merged clients).
  by intros ->.
Qed.

Lemma analyze_results_nonempty v clients d :
  merged clients <> [] ->
  EtcdBenchmark.analyze_results v clients d
  <> Raise (RuntimeError "No results to analyze").
Proof.
  unfold EtcdBenchmark.analyze_results. fold (merged clients).
  intros Hne H. destruct (merged clients) as [|x l] eqn:E; [done|].
  set (rs := x :: l) in *.
  repeat
    (apply bind_Raise_inv in H as [H|(? & _ & H)];
     [first [by apply calc_percentiles_Raise in H as [? _]
            |by apply truediv_Raise_inv in H as [? _]]|]).
  discriminate.
Qed.

(** Away from the empty list, the zero duration and the single data point,
    aggregation returns a record. *)
Lemma analyze_results_returns v clients d :
  merged clients <> [] -> ~ (d == 0)%Q -> samples_defined v (merged clients) ->
  returns (EtcdBenchmark.analyze_results v clients d).
Proof.
  unfold EtcdBenchmark.analyze_results. fold (merged clients).
  intros Hne Hd (H1 & H2 & H3).
  destruct (merged clients) as [|x l] eqn:E; [done|].
  set (rs := x :: l) in *.
  apply calc_percentiles_returns in H1 as [st1 H1], H2 as [st2 H2], H3 as [st3 H3].
  unfold successful_latencies, of_kind in H1, H2, H3.
  rewrite H1, bind_Ok, H2, bind_Ok, H3, bind_Ok.
  rewrite !truediv_nonzero, !bind_Ok by done.
  by eexists.
Qed.

Lemma sum_counts_count_endpoint (m : gmap string Z) (x : OperationResult) :
  sum_counts (EtcdBenchmark.count_endpoint m x) = sum_counts m + 1.
Proof.
  unfold sum_counts, EtcdBenchmark.count_endpoint.
  destruct (m !! endpoint x) as [c|] eqn:E; simpl.
  - rewrite <- insert_delete_eq.
    rewrite map_fold_insert_L; [|intros; lia|apply lookup_delete_eq].
    rewrite (map_fold_delete_L _ _ (endpoint x) c m); [lia|intros; lia|done].
  - rewrite map_fold_insert_L; [lia|intros; lia|done].
Qed.

Lemma sum_counts_foldl (m : gmap string Z) (rs : list OperationResult) :
  sum_counts (foldl EtcdBenchmark.count_endpoint m rs) = sum_counts m + Py.len rs.
Proof.
  revert m. induction rs as [|x rs IH]; intros m; simpl.
  - unfold Py.len; simpl; lia.
  - rewrite IH, sum_counts_count_endpoint. unfold Py.len; simpl; lia.
Qed.

Lemma filter_none {A} (P : A -> Prop) `{!forall x, Decision (P x)} (l : list A) :
  Forall (fun x => ~ P x) l -> filter P l = [].
Proof.
  induction 1 as [|x l Hx _ IH]; [done|].
  by rewrite filter_cons_False.
Qed.

Lemma filter_nil_iff {A} (P : A -> Prop) `{!forall x, Decision (P x)} (l : list A) :
  filter P l <> [] <-> Exists P l.
Proof.
  induction l as [|x l IH]; simpl.
  - rewrite Exists_nil. by split.
  - rewrite Exists_cons, filter_cons. destruct (decide (P x)); [|tauto].
    split; [by left|done].
Qed.

Lemma elements_list_to_set_nil (l : list string) :
  elements (list_to_set l : gset string) = [] <-> l = [].
Proof.
  split; [|by intros ->].
  intros H%elements_empty_iff. destruct l as [|x l]; [done|].
  exfalso. set_solver.
Qed.

(** The three samples [calc_percentiles] is called on. *)
Lemma all_failed_no_sample (rs : list OperationResult) (P : OperationResult -> Prop)
    `{!forall x, Decision (P x)} :
  Forall (fun x => success x = false) rs ->
  filter (fun x => success x = true) rs = []
  /\ filter (fun x => success x = true) (filter P rs) = [].
Proof.
  intros Hall. split; apply filter_none.
  - eapply Forall_impl; [done|]. simpl. congruence.
  - apply Forall_forall. intros x [_ Hx]%list_elem_of_filter.
    rewrite Forall_forall in Hall. rewrite (Hall x Hx). done.
Qed.

End AnalyzeResults.

(** C7.  Every record that aggregation produces satisfies
    successful + failed = total, and the counts of its endpoint distribution
    sum to the total. *)
Theorem operation_counts_add_up (v : version)
    (clients : list (list OperationResult)) (d : Q) (r : BenchmarkResults) :
  EtcdBenchmark.analyze_results v clients d = Ok r ->
  successful_operations r + failed_operations r = total_operations r
  /\ sum_counts (endpoint_distribution r) = total_operations r.
Proof.
  intros H. apply analyze_results_Ok in H
    as (_ & _ & Ht & _ & Hf & _ & _ & _ & _ & _ & He).
  split; [lia|].
  rewrite He, Ht, sum_counts_foldl. unfold sum_counts.
  rewrite map_fold_empty. lia.
Qed.

Lemma operation_counts_add_up_witness :
  exists r,
    EtcdBenchmark.analyze_results Before313
      [[read_ok 1; read_failed "timeout"]; [write_ok 2; write_ok 4; read_ok 3]] 2 = Ok r
    /\ successful_operations r + failed_operations r = total_operations r
    /\ sum_counts (endpoint_distribution r) = total_operations r.
Proof.
  eexists. split; [vm_compute; reflexivity|].
  apply (operation_counts_add_up Before313
           [[read_ok 1; read_failed "timeout"]; [write_ok 2; write_ok 4; read_ok 3]] 2).
  vm_compute; reflexivity.
Defined.

(** C2 (the defect).  With an actual duration of 0 the throughput divisions
    raise [ZeroDivisionError]: no record, and no throughput of 0, comes
    back.  Here on two successful reads. *)
Theorem zero_duration_raises (v : version) :
  EtcdBenchmark.analyze_results v [[read_ok 1; read_ok 2]] 0
  = Raise ZeroDivisionError.
Proof. destruct v; vm_compute; reflexivity. Qed.

(** At a zero duration aggregation never returns, whatever the results. *)
Lemma zero_duration_never_returns (v : version)
    (clients : list (list OperationResult)) (d : Q) :
  (d == 0)%Q -> ~ returns (EtcdBenchmark.analyze_results v clients d).
Proof.
  intros Hd [r H]. apply analyze_results_Ok in H as (_ & Hnz & _). tauto.
Qed.

(** Away from 0 the three throughputs are the successful counts divided by
    the actual duration. *)
Lemma throughput_is_count_over_duration (v : version)
    (clients : list (list OperationResult)) (d : Q) (r : BenchmarkResults) :
  EtcdBenchmark.analyze_results v clients d = Ok r ->
  (throughput_ops_per_sec r == inject_Z (successful_operations r) / d)%Q
  /\ (read_throughput r == inject_Z (successful_reads r) / d)%Q
  /\ (write_throughput r == inject_Z (successful_writes r) / d)%Q.
Proof.
  intros H. apply analyze_results_Ok in H
    as (_ & _ & _ & _ & _ & _ & _ & H1 & H2 & H3 & _).
  done.
Qed.

(** C6 (as stated) fails: a run whose only operation failed with an empty
    error text is aggregated into a record with an empty error set. *)
Lemma silent_failures_leave_no_error :
  exists r,
    EtcdBenchmark.analyze_results Before313 [[read_failed EmptyString]] 1 = Ok r
    /\ EtcdBenchmark.analyze_results From313 [[read_failed EmptyString]] 1 = Ok r
    /\ failed_operations r = total_operations r
    /\ errors r = [].
Proof.
  eexists. split; [vm_compute; reflexivity|].
  split; vm_compute; split; reflexivity.
Qed.

(** C6 (as amended).  Aggregation raises its precondition error exactly when
    the merged result list is empty.  For a non-empty list and an actual
    duration other than 0 it returns a complete record, as long as none of
    the three latency samples is a single data point on an interpreter older
    than 3.13.  When every operation failed, that record has failed = total
    and all latency fields 0, and its error set is non-empty exactly when
    some failed result carries a non-empty error text. *)
Theorem aggregation_outcomes (v : version)
    (clients : list (list OperationResult)) (d : Q) :
  (EtcdBenchmark.analyze_results v clients d
   = Raise (RuntimeError "No results to analyze") <-> merged clients = [])
  /\ (merged clients <> [] -> ~ (d == 0)%Q -> samples_defined v (merged clients) ->
      returns (EtcdBenchmark.analyze_results v clients d))
  /\ (merged clients <> [] -> ~ (d == 0)%Q ->
      Forall (fun x => success x = false) (merged clients) ->
      exists r,
        EtcdBenchmark.analyze_results v clients d = Ok r
        /\ failed_operations r = total_operations r
        /\ latency_fields_zero r
        /\ (errors r <> [] <->
            Exists (fun x => error x <> EmptyString) (merged clients))).
Proof.
  split; [|split].
  - split; [|apply analyze_results_empty].
    intros H. destruct (decide (merged clients = [])) as [|Hne]; [done|].
    by apply (analyze_results_nonempty v clients d) in Hne.
  - apply analyze_results_returns.
  - intros Hne Hd Hall.
    unfold EtcdBenchmark.analyze_results. fold (merged clients).
    destruct (merged clients) as [|x l] eqn:E; [done|].
    set (rs := x :: l) in *.
    destruct (all_failed_no_sample rs (fun x => operation x = "read"%string) Hall)
      as [H0 H1].
    destruct (all_failed_no_sample rs (fun x => operation x = "write"%string) Hall)
      as [_ H2].
    rewrite H0, H1, H2.
    change (latency_ms <$> []) with (@nil Q).
    rewrite calc_percentiles_empty, !bind_Ok.
    rewrite !truediv_nonzero, !bind_Ok by done.
    eexists. split; [reflexivity|].
    cbn [failed_operations total_operations errors].
    split; [unfold Py.sum; simpl; lia|].
    split; [by repeat split|].
    rewrite elements_list_to_set_nil.
    split.
    + intros Herr.
      assert (Hf : filter (fun r => success r = false /\ error r <> EmptyString) rs <> []).
      { intros Hf. apply Herr. by rewrite Hf. }
      apply filter_nil_iff in Hf. eapply Exists_impl; [done|]. simpl. tauto.
    + intros Hex Herr. apply fmap_nil_inv in Herr.
      revert Herr. apply filter_nil_iff.
      rewrite Exists_exists in *. destruct Hex as (y & Hy & Hey).
      exists y. rewrite Forall_forall in Hall. auto.
Qed.

Lemma aggregation_outcomes_witness :
  returns (EtcdBenchmark.analyze_results Before313
             [[read_ok 1; read_failed "timeout"]; [read_ok 3]] 30)
  /\ exists r,
       EtcdBenchmark.analyze_results Before313
         [[read_failed "No client available for endpoint"]; [read_failed EmptyString]] 30
       = Ok r
       /\ failed_operations r = total_operations r
       /\ latency_fields_zero r
       /\ (errors r <> [] <->
           Exists (fun x => error x <> EmptyString)
             (merged [[read_failed "No client available for endpoint"];
                      [read_failed EmptyString]])).
Proof.
  split.
  - apply (aggregation_outcomes Before313
             [[read_ok 1; read_failed "timeout"]; [read_ok 3]] 30).
    + vm_compute; discriminate.
    + vm_compute; discriminate.
    + repeat split; right; vm_compute; discriminate.
  - apply (aggregation_outcomes Before313
             [[read_failed "No client available for endpoint"];
              [read_failed EmptyString]] 30).
    + vm_compute; discriminate.
    + vm_compute; discriminate.
    + repeat constructor.
Defined.

(** ** The scalability fit *)

Section Fit.

Context `{NumLib}.

Lemma normalize_returns (throughput : list Q) (t0 : Q) :
  throughput !! 0%nat = Some t0 ->
  usl_analysis.normalize throughput
  = Ok ((fun t => Np.true_divide (Np.Fin t) (Np.Fin t0)) <$> throughput).
Proof.
  intros H0. destruct throughput as [|t l]; [discriminate|].
  by injection H0 as ->.
Qed.

Lemma true_divide_nonzero (t t0 : Q) :
  ~ (t0 == 0)%Q -> Np.true_divide (Np.Fin t) (Np.Fin t0) = Np.Fin (t / t0).
Proof.
  intros Hnz. simpl. destruct (t0 ?= 0)%Q eqn:E; [|done..].
  by apply Qeq_alt in E.
Qed.

(** What [fit_usl_model] does once the throughput is normalized. *)
Lemma fit_usl_model_Ok (nodes : list Z) (throughput : list Q)
    (norm : list Np.float) (a b : Np.float) (pcov : covariance) :
  usl_analysis.normalize throughput = Ok norm ->
  curve_fit usl_analysis.usl_function
    ((fun n => Np.Fin (inject_Z n)) <$> nodes) norm (0%Q, 0%Q) (1%Q, 1%Q) 10000
  = Ok ((a, b), pcov) ->
  exists fit,
    usl_analysis.fit_usl_model nodes throughput = Ok (Some fit)
    /\ alpha fit = a /\ beta fit = b /\ normalized_throughput fit = norm.
Proof.
  intros Hn Hc. unfold usl_analysis.fit_usl_model.
  rewrite Hn, bind_Ok, Hc, bind_Ok. simpl. by eexists.
Qed.

Lemma fit_usl_model_Raise (nodes : list Z) (throughput : list Q)
    (norm : list Np.float) (e : exn) :
  usl_analysis.normalize throughput = Ok norm ->
  curve_fit usl_analysis.usl_function
    ((fun n => Np.Fin (inject_Z n)) <$> nodes) norm (0%Q, 0%Q) (1%Q, 1%Q) 10000
  = Raise e ->
  usl_analysis.fit_usl_model nodes throughput = Ok None.
Proof.
  intros Hn Hc. unfold usl_analysis.fit_usl_model.
  by rewrite Hn, bind_Ok, Hc, bind_Raise.
Qed.

Lemma fit_usl_model_Some (nodes : list Z) (throughput : list Q) (fit : USLFit) :
  usl_analysis.fit_usl_model nodes throughput = Ok (Some fit) ->
  exists pcov,
    curve_fit usl_analysis.usl_function
      ((fun n => Np.Fin (inject_Z n)) <$> nodes) (normalized_throughput fit)
      (0%Q, 0%Q) (1%Q, 1%Q) 10000
    = Ok ((alpha fit, beta fit), pcov).
Proof.
  unfold usl_analysis.fit_usl_model. intros Hf.
  apply bind_Ok_inv in Hf as (norm & Hn & Hf).
  destruct (curve_fit _ _ norm _ _ _) as [[[a b] pcov]|e] eqn:Hc.
  - rewrite bind_Ok in Hf. simpl in Hf. injection Hf as <-. simpl. by exists pcov.
  - by rewrite bind_Raise in Hf.
Qed.

End Fit.

(** C8.  Whenever the fit succeeds, the coefficients it returns are the
    optimizer's, found within the bounds [([0, 0], [1, 1])] that
    [fit_usl_model] passes: 0 <= alpha <= 1 and 0 <= beta <= 1, whatever the
    samples. *)
Theorem fitted_coefficients_bounded `{NumLib} (nodes : list Z)
    (throughput : list Q) (fit : USLFit) :
  usl_analysis.fit_usl_model nodes throughput = Ok (Some fit) ->
  exists a b,
    alpha fit = Np.Fin a /\ beta fit = Np.Fin b
    /\ (0 <= a)%Q /\ (a <= 1)%Q /\ (0 <= b)%Q /\ (b <= 1)%Q.
Proof.
  intros [pcov Hc]%fit_usl_model_Some.
  by apply curve_fit_within_bounds in Hc.
Qed.

Lemma fitted_coefficients_bounded_witness :
  exists fit a b,
    @usl_analysis.fit_usl_model stationary_numlib [1] [100%Q] = Ok (Some fit)
    /\ alpha fit = Np.Fin a /\ beta fit = Np.Fin b
    /\ (0 <= a)%Q /\ (a <= 1)%Q /\ (0 <= b)%Q /\ (b <= 1)%Q.
Proof.
  eexists. 
  destruct (@fitted_coefficients_bounded stationary_numlib [1] [100%Q]
              {| alpha := Np.Fin (1 # 2); beta := Np.Fin (1 # 2);
                 alpha_err := Np.PInf; beta_err := Np.PInf;
                 r_squared := Np.NaN;
                 normalized_throughput := [Np.Fin (100 / 100)] |})
    as (a & b & Hab); [vm_compute; reflexivity|].
  exists a, b. split; [vm_compute; reflexivity|exact Hab].
Defined.

(** C3 (as stated) fails.  On the dataset with the single node count 1 the
    model function equals the normalized sample for every alpha and beta, so
    an optimizer has nothing to improve on its starting point, and
    [fit_usl_model] hands its coefficients on: no check on the number of
    node counts stands in the way. *)
Lemma single_node_dataset_is_fitted :
  (length (remove_dups [1%Z]) < 3)%nat
  /\ (forall a b : Q,
        usl_analysis.usl_function (Np.Fin 1) (Np.Fin a) (Np.Fin b) = Np.Fin (1 / (1 + a * (1 - 1) + b * 1 * (1 - 1)))
        /\ (1 / (1 + a * (1 - 1) + b * 1 * (1 - 1)) == 1)%Q)
  /\ usl_analysis.normalize [100%Q] = Ok [Np.Fin (100 / 100)]
  /\ @usl_analysis.fit_usl_model stationary_numlib [1] [100%Q]
     = Ok (Some {| alpha := Np.Fin (1 # 2); beta := Np.Fin (1 # 2);
                   alpha_err := Np.PInf; beta_err := Np.PInf;
                   r_squared := Np.NaN;
                   normalized_throughput := [Np.Fin (100 / 100)] |}).
Proof.
  split; [vm_compute; lia|]. split; [|split; vm_compute; reflexivity].
  intros a b.
  assert (Hden : (1 + a * (1 - 1) + b * 1 * (1 - 1) == 1)%Q) by ring.
  split; [|rewrite Hden; reflexivity].
  unfold usl_analysis.usl_function. simpl.
  destruct (_ ?= 0)%Q eqn:E; [|reflexivity..].
  apply Qeq_alt in E. exfalso.
  assert (E' : (1 + a * (1 + - (1)) + b * 1 * (1 + - (1)) == 1)%Q) by ring.
  rewrite E' in E. discriminate.
Qed.

(** C3 (as amended).  [fit_usl_model] checks nothing about the number of
    node counts.  Once the throughput is normalized, it reports failure (the
    all-[None] result) exactly when the optimizer raises, and otherwise
    returns the optimizer's coefficients, for a dataset of any size. *)
Theorem fit_follows_optimizer `{NumLib} (nodes : list Z) (throughput : list Q)
    (norm : list Np.float) :
  usl_analysis.normalize throughput = Ok norm ->
  match curve_fit usl_analysis.usl_function
          ((fun n => Np.Fin (inject_Z n)) <$> nodes) norm
          (0%Q, 0%Q) (1%Q, 1%Q) 10000 with
  | Ok ((a, b), _) =>
      exists fit,
        usl_analysis.fit_usl_model nodes throughput = Ok (Some fit)
        /\ alpha fit = a /\ beta fit = b /\ normalized_throughput fit = norm
  | Raise _ => usl_analysis.fit_usl_model nodes throughput = Ok None
  end.
Proof.
  intros Hn.
  destruct (curve_fit _ _ norm _ _ _) as [[[a b] pcov]|e] eqn:Hc.
  - by eapply fit_usl_model_Ok.
  - by eapply fit_usl_model_Raise.
Qed.

Lemma fit_follows_optimizer_witness :
  usl_analysis.normalize [100%Q] = Ok [Np.Fin (100 / 100)]
  /\ exists fit,
       @usl_analysis.fit_usl_model stationary_numlib [1] [100%Q] = Ok (Some fit)
       /\ alpha fit = Np.Fin (1 # 2) /\ beta fit = Np.Fin (1 # 2)
       /\ normalized_throughput fit = [Np.Fin (100 / 100)].
Proof.
  split; [vm_compute; reflexivity|].
  exact (@fit_follows_optimizer stationary_numlib [1] [100%Q]
           [Np.Fin (100 / 100)] eq_refl).
Defined.

(** ** Normalization against the baseline *)

Section Baseline.

Implicit Types results : gmap Z Q.

Lemma extract_nodes_dom results (n : Z) :
  n ∈ merge_sort Z.le (elements (dom results)) <-> n ∈ dom results.
Proof. by rewrite merge_sort_Permutation, elem_of_elements. Qed.

Lemma extract_returns results :
  let nodes := merge_sort Z.le (elements (dom results)) in
  usl_analysis.extract results
  = Ok (nodes, (fun n => default 0%Q (results !! n)) <$> nodes).
Proof.
  intros nodes. unfold usl_analysis.extract. fold nodes.
  rewrite (comprehension_lookup _ (fun n => default 0%Q (results !! n))); [done|].
  intros n Hn%extract_nodes_dom%elem_of_dom. destruct Hn as [t ->]. done.
Qed.

(** The first node count in ascending order is the smallest. *)
Lemma extract_first_node results (n0 : Z) :
  n0 ∈ dom results -> (forall n, n ∈ dom results -> n0 <= n) ->
  merge_sort Z.le (elements (dom results)) !! 0%nat = Some n0.
Proof.
  intros Hin Hmin.
  assert (Hs : StronglySorted Z.le (merge_sort Z.le (elements (dom results))))
    by (apply StronglySorted_merge_sort; apply _).
  pose proof (extract_nodes_dom results) as Hdom.
  destruct (merge_sort Z.le (elements (dom results))) as [|h l].
  - apply Hdom in Hin. by apply elem_of_nil in Hin.
  - simpl. f_equal.
    assert (n0 <= h) by (apply Hmin, Hdom; left).
    apply Hdom, elem_of_cons in Hin as [->|Hin]; [done|].
    apply StronglySorted_inv in Hs as [_ Hh].
    rewrite Forall_forall in Hh. specialize (Hh n0 Hin). lia.
Qed.

End Baseline.

(** C4 (as stated) fails.  In a dataset that holds the baseline, the
    sample at node count 1 may be 0 (a run in which no operation succeeded):
    numpy's division then yields [nan] at node count 1 and [inf] at node
    count 2, with no error, and the normalized value at node count 1 is
    not 1. *)
Lemma zero_baseline_is_not_one :
  usl_analysis.extract {[1 := 0%Q; 2 := 5%Q]} = Ok ([1; 2], [0%Q; 5%Q])
  /\ usl_analysis.normalize [0%Q; 5%Q] = Ok [Np.NaN; Np.PInf].
Proof. split; vm_compute; reflexivity. Qed.

(** C4 (as amended).  For a dataset of positive node counts that holds node
    count 1, the mandatory baseline, with a sample other than 0, the fit
    divides every sample by the sample at node count 1: each normalized
    value is the sample of its node count divided by it, and the normalized
    value at node count 1 is exactly 1. *)
Theorem normalized_by_baseline (results : gmap Z Q) (t1 : Q) :
  results !! 1 = Some t1 ->
  (forall n, n ∈ dom results -> 1 <= n) ->
  ~ (t1 == 0)%Q ->
  exists nodes throughput norm,
    usl_analysis.extract results = Ok (nodes, throughput)
    /\ usl_analysis.normalize throughput = Ok norm
    /\ (forall (k : nat) (n : Z), nodes !! k = Some n ->
        exists t, results !! n = Some t /\ norm !! k = Some (Np.Fin (t / t1)))
    /\ nodes !! 0%nat = Some 1
    /\ exists q, norm !! 0%nat = Some (Np.Fin q) /\ (q == 1)%Q.
Proof.
  intros H1 Hpos Hnz.
  assert (Hin : 1 ∈ dom results) by (apply elem_of_dom; by eexists).
  pose proof (extract_first_node results 1 Hin Hpos) as Hfirst.
  set (nodes := merge_sort Z.le (elements (dom results))) in *.
  set (g := fun n => default 0%Q (results !! n)).
  assert (Hk : forall (k : nat) (n : Z), nodes !! k = Some n ->
            exists t, results !! n = Some t
              /\ ((fun t => Np.true_divide (Np.Fin t) (Np.Fin t1)) <$> (g <$> nodes)) !! k
                 = Some (Np.Fin (t / t1))).
  { intros k n Hn.
    assert (Hd : n ∈ dom results)
      by (apply extract_nodes_dom; eapply list_elem_of_lookup_2; exact Hn).
    apply elem_of_dom in Hd as [t Ht]. exists t. split; [done|].
    rewrite !list_lookup_fmap, Hn. simpl. unfold g. rewrite Ht. simpl.
    f_equal. destruct (t1 ?= 0)%Q eqn:E; [|done..].
    by apply Qeq_alt in E. }
  exists nodes, (g <$> nodes), ((fun t => Np.true_divide (Np.Fin t) (Np.Fin t1)) <$> (g <$> nodes)).
  split; [apply extract_returns|].
  split.
  { apply normalize_returns. rewrite list_lookup_fmap, Hfirst. simpl.
    unfold g. by rewrite H1. }
  split; [exact Hk|]. split; [exact Hfirst|].
  destruct (Hk 0%nat 1 Hfirst) as (t & Ht & Hn).
  exists (t / t1)%Q. split; [done|].
  assert (t = t1) as -> by congruence. by field.
Qed.

Lemma normalized_by_baseline_witness :
  exists nodes throughput norm,
    usl_analysis.extract {[1 := 100%Q; 3 := 250%Q; 5 := 350%Q]} = Ok (nodes, throughput)
    /\ usl_analysis.normalize throughput = Ok norm
    /\ (forall (k : nat) (n : Z), nodes !! k = Some n ->
        exists t, ({[1 := 100%Q; 3 := 250%Q; 5 := 350%Q]} : gmap Z Q) !! n = Some t
                  /\ norm !! k = Some (Np.Fin (t / 100)))
    /\ nodes !! 0%nat = Some 1
    /\ exists q, norm !! 0%nat = Some (Np.Fin q) /\ (q == 1)%Q.
Proof.
  apply (normalized_by_baseline {[1 := 100%Q; 3 := 250%Q; 5 := 350%Q]} 100).
  - vm_compute; reflexivity.
  - intros n Hn. rewrite !dom_insert_L, dom_singleton_L in Hn.
    rewrite !elem_of_union, !elem_of_singleton in Hn. lia.
  - vm_compute; discriminate.
Defined.

(** ** The mixed workload *)

(** C10.  Both branches of the [if]/[else] on [operation_count % 100 == 0]
    compute the same condition: for every operation count and read ratio,
    and whatever the float arithmetic, the selection is the single rule
    read iff [(operation_count % 10) < read_ratio * 10]. *)
Theorem should_read_single_rule {float : Type} (mul_int : float -> Z -> float)
    (int_lt : Z -> float -> bool) (operation_count : Z) (read_ratio : float) :
  benchmark.should_read mul_int int_lt operation_count read_ratio
  = single_rule mul_int int_lt operation_count read_ratio.
Proof.
  unfold benchmark.should_read, single_rule.
  by destruct (operation_count mod 100 =? 0).
Qed.

(** On exact rationals: a read iff the last digit of the count is below ten
    times the ratio. *)
Lemma should_read_iff (operation_count : Z) (read_ratio : Q) :
  benchmark.should_read Qmul_int Qint_lt operation_count read_ratio = true
  <-> (inject_Z (operation_count mod 10) < read_ratio * 10)%Q.
Proof.
  assert (Hrule :
    benchmark.should_read Qmul_int Qint_lt operation_count read_ratio
    = negb (Qle_bool (read_ratio * 10) (inject_Z (operation_count mod 10)))).
  { unfold benchmark.should_read, Qint_lt, Qmul_int.
    by destruct (operation_count mod 100 =? 0). }
  rewrite Hrule, negb_true_iff. split.
  - intros Hb. apply Qnot_le_lt. intros Hle. apply Qle_bool_iff in Hle. congruence.
  - intros Hlt. destruct (Qle_bool _ _) eqn:E; [|done].
    apply Qle_bool_iff in E. lra.
Qed.

(** ** The executor *)

Section Executor.

Context `{Host World}.

Lemma io_bind_total {A B} (f : World -> A * World) (k : A -> IO World B) (w : World) :
  (total f ≫= k) w = k (f w).1 (f w).2.
Proof. reflexivity. Qed.

Lemma io_bind_Ok {A B} (c : IO World A) (k : A -> IO World B) (w w' : World) (a : A) :
  c w = (Ok a, w') -> (c ≫= k) w = k a w'.
Proof. intros Hc. unfold mbind, IO_bind. by rewrite Hc. Qed.

Lemma io_bind_Raise {A B} (c : IO World A) (k : A -> IO World B) (w w' : World)
    (e : exn) :
  c w = (Raise e, w') -> (c ≫= k) w = (Raise e, w').
Proof. intros Hc. unfold mbind, IO_bind. by rewrite Hc. Qed.

(** [random.choice] raises on the empty sequence only. *)
Lemma choice_returns {A} (seq : list A) (w : World) :
  seq <> [] -> exists x w', random.choice seq w = (Ok x, w') /\ x ∈ seq.
Proof.
  intros Hne. unfold random.choice.
  assert (Hlen : 0 < Py.len seq).
  { pose proof (len_nonneg seq). pose proof (len_nil_iff seq).
    destruct (decide (Py.len seq = 0)); [tauto|lia]. }
  destruct (Z.eqb_spec (Py.len seq) 0) as [?|_]; [lia|].
  rewrite io_bind_total. unfold pure.
  pose proof (randbelow_range (Py.len seq) w Hlen) as Hi.
  set (i := (random_randbelow (Py.len seq) w).1) in *.
  destruct seq as [|d seq']; [done|].
  rewrite (index_in_range _ d i) by lia.
  eexists _, _. split; [reflexivity|].
  apply list_elem_of_In, nth_In. unfold Py.len in Hi. lia.
Qed.

(** A draw from a non-empty population is within range. *)
Lemma draw_index_in_range (u : Q) (n : Z) :
  (0 <= u)%Q -> (u < 1)%Q -> 0 < n -> 0 <= Qfloor (u * inject_Z n) < n.
Proof.
  intros H0 H1 Hn.
  assert (Hq : (0 < inject_Z n)%Q) by (change 0%Q with (inject_Z 0); by rewrite <- Zlt_Qlt).
  split.
  - rewrite <- (Qfloor_Z 0). apply Qfloor_resp_le.
    change (inject_Z 0) with 0%Q. apply Qmult_le_0_compat; [done|].
    by apply Qlt_le_weak.
  - rewrite Zlt_Qlt. eapply Qle_lt_trans; [apply Qfloor_le|].
    rewrite <- (Qmult_1_l (inject_Z n)) at 2.
    by apply Qmult_lt_compat_r.
Qed.

Lemma draws_returns {A} (population : list A) (k : nat) (w : World) :
  population <> [] ->
  exists xs w', random.draws population k w = (Ok xs, w').
Proof.
  intros Hne. revert w. induction k as [|k IH]; intros w; simpl.
  - by eexists _, _.
  - rewrite io_bind_total. unfold pure.
    destruct (random_range w) as [H0 H1].
    destruct population as [|d l]; [done|].
    assert (Hlen : 0 < Py.len (d :: l)) by (unfold Py.len; simpl; lia).
    erewrite io_bind_Ok;
      [|by rewrite (index_in_range _ d) by (by apply draw_index_in_range)].
    destruct (IH (random_random w).2) as (xs & w' & Hd).
    erewrite io_bind_Ok by exact Hd. by eexists _, _.
Qed.

Lemma generate_random_key_returns (self : EtcdBenchmarkClient) (w : World) :
  exists key w', EtcdBenchmarkClient.generate_random_key self w = (Ok key, w').
Proof.
  unfold EtcdBenchmarkClient.generate_random_key, random.choices.
  edestruct (draws_returns (A:=Ascii.ascii)) as (xs & w' & Hd);
    [|erewrite io_bind_Ok by exact Hd; by eexists _, _].
  discriminate.
Qed.

Lemma generate_random_value_returns (self : EtcdBenchmarkClient) (w : World) :
  exists value w', EtcdBenchmarkClient.generate_random_value self w = (Ok value, w').
Proof.
  unfold EtcdBenchmarkClient.generate_random_value, random.choices.
  edestruct (draws_returns (A:=Ascii.ascii)) as (xs & w' & Hd);
    [|erewrite io_bind_Ok by exact Hd; by eexists _, _].
  discriminate.
Qed.

(** Every path through [perform_operation] ends in a result: the missing
    client, the [try] block and its handler. *)
Lemma perform_operation_returns (self : EtcdBenchmarkClient) (w : World) :
  endpoints (config self) <> [] ->
  exists r w', EtcdBenchmarkClient.perform_operation self w = (Ok r, w').
Proof.
  intros Hne. unfold EtcdBenchmarkClient.perform_operation.
  rewrite io_bind_total.
  destruct (choice_returns (endpoints (config self)) (random_random w).2 Hne)
    as (ep & w2 & Hc & _).
  erewrite io_bind_Ok by exact Hc.
  destruct (etcd_clients self !! ep) as [client|].
  - rewrite io_bind_total. unfold try_except.
    match goal with
    | |- context [(?op ≫= ?k) ?w3] => destruct (op w3) as [[[]|e] w4] eqn:Hop
    end.
    + erewrite io_bind_Ok by exact Hop. by eexists _, _.
    + erewrite io_bind_Raise by exact Hop. by eexists _, _.
  - by eexists _, _.
Qed.

End Executor.

Section Recording.

Context `{H : Host World}.

(** Random draws and key and value generation leave the log alone. *)
Lemma recording_choice {A} (seq : list A) (l : list store_event) (w : World) :
  random.choice (H:=recording H) seq (l, w)
  = ((random.choice seq w).1, (l, (random.choice seq w).2)).
Proof.
  unfold random.choice. destruct (Py.len seq =? 0); [reflexivity|].
  unfold mbind, IO_bind, total, pure. simpl.
  by destruct (Py.index seq _).
Qed.

Lemma recording_draws {A} (population : list A) (k : nat)
    (l : list store_event) (w : World) :
  random.draws (H:=recording H) population k (l, w)
  = ((random.draws population k w).1, (l, (random.draws population k w).2)).
Proof.
  revert w. induction k as [|k IH]; intros w; [reflexivity|].
  cbn [random.draws]. unfold mbind, IO_bind, total, pure. cbn [fst snd recording random_random].
  destruct (Py.index population _); [|reflexivity].
  rewrite IH. by destruct (random.draws population k _) as [[xs|e] w'].
Qed.

Lemma recording_key (self : EtcdBenchmarkClient) (l : list store_event) (w : World) :
  EtcdBenchmarkClient.generate_random_key (H:=recording H) self (l, w)
  = ((EtcdBenchmarkClient.generate_random_key self w).1,
     (l, (EtcdBenchmarkClient.generate_random_key self w).2)).
Proof.
  unfold EtcdBenchmarkClient.generate_random_key, random.choices.
  unfold mbind, IO_bind. rewrite recording_draws.
  by destruct (random.draws _ _ w) as [[xs|e] w'].
Qed.

Lemma recording_value (self : EtcdBenchmarkClient) (l : list store_event) (w : World) :
  EtcdBenchmarkClient.generate_random_value (H:=recording H) self (l, w)
  = ((EtcdBenchmarkClient.generate_random_value self w).1,
     (l, (EtcdBenchmarkClient.generate_random_value self w).2)).
Proof.
  unfold EtcdBenchmarkClient.generate_random_value, random.choices.
  unfold mbind, IO_bind. rewrite recording_draws.
  by destruct (random.draws _ _ w) as [[xs|e] w'].
Qed.

(** The store call of the [try] block, with and without the log: the same
    outcome, and one entry in the log, for the call that was made. *)
Lemma store_call_recorded (self : EtcdBenchmarkClient) (client : etcd3_client)
    (is_write : bool) (w : World) :
  exists res w' event,
    (if is_write then
       key ← EtcdBenchmarkClient.generate_random_key self;
       value ← EtcdBenchmarkClient.generate_random_value self;
       etcd_put client key value
     else
       key ← EtcdBenchmarkClient.generate_random_key self;
       _ ← etcd_get client key;
       mret ()) w = (res, w')
    /\ (if is_write then
         key ← EtcdBenchmarkClient.generate_random_key (H:=recording H) self;
         value ← EtcdBenchmarkClient.generate_random_value (H:=recording H) self;
         etcd_put (Host:=recording H) client key value
       else
         key ← EtcdBenchmarkClient.generate_random_key (H:=recording H) self;
         _ ← etcd_get (Host:=recording H) client key;
         mret ()) ([], w) = (res, ([event], w'))
    /\ match event with
       | Put c _ _ raised =>
           is_write = true /\ c = client /\ raised = raised_by res
       | Get c _ raised =>
           is_write = false /\ c = client /\ raised = raised_by res
       end.
Proof.
  destruct (generate_random_key_returns self w) as (key & w1 & Hk).
  destruct is_write.
  - destruct (generate_random_value_returns self w1) as (value & w2 & Hv).
    erewrite (io_bind_Ok (EtcdBenchmarkClient.generate_random_key self))
      by exact Hk.
    erewrite (io_bind_Ok (EtcdBenchmarkClient.generate_random_value self))
      by exact Hv.
    erewrite (io_bind_Ok (EtcdBenchmarkClient.generate_random_key (H:=recording H) self));
      [|rewrite recording_key, Hk; cbn [fst snd]; reflexivity].
    erewrite (io_bind_Ok (EtcdBenchmarkClient.generate_random_value (H:=recording H) self));
      [|rewrite recording_value, Hv; cbn [fst snd]; reflexivity].
    cbn [recording etcd_put fst snd app].
    destruct (etcd_put client key value w2) as [res w3] eqn:Hput.
    exists res, w3, (Put client key value (raised_by res)).
    cbn [fst snd]. done.
  - erewrite (io_bind_Ok (EtcdBenchmarkClient.generate_random_key self))
      by exact Hk.
    erewrite (io_bind_Ok (EtcdBenchmarkClient.generate_random_key (H:=recording H) self));
      [|rewrite recording_key, Hk; cbn [fst snd]; reflexivity].
    unfold mbind, IO_bind. cbn [recording etcd_get fst snd app].
    destruct (etcd_get client key w1) as [[v|e] w2] eqn:Hget.
    + exists (Ok ()), w2, (Get client key None). done.
    + exists (Raise e), w2, (Get client key (Some e)). done.
Qed.

(** C9.  With a non-empty endpoint list, [perform_operation] returns an
    [OperationResult] from every world and never raises, whatever the store
    does.  Run beside a log of the store calls, it returns the same result,
    and the log holds what [captured] says: no call when the endpoint has
    no client, else the one [put] or [get] of this operation; a call that
    returned gives [success = true] with no error text, and a call that
    raised [e], be it the only failure of an otherwise healthy store, gives
    [success = false] with [error = str(e)]. *)
Theorem perform_operation_never_raises
    (self : EtcdBenchmarkClient) (w : World) :
  endpoints (config self) <> [] ->
  exists r w' events,
    EtcdBenchmarkClient.perform_operation self w = (Ok r, w')
    /\ EtcdBenchmarkClient.perform_operation (H:=recording H) self ([], w)
       = (Ok r, (events, w'))
    /\ captured self r events
    /\ (success r = true -> error r = EmptyString).
Proof.
  intros Hne. unfold EtcdBenchmarkClient.perform_operation.
  rewrite !io_bind_total.
  change (random_random (Host:=recording H) ([], w)).1 with (random_random w).1.
  change (random_random (Host:=recording H) ([], w)).2
    with (@nil store_event, (random_random w).2).
  set (u := (random_random w).1). set (w1 := (random_random w).2).
  destruct (choice_returns (endpoints (config self)) w1 Hne) as (ep & w2 & Hc & Hin).
  erewrite (io_bind_Ok (random.choice _)) by exact Hc.
  erewrite (io_bind_Ok (random.choice (H:=recording H) _));
    [|rewrite recording_choice, Hc; cbn [fst snd]; reflexivity].
  cbn [fst snd].
  destruct (etcd_clients self !! ep) as [client|] eqn:Hcl.
  - rewrite !io_bind_total.
    change (time_perf_counter (Host:=recording H) ([], w2)).1
      with (time_perf_counter w2).1.
    change (time_perf_counter (Host:=recording H) ([], w2)).2
      with (@nil store_event, (time_perf_counter w2).2).
    set (w3 := (time_perf_counter w2).2).
    set (is_write := negb (Qle_bool (write_ratio (config self)) u)).
    destruct (store_call_recorded self client is_write w3)
      as (res & w4 & event & Hrun & Hrec & Hevent).
    unfold try_except.
    destruct res as [[]|e].
    + erewrite io_bind_Ok by exact Hrun.
      erewrite (io_bind_Ok _ _ ([], w3)) by exact Hrec.
      eexists _, _, _. split; [reflexivity|]. split; [reflexivity|].
      split; [|done].
      destruct event as [c k v raised|c k raised];
        destruct Hevent as (Hw & -> & ->); rewrite Hw; done.
    + erewrite io_bind_Raise by exact Hrun.
      erewrite (io_bind_Raise _ _ ([], w3)) by exact Hrec.
      eexists _, _, _. split; [reflexivity|]. split; [reflexivity|].
      split; [|done].
      destruct event as [c k v raised|c k raised];
        destruct Hevent as (Hw & -> & ->); rewrite Hw; done.
  - rewrite !io_bind_total.
    eexists _, _, _. split; [reflexivity|]. split; [reflexivity|].
    split; done.
Qed.

End Recording.

Lemma perform_operation_never_raises_witness :
  endpoints (config example_client) <> []
  /\ exists r w' events,
       EtcdBenchmarkClient.perform_operation (H:=flaky_host) example_client 0%nat
       = (Ok r, w')
       /\ EtcdBenchmarkClient.perform_operation (H:=recording flaky_host)
            example_client ([], 0%nat)
          = (Ok r, (events, w'))
       /\ captured example_client r events
       /\ (success r = true -> error r = EmptyString).
Proof.
  split; [discriminate|].
  apply (perform_operation_never_raises (H:=flaky_host) example_client 0%nat).
  discriminate.
Defined.

(** The flaky store on the example client: from tick 1 the [put] is refused
    and the result carries its text; from tick 0 the same call returns and
    the result is a success. *)
Example flaky_store_reported :
  (exists r w' k v,
     EtcdBenchmarkClient.perform_operation (H:=recording flaky_host)
       example_client ([], 1%nat)
     = (Ok r, ([Put {| host := "localhost"; port := 2379 |} k v
                  (Some (Exception "etcd connection failed"))], w'))
     /\ success r = false /\ error r = "etcd connection failed"%string)
  /\ (exists r w' k v,
        EtcdBenchmarkClient.perform_operation (H:=recording flaky_host)
          example_client ([], 0%nat)
        = (Ok r, ([Put {| host := "localhost"; port := 2379 |} k v None], w'))
        /\ success r = true /\ error r = EmptyString).
Proof.
  split; eexists _, _, _, _; (split; [vm_compute; reflexivity|]); done.
Qed.


(** The worker loop hands on what [perform_operation] returns: however many
    iterations it makes, it returns its buffer and raises nothing. *)
Lemma run_never_raises `{Host World} (fuel : nat) (self : EtcdBenchmarkClient)
    (duration : Z) (w : World) :
  endpoints (config self) <> [] ->
  exists results w', EtcdBenchmarkClient.run fuel self duration w = (Ok results, w').
Proof.
  intros Hne. unfold EtcdBenchmarkClient.run. rewrite io_bind_total.
  generalize (time_time w).2 as w0. generalize (time_time w).1 as start.
  generalize (@nil OperationResult) as results.
  induction fuel as [|fuel IH]; intros results start w0; simpl.
  - by eexists _, _.
  - rewrite io_bind_total.
    destruct (negb _); [|by eexists _, _].
    destruct (perform_operation_returns self (time_time w0).2 Hne)
      as (r & w1 & Hp).
    erewrite io_bind_Ok by exact Hp.
    rewrite io_bind_total. apply IH.
Qed.

(** * Further properties of the code *)

(** ** Aggregation *)

Section Aggregation.

Implicit Types (clients : list (list OperationResult)) (r : BenchmarkResults).

(** The record that [analyze_results] returns, field by field. *)
Lemma analyze_results_record v clients d r :
  EtcdBenchmark.analyze_results v clients d = Ok r ->
  let rs := merged clients in
  exists overall rstat wstat,
    EtcdBenchmark.calc_percentiles v (successful_latencies rs) = Ok overall
    /\ EtcdBenchmark.calc_percentiles v (successful_latencies (of_kind "read" rs)) = Ok rstat
    /\ EtcdBenchmark.calc_percentiles v (successful_latencies (of_kind "write" rs)) = Ok wstat
    /\ r = {|
        total_operations := Py.len rs;
        successful_operations := Py.len (filter (fun x => success x = true) rs);
        failed_operations := Py.len rs - Py.len (filter (fun x => success x = true) rs);
        total_reads := Py.len (of_kind "read" rs);
        total_writes := Py.len (of_kind "write" rs);
        successful_reads := Py.len (filter (fun x => success x = true) (of_kind "read" rs));
        successful_writes := Py.len (filter (fun x => success x = true) (of_kind "write" rs));
        duration_seconds := d;
        throughput_ops_per_sec :=
          inject_Z (Py.len (filter (fun x => success x = true) rs)) / d;
        read_throughput :=
          inject_Z (Py.len (filter (fun x => success x = true) (of_kind "read" rs))) / d;
        write_throughput :=
          inject_Z (Py.len (filter (fun x => success x = true) (of_kind "write" rs))) / d;
        avg_latency_ms := avg overall;
        min_latency_ms := min overall;
        max_latency_ms := max overall;
        p50_latency_ms := p50 overall;
        p95_latency_ms := p95 overall;
        p99_latency_ms := p99 overall;
        read_latency_stats := rstat;
        write_latency_stats := wstat;
        endpoint_distribution := foldl EtcdBenchmark.count_endpoint ∅ rs;
        errors :=
          elements (list_to_set
                      (error <$> filter (fun x => success x = false /\ error x <> EmptyString) rs)
                    : gset string);
      |}.
Proof.
  unfold EtcdBenchmark.analyze_results. fold (merged clients).
  intros H. cbv zeta.
  destruct (merged clients) as [|x l] eqn:E; [discriminate|].
  set (rs := x :: l) in *.
  apply bind_Ok_inv in H as (overall & H1 & H).
  apply bind_Ok_inv in H as (rstat & H2 & H).
  apply bind_Ok_inv in H as (wstat & H3 & H).
  apply bind_Ok_inv in H as (tp & [Hd ->]%truediv_Ok_inv & H).
  apply bind_Ok_inv in H as (rtp & [_ ->]%truediv_Ok_inv & H).
  apply bind_Ok_inv in H as (wtp & [_ ->]%truediv_Ok_inv & H).
  injection H as <-. rewrite !sum_ones.
  exists overall, rstat, wstat. repeat split; assumption.
Qed.

(** Reads and writes partition a list of results that are one or the
    other. *)
Lemma kinds_partition (rs : list OperationResult) (P : OperationResult -> Prop)
    `{!forall x, Decision (P x)} :
  Forall read_or_write rs ->
  Py.len (filter P (of_kind "read" rs)) + Py.len (filter P (of_kind "write" rs))
  = Py.len (filter P rs).
Proof.
  unfold Py.len, of_kind. induction 1 as [|x rs Hx _ IH]; [done|].
  rewrite !(filter_cons _ x).
  destruct Hx as [Hx|Hx]; rewrite Hx.
  - destruct (decide (_ = _)) as [_|?]; [|done].
    destruct (decide ("read"%string = "write"%string)) as [?|_]; [done|].
    rewrite (filter_cons P x). destruct (decide (P x)); simpl; lia.
  - destruct (decide ("write"%string = "read"%string)) as [?|_]; [done|].
    destruct (decide (_ = _)) as [_|?]; [|done].
    rewrite (filter_cons P x). destruct (decide (P x)); simpl; lia.
Qed.

Lemma filter_True_id {A} (l : list A) : filter (fun _ => True) l = l.
Proof. induction l as [|x l IH]; [done|]. by rewrite filter_cons_True, IH. Qed.

(** One entry of the endpoint dictionary after the counting loop. *)
Lemma count_endpoint_lookup (m : gmap string Z) (rs : list OperationResult) (ep : string) :
  foldl EtcdBenchmark.count_endpoint m rs !! ep
  = match m !! ep with
    | Some c => Some (c + attempts_at ep rs)
    | None => if attempts_at ep rs =? 0 then None else Some (attempts_at ep rs)
    end.
Proof.
  revert m. unfold attempts_at.
  induction rs as [|x rs IH]; intros m; simpl.
  - unfold Py.len; simpl. destruct (m !! ep); [f_equal; lia|done].
  - rewrite IH. unfold EtcdBenchmark.count_endpoint.
    rewrite filter_cons. destruct (decide (endpoint x = ep)) as [->|Hne].
    + rewrite lookup_insert_eq. unfold Py.len; simpl.
      destruct (m !! ep) as [c|]; simpl.
      * f_equal; lia.
      * destruct (Z.eqb_spec (Z.of_nat (S (length (filter (fun y => endpoint y = ep) rs)))) 0);
          [lia|f_equal; lia].
    + by rewrite lookup_insert_ne.
Qed.

End Aggregation.

(** X1.  When every result is a read or a write, the reads and writes of a
    record add up: total_reads + total_writes = total_operations and
    successful_reads + successful_writes = successful_operations. *)
Theorem kind_counts_add_up (v : version) (clients : list (list OperationResult))
    (d : Q) (r : BenchmarkResults) :
  EtcdBenchmark.analyze_results v clients d = Ok r ->
  Forall read_or_write (merged clients) ->
  total_reads r + total_writes r = total_operations r
  /\ successful_reads r + successful_writes r = successful_operations r.
Proof.
  intros H Hk. apply analyze_results_record in H as (o & rs & ws & _ & _ & _ & ->).
  simpl. split.
  - pose proof (kinds_partition (merged clients) (fun _ => True) Hk) as Hp.
    by rewrite !filter_True_id in Hp.
  - apply (kinds_partition (merged clients) (fun x => success x = true) Hk).
Qed.

Lemma kind_counts_add_up_witness :
  exists r,
    EtcdBenchmark.analyze_results Before313
      [[read_ok 1; read_failed "timeout"]; [write_ok 2; write_ok 4; read_ok 3]] 2 = Ok r
    /\ total_reads r + total_writes r = total_operations r
    /\ successful_reads r + successful_writes r = successful_operations r.
Proof.
  eexists. split; [vm_compute; reflexivity|].
  apply (kind_counts_add_up Before313
           [[read_ok 1; read_failed "timeout"]; [write_ok 2; write_ok 4; read_ok 3]] 2).
  - vm_compute; reflexivity.
  - repeat constructor; by (left + right).
Defined.

(** X2.  The endpoint distribution of a record holds, for each endpoint that
    was tried at least once, the number of operations attempted against it,
    failed ones included; an endpoint that was never tried has no entry. *)
Theorem endpoint_distribution_counts (v : version)
    (clients : list (list OperationResult)) (d : Q) (r : BenchmarkResults)
    (ep : string) :
  EtcdBenchmark.analyze_results v clients d = Ok r ->
  endpoint_distribution r !! ep
  = if attempts_at ep (merged clients) =? 0 then None
    else Some (attempts_at ep (merged clients)).
Proof.
  intros H. apply analyze_results_record in H as (o & rs & ws & _ & _ & _ & ->).
  simpl. by rewrite count_endpoint_lookup, lookup_empty.
Qed.

Lemma endpoint_distribution_counts_witness :
  exists r,
    EtcdBenchmark.analyze_results Before313
      [[read_ok 1; read_failed "timeout"]; [write_ok 2; write_ok 4; read_ok 3]] 2 = Ok r
    /\ endpoint_distribution r !! "http://localhost:2379"%string = Some 3
    /\ endpoint_distribution r !! "http://localhost:2381"%string = None.
Proof.
  eexists. split; [vm_compute; reflexivity|].
  split.
  - apply (endpoint_distribution_counts Before313
             [[read_ok 1; read_failed "timeout"]; [write_ok 2; write_ok 4; read_ok 3]] 2).
    vm_compute; reflexivity.
  - apply (endpoint_distribution_counts Before313
             [[read_ok 1; read_failed "timeout"]; [write_ok 2; write_ok 4; read_ok 3]] 2).
    vm_compute; reflexivity.
Defined.

(** X3.  The error list of a record has no duplicates, and holds exactly the
    non-empty error texts of the failed results. *)
Theorem errors_deduplicated (v : version) (clients : list (list OperationResult))
    (d : Q) (r : BenchmarkResults) :
  EtcdBenchmark.analyze_results v clients d = Ok r ->
  NoDup (errors r)
  /\ forall s, s ∈ errors r <->
       s <> EmptyString
       /\ exists x, x ∈ merged clients /\ success x = false /\ error x = s.
Proof.
  intros H. apply analyze_results_record in H as (o & rs & ws & _ & _ & _ & ->).
  simpl. split; [apply NoDup_elements|].
  intros s. rewrite elem_of_elements, elem_of_list_to_set, list_elem_of_fmap.
  split.
  - intros (x & -> & [[Hs He] Hx]%list_elem_of_filter). split; [done|]. by exists x.
  - intros (Hne & x & Hx & Hs & <-). exists x. split; [done|].
    by apply list_elem_of_filter.
Qed.

Lemma errors_deduplicated_witness :
  exists r,
    EtcdBenchmark.analyze_results Before313
      [[read_failed "timeout"; read_failed "timeout"]; [read_failed EmptyString]] 2 = Ok r
    /\ NoDup (errors r)
    /\ forall s, s ∈ errors r <->
         s <> EmptyString
         /\ exists x,
              x ∈ merged [[read_failed "timeout"; read_failed "timeout"];
                          [read_failed EmptyString]]
              /\ success x = false /\ error x = s.
Proof.
  eexists. split; [vm_compute; reflexivity|].
  apply (errors_deduplicated Before313
           [[read_failed "timeout"; read_failed "timeout"]; [read_failed EmptyString]] 2).
  vm_compute; reflexivity.
Defined.

(** ** The order of the merged results *)

Section MergeOrder.

Lemma len_Permutation {A} (l l' : list A) : l ≡ₚ l' -> Py.len l = Py.len l'.
Proof. intros Hp. unfold Py.len. by rewrite (Permutation_length Hp). Qed.

Lemma len_filter_Permutation {A} (P : A -> Prop) `{!forall x, Decision (P x)}
    (l l' : list A) :
  l ≡ₚ l' -> Py.len (filter P l) = Py.len (filter P l').
Proof. intros Hp. apply len_Permutation. by rewrite Hp. Qed.

Lemma successful_latencies_len (rs rs' : list OperationResult) :
  rs ≡ₚ rs' -> Py.len (successful_latencies rs) = Py.len (successful_latencies rs').
Proof.
  intros Hp. unfold successful_latencies. apply len_Permutation. by rewrite Hp.
Qed.

Lemma of_kind_Permutation (kind : string) (rs rs' : list OperationResult) :
  rs ≡ₚ rs' -> of_kind kind rs ≡ₚ of_kind kind rs'.
Proof. intros Hp. unfold of_kind. by rewrite Hp. Qed.

(** Whether [calc_percentiles] returns depends on the size of the sample
    only. *)
Lemma calc_percentiles_defined (v : version) (data : list Q) :
  returns (EtcdBenchmark.calc_percentiles v data) <-> quantiles_defined v data.
Proof.
  split; [|apply calc_percentiles_returns].
  intros [st Hst]. unfold quantiles_defined.
  destruct v; [|by left]. right. intros Hlen.
  destruct (len_cases data) as [->|[[x ->]|Hld]]; [done| |lia].
  by rewrite calc_percentiles_single_Before313 in Hst.
Qed.

Lemma samples_defined_Permutation (v : version) (rs rs' : list OperationResult) :
  rs ≡ₚ rs' -> samples_defined v rs -> samples_defined v rs'.
Proof.
  intros Hp (H1 & H2 & H3). unfold samples_defined, quantiles_defined in *.
  rewrite <- (successful_latencies_len rs rs' Hp).
  rewrite <- (successful_latencies_len _ _ (of_kind_Permutation "read" _ _ Hp)).
  rewrite <- (successful_latencies_len _ _ (of_kind_Permutation "write" _ _ Hp)).
  done.
Qed.

Lemma count_endpoint_Permutation (rs rs' : list OperationResult) :
  rs ≡ₚ rs' ->
  foldl EtcdBenchmark.count_endpoint ∅ rs = foldl EtcdBenchmark.count_endpoint ∅ rs'.
Proof.
  intros Hp. apply map_eq. intros ep.
  rewrite !count_endpoint_lookup, lookup_empty. unfold attempts_at.
  by rewrite (len_filter_Permutation _ rs rs' Hp).
Qed.

End MergeOrder.

(** X4.  The order in which the results are merged does not matter for what
    is counted: two runs of aggregation over the same results in a different
    order return together or not at all, and their records agree on every
    count, on the three throughputs and on the endpoint distribution, and
    their error lists hold the same texts ([list(set(...))] fixes no
    order). *)
Theorem merge_order_irrelevant (v : version)
    (clients clients' : list (list OperationResult)) (d : Q) :
  merged clients ≡ₚ merged clients' ->
  (returns (EtcdBenchmark.analyze_results v clients d)
   <-> returns (EtcdBenchmark.analyze_results v clients' d))
  /\ forall r r',
       EtcdBenchmark.analyze_results v clients d = Ok r ->
       EtcdBenchmark.analyze_results v clients' d = Ok r' ->
       total_operations r = total_operations r'
       /\ successful_operations r = successful_operations r'
       /\ failed_operations r = failed_operations r'
       /\ total_reads r = total_reads r'
       /\ total_writes r = total_writes r'
       /\ successful_reads r = successful_reads r'
       /\ successful_writes r = successful_writes r'
       /\ throughput_ops_per_sec r = throughput_ops_per_sec r'
       /\ read_throughput r = read_throughput r'
       /\ write_throughput r = write_throughput r'
       /\ endpoint_distribution r = endpoint_distribution r'
       /\ errors r ≡ₚ errors r'.
Proof.
  intros Hp. split.
  - assert (Hone : forall c c', merged c ≡ₚ merged c' ->
              returns (EtcdBenchmark.analyze_results v c d) ->
              returns (EtcdBenchmark.analyze_results v c' d)).
    { intros c c' Hcc [r Hr].
      pose proof (analyze_results_Ok _ _ _ _ Hr) as (Hne & Hd & _).
      apply analyze_results_record in Hr as (o & rs & ws & H1 & H2 & H3 & _).
      apply analyze_results_returns; [|done|].
      - intros Hnil. rewrite Hnil in Hcc. by apply Permutation_nil_r in Hcc.
      - apply (samples_defined_Permutation v (merged c)); [done|].
        split; [|split]; apply calc_percentiles_defined.
        + exists o. exact H1.
        + exists rs. exact H2.
        + exists ws. exact H3. }
    split; apply Hone; [done|by symmetry].
  - intros r r' Hr Hr'.
    apply analyze_results_record in Hr as (o & rs & ws & _ & _ & _ & ->).
    apply analyze_results_record in Hr' as (o' & rs' & ws' & _ & _ & _ & ->).
    simpl.
    pose proof (of_kind_Permutation "read" _ _ Hp) as Hread.
    pose proof (of_kind_Permutation "write" _ _ Hp) as Hwrite.
    rewrite (len_Permutation _ _ Hp), (len_Permutation _ _ Hread),
      (len_Permutation _ _ Hwrite).
    rewrite (len_filter_Permutation (fun x => success x = true) _ _ Hp).
    rewrite (len_filter_Permutation (fun x => success x = true) _ _ Hread).
    rewrite (len_filter_Permutation (fun x => success x = true) _ _ Hwrite).
    rewrite (count_endpoint_Permutation _ _ Hp).
    repeat split.
    match goal with |- ?a ≡ₚ ?b => replace b with a; [done|] end.
    f_equal. apply list_to_set_perm_L. by rewrite Hp.
Qed.

Lemma merge_order_irrelevant_witness :
  exists r r',
    EtcdBenchmark.analyze_results Before313
      [[read_ok 1; read_failed "timeout"]; [write_ok 2; write_ok 4; read_ok 3]] 2 = Ok r
    /\ EtcdBenchmark.analyze_results Before313
         [[write_ok 4; read_ok 3; write_ok 2]; [read_failed "timeout"; read_ok 1]] 2 = Ok r'
    /\ total_operations r = total_operations r'
    /\ successful_operations r = successful_operations r'
    /\ failed_operations r = failed_operations r'
    /\ total_reads r = total_reads r'
    /\ total_writes r = total_writes r'
    /\ successful_reads r = successful_reads r'
    /\ successful_writes r = successful_writes r'
    /\ throughput_ops_per_sec r = throughput_ops_per_sec r'
    /\ read_throughput r = read_throughput r'
    /\ write_throughput r = write_throughput r'
    /\ endpoint_distribution r = endpoint_distribution r'
    /\ errors r ≡ₚ errors r'.
Proof.
  eexists _, _. split; [vm_compute; reflexivity|]. split; [vm_compute; reflexivity|].
  apply (merge_order_irrelevant Before313
           [[read_ok 1; read_failed "timeout"]; [write_ok 2; write_ok 4; read_ok 3]]
           [[write_ok 4; read_ok 3; write_ok 2]; [read_failed "timeout"; read_ok 1]] 2).
  - rewrite !merged_concat. simpl.
    apply NoDup_Permutation.
    + repeat (apply NoDup_cons; split; [set_solver|]). apply NoDup_nil_2.
    + repeat (apply NoDup_cons; split; [set_solver|]). apply NoDup_nil_2.
    + set_solver.
  - vm_compute; reflexivity.
  - vm_compute; reflexivity.
Defined.

(** ** Latency statistics and the observed latencies *)

Section Bounds.

Lemma Qmin_cases (x y : Q) :
  (Py.Qmin x y = x /\ (x <= y)%Q) \/ (Py.Qmin x y = y /\ (y <= x)%Q).
Proof.
  unfold Py.Qmin. destruct (Qle_bool x y) eqn:E.
  - left. split; [done|]. by apply Qle_bool_iff.
  - right. split; [done|]. apply Qlt_le_weak, Qnot_le_lt.
    intros Hle. apply Qle_bool_iff in Hle. congruence.
Qed.

Lemma Qmax_cases (x y : Q) :
  (Py.Qmax x y = y /\ (x <= y)%Q) \/ (Py.Qmax x y = x /\ (y <= x)%Q).
Proof.
  unfold Py.Qmax. destruct (Qle_bool x y) eqn:E.
  - left. split; [done|]. by apply Qle_bool_iff.
  - right. split; [done|]. apply Qlt_le_weak, Qnot_le_lt.
    intros Hle. apply Qle_bool_iff in Hle. congruence.
Qed.

(** [min(data)] is one of the data and below all of them. *)
Lemma foldl_Qmin_spec (x : Q) (l : list Q) :
  foldl Py.Qmin x l ∈ x :: l
  /\ forall y, y ∈ x :: l -> (foldl Py.Qmin x l <= y)%Q.
Proof.
  revert x. induction l as [|z l IH]; intros x; simpl.
  - split; [set_solver|]. intros y ->%list_elem_of_singleton. apply Qle_refl.
  - destruct (IH (Py.Qmin x z)) as [Hin Hle]. split.
    + destruct (Qmin_cases x z) as [[Hm _]|[Hm _]]; rewrite Hm in Hin |- *; set_solver.
    + intros y Hy.
      assert (Hm : (foldl Py.Qmin (Py.Qmin x z) l <= Py.Qmin x z)%Q)
        by (apply Hle; set_solver).
      apply elem_of_cons in Hy as [->|Hy].
      * eapply Qle_trans; [exact Hm|].
        destruct (Qmin_cases x z) as [[-> ?]|[-> ?]]; [apply Qle_refl|done].
      * apply elem_of_cons in Hy as [->|Hy]; [|apply Hle; set_solver].
        eapply Qle_trans; [exact Hm|].
        destruct (Qmin_cases x z) as [[-> ?]|[-> ?]]; [done|apply Qle_refl].
Qed.

(** [max(data)] is one of the data and above all of them. *)
Lemma foldl_Qmax_spec (x : Q) (l : list Q) :
  foldl Py.Qmax x l ∈ x :: l
  /\ forall y, y ∈ x :: l -> (y <= foldl Py.Qmax x l)%Q.
Proof.
  revert x. induction l as [|z l IH]; intros x; simpl.
  - split; [set_solver|]. intros y ->%list_elem_of_singleton. apply Qle_refl.
  - destruct (IH (Py.Qmax x z)) as [Hin Hle]. split.
    + destruct (Qmax_cases x z) as [[Hm _]|[Hm _]]; rewrite Hm in Hin |- *; set_solver.
    + intros y Hy.
      assert (Hm : (Py.Qmax x z <= foldl Py.Qmax (Py.Qmax x z) l)%Q)
        by (apply Hle; set_solver).
      apply elem_of_cons in Hy as [->|Hy].
      * eapply Qle_trans; [|exact Hm].
        destruct (Qmax_cases x z) as [[-> ?]|[-> ?]]; [done|apply Qle_refl].
      * apply elem_of_cons in Hy as [->|Hy]; [|apply Hle; set_solver].
        eapply Qle_trans; [|exact Hm].
        destruct (Qmax_cases x z) as [[-> ?]|[-> ?]]; [apply Qle_refl|done].
Qed.

(** The sum of data between two bounds lies between the bounds times the
    number of data. *)
Lemma foldl_Qplus_bounds (lo hi acc : Q) (l : list Q) :
  (forall y, y ∈ l -> (lo <= y)%Q /\ (y <= hi)%Q) ->
  (acc + lo * inject_Z (Py.len l) <= foldl Qplus acc l)%Q
  /\ (foldl Qplus acc l <= acc + hi * inject_Z (Py.len l))%Q.
Proof.
  revert acc. induction l as [|z l IH]; intros acc Hb.
  - change (foldl Qplus acc []) with acc.
    change (inject_Z (Py.len (@nil Q))) with 0%Q. split; lra.
  - change (foldl Qplus acc (z :: l)) with (foldl Qplus (acc + z)%Q l).
    destruct (IH (acc + z)%Q) as [H1 H2]; [intros; apply Hb; set_solver|].
    destruct (Hb z) as [Hz1 Hz2]; [set_solver|].
    assert (Hl : (inject_Z (Py.len (z :: l)) == inject_Z (Py.len l) + 1)%Q).
    { unfold Py.len. simpl length. rewrite Nat2Z.inj_succ, <- Z.add_1_r.
      by rewrite inject_Z_plus. }
    rewrite Hl. set (n := inject_Z (Py.len l)) in *.
    set (s := foldl Qplus (acc + z)%Q l) in *. split; nra.
Qed.

(** An element of the sorted sample is an element of the sample. *)
Lemma nth_sorted_elem (data : list Q) (k : Z) :
  0 <= k < Py.len data -> nth (Z.to_nat k) (Py.sorted data) 0%Q ∈ data.
Proof.
  intros Hk.
  assert (Hin : nth (Z.to_nat k) (Py.sorted data) 0%Q ∈ Py.sorted data).
  { apply list_elem_of_In, nth_In. pose proof (len_sorted data) as Hl.
    unfold Py.len in *. lia. }
  revert Hin. generalize (nth (Z.to_nat k) (Py.sorted data) 0%Q). intros y Hin.
  unfold Py.sorted in Hin. by rewrite merge_sort_Permutation in Hin.
Qed.

(** The middle of the sample lies between any bounds of the data. *)
Lemma middle_bounds (data : list Q) (lo hi : Q) :
  data <> [] ->
  (forall y, y ∈ data -> (lo <= y)%Q /\ (y <= hi)%Q) ->
  (lo <= middle (Py.sorted data))%Q /\ (middle (Py.sorted data) <= hi)%Q.
Proof.
  intros Hne Hb. unfold middle. rewrite len_sorted.
  assert (Hlen : 1 <= Py.len data).
  { pose proof (len_nonneg data). pose proof (len_nil_iff data).
    destruct (decide (Py.len data = 0)); [tauto|lia]. }
  destruct (Z.even (Py.len data)) eqn:E.
  - apply Zeven_bool_iff, Zeven_ex in E as [k Hk].
    destruct (Hb _ (nth_sorted_elem data (Py.len data / 2 - 1)
                      ltac:(Z.to_euclidean_division_equations; lia))) as [? ?].
    destruct (Hb _ (nth_sorted_elem data (Py.len data / 2)
                      ltac:(Z.to_euclidean_division_equations; lia))) as [? ?].
    split; [apply Qle_shift_div_l|apply Qle_shift_div_r]; lra.
  - apply (Hb _ (nth_sorted_elem data (Py.len data / 2)
                   ltac:(Z.to_euclidean_division_equations; lia))).
Qed.

(** [calc_percentiles] on a non-empty sample: the average, minimum, maximum
    and median it reports. *)
Lemma calc_percentiles_cons (v : version) (x : Q) (l : list Q) (st : LatencyStats) :
  EtcdBenchmark.calc_percentiles v (x :: l) = Ok st ->
  avg st = (foldl Qplus 0 (x :: l) / inject_Z (Py.len (x :: l)))%Q
  /\ min st = foldl Py.Qmin x l
  /\ max st = foldl Py.Qmax x l
  /\ p50 st = middle (Py.sorted (x :: l)).
Proof.
  intros Hc.
  assert (Heq : EtcdBenchmark.calc_percentiles v (x :: l)
    = (med ← statistics.median (x :: l);
       q95 ← EtcdBenchmark.percentile v (x :: l) (95 # 100);
       q99 ← EtcdBenchmark.percentile v (x :: l) (99 # 100);
       Ok {| avg := (foldl Qplus 0 (x :: l) / inject_Z (Py.len (x :: l)))%Q;
             min := foldl Py.Qmin x l; max := foldl Py.Qmax x l;
             p50 := med; p95 := q95; p99 := q99 |})) by reflexivity.
  rewrite Heq, median_returns, bind_Ok in Hc by done.
  apply bind_Ok_inv in Hc as (q95 & _ & Hc).
  apply bind_Ok_inv in Hc as (q99 & _ & Hc).
  by injection Hc as <-.
Qed.

End Bounds.

(** X5.  For a non-empty sample, the reported average and median both lie
    between the reported minimum and maximum, and the minimum and maximum
    are latencies of the sample. *)
Theorem average_and_median_within_range (v : version) (data : list Q)
    (st : LatencyStats) :
  data <> [] ->
  EtcdBenchmark.calc_percentiles v data = Ok st ->
  min st ∈ data /\ max st ∈ data
  /\ (min st <= avg st)%Q /\ (avg st <= max st)%Q
  /\ (min st <= p50 st)%Q /\ (p50 st <= max st)%Q.
Proof.
  intros Hne Hc. destruct data as [|x l]; [done|].
  apply calc_percentiles_cons in Hc as (-> & -> & -> & ->).
  set (data := x :: l) in *.
  destruct (foldl_Qmin_spec x l) as [Hmin_in Hmin].
  destruct (foldl_Qmax_spec x l) as [Hmax_in Hmax].
  fold data in Hmin_in, Hmax_in, Hmin, Hmax.
  assert (Hb : forall y, y ∈ data ->
            (foldl Py.Qmin x l <= y)%Q /\ (y <= foldl Py.Qmax x l)%Q) by auto.
  split; [done|]. split; [done|].
  destruct (foldl_Qplus_bounds _ _ 0 data Hb) as [Hs1 Hs2].
  assert (Hn : (0 < inject_Z (Py.len data))%Q).
  { change 0%Q with (inject_Z 0). rewrite <- Zlt_Qlt.
    unfold data, Py.len. simpl length. lia. }
  destruct (middle_bounds data _ _ Hne Hb) as [Hm1 Hm2].
  split; [apply Qle_shift_div_l; [done|lra]|].
  split; [apply Qle_shift_div_r; [done|lra]|].
  done.
Qed.

Lemma average_and_median_within_range_witness :
  exists st,
    EtcdBenchmark.calc_percentiles Before313 [3%Q; 1%Q; 2%Q] = Ok st
    /\ min st ∈ [3%Q; 1%Q; 2%Q] /\ max st ∈ [3%Q; 1%Q; 2%Q]
    /\ (min st <= avg st)%Q /\ (avg st <= max st)%Q
    /\ (min st <= p50 st)%Q /\ (p50 st <= max st)%Q.
Proof.
  eexists. split; [vm_compute; reflexivity|].
  apply (average_and_median_within_range Before313 [3%Q; 1%Q; 2%Q]);
    [discriminate|vm_compute; reflexivity].
Defined.

(** ** [benchmark.py]: counts and rates *)

Section Etcdctl.

Context `{Shell World}.

(** Each command adds at most one failure. *)
Lemma write_loop_bounds (compose_file key_prefix : string) (indices : list Z)
    (failed_ops : Z) (w : World) :
  failed_ops
  <= (benchmark_py.write_loop compose_file key_prefix indices failed_ops w).1
  <= failed_ops + Py.len indices.
Proof.
  revert failed_ops w. unfold Py.len.
  induction indices as [|i rest IH]; intros failed_ops w; simpl; [lia|].
  destruct (shell_time w) as [now w1].
  destruct (benchmark_py.run_etcdctl_command _ _ _ w1) as [[[success out] err] w2].
  specialize (IH (if success then failed_ops else failed_ops + 1) w2).
  destruct success; lia.
Qed.

Lemma read_loop_bounds (compose_file key_prefix : string) (indices : list Z)
    (failed_ops : Z) (w : World) :
  failed_ops
  <= (benchmark_py.read_loop compose_file key_prefix indices failed_ops w).1
  <= failed_ops + Py.len indices.
Proof.
  revert failed_ops w. unfold Py.len.
  induction indices as [|i rest IH]; intros failed_ops w; simpl; [lia|].
  destruct (benchmark_py.run_etcdctl_command _ _ _ w) as [[[success out] err] w1].
  specialize (IH (if success then failed_ops else failed_ops + 1) w1).
  destruct success; lia.
Qed.

Lemma len_range (a b : Z) : a <= b -> Py.len (Py.range a b) = b - a.
Proof. intros Hab. unfold Py.len, Py.range. rewrite length_seqZ. lia. Qed.

Lemma sequential_writes_stats (compose_file : string) (count : Z)
    (key_prefix : string) (w : World) :
  exists failed duration,
    (benchmark_py.benchmark_sequential_writes compose_file count key_prefix w).1
    = benchmark_py.operation_stats count (count - failed) failed duration
    /\ (0 <= count -> 0 <= failed <= count).
Proof.
  unfold benchmark_py.benchmark_sequential_writes.
  destruct (shell_time w) as [start w1].
  pose proof (write_loop_bounds compose_file key_prefix (Py.range 0 count) 0 w1) as Hb.
  destruct (benchmark_py.write_loop _ _ _ 0 w1) as [failed w2].
  destruct (shell_time w2) as [stop w3]. simpl in *.
  eexists _, _. split; [reflexivity|]. intros Hc. rewrite len_range in Hb; lia.
Qed.

Lemma sequential_reads_stats (compose_file : string) (count : Z)
    (key_prefix : string) (w : World) :
  exists failed duration,
    (benchmark_py.benchmark_sequential_reads compose_file count key_prefix w).1
    = benchmark_py.operation_stats count (count - failed) failed duration
    /\ (0 <= count -> 0 <= failed <= count).
Proof.
  unfold benchmark_py.benchmark_sequential_reads.
  destruct (shell_time w) as [start w1].
  pose proof (read_loop_bounds compose_file key_prefix (Py.range 0 count) 0 w1) as Hb.
  destruct (benchmark_py.read_loop _ _ _ 0 w1) as [failed w2].
  destruct (shell_time w2) as [stop w3]. simpl in *.
  eexists _, _. split; [reflexivity|]. intros Hc. rewrite len_range in Hb; lia.
Qed.

End Etcdctl.

(** The throughput is the successes over the duration, the average latency
    the duration over the successes; both fall back to 0. *)
Lemma operation_stats_rates (total successful failed : Z) (duration : Q) :
  benchmark_py.rates_consistent
    (benchmark_py.operation_stats total successful failed duration).
Proof.
  unfold benchmark_py.rates_consistent, benchmark_py.operation_stats,
    benchmark_py.guarded_div. simpl.
  split; [|split; [|split]].
  - intros Hd. destruct (Qlt_le_dec 0 duration) as [_|?]; [reflexivity|lra].
  - intros Hd. destruct (Qlt_le_dec 0 duration) as [?|_]; [lra|done].
  - intros Hs. destruct (Z.ltb_spec 0 successful) as [_|?]; [reflexivity|lia].
  - intros Hs. destruct (Z.ltb_spec 0 successful) as [?|_]; [lia|done].
Qed.

Section Traced.

Context `{S : Shell World}.

Implicit Types (tr : list completed) (w : World).

(** A command succeeds exactly when its process completed with return
    code 0. *)
Lemma traced_command (compose_file : string) (command : list string)
    (timeout : Z) tr w :
  exists c,
    @benchmark_py.run_etcdctl_command _ (tracing S) compose_file command timeout
      (tr, w)
    = ((benchmark_py.run_etcdctl_command compose_file command timeout w).1,
       (tr ++ [c],
        (benchmark_py.run_etcdctl_command compose_file command timeout w).2))
    /\ (benchmark_py.run_etcdctl_command compose_file command timeout w).1.1.1
       = exited_zero c.
Proof.
  unfold benchmark_py.run_etcdctl_command. simpl.
  destruct (subprocess_run _ timeout w) as [c w'].
  exists c. by destruct c.
Qed.

Lemma failures_cons (c : completed) tr :
  Py.len (filter (fun c => exited_zero c = false) (c :: tr))
  = (if exited_zero c then 0 else 1)
    + Py.len (filter (fun c => exited_zero c = false) tr).
Proof.
  unfold Py.len. rewrite filter_cons.
  destruct (exited_zero c) eqn:Hc.
  - rewrite decide_False by done. lia.
  - rewrite decide_True by done. simpl. lia.
Qed.

Lemma outcomes_partition tr :
  Py.len (filter (fun c => exited_zero c = true) tr)
  + Py.len (filter (fun c => exited_zero c = false) tr)
  = Py.len tr.
Proof.
  unfold Py.len. induction tr as [|c tr IH]; [done|].
  rewrite !filter_cons. destruct (exited_zero c) eqn:Hc.
  - rewrite decide_True, decide_False by done. simpl length. lia.
  - rewrite decide_False, decide_True by done. simpl length. lia.
Qed.

Lemma write_loop_traced (compose_file key_prefix : string) (indices : list Z)
    (failed_ops : Z) tr w :
  exists more,
    @benchmark_py.write_loop _ (tracing S) compose_file key_prefix indices
      failed_ops (tr, w)
    = ((benchmark_py.write_loop compose_file key_prefix indices failed_ops w).1,
       (tr ++ more,
        (benchmark_py.write_loop compose_file key_prefix indices failed_ops w).2))
    /\ Py.len more = Py.len indices
    /\ (benchmark_py.write_loop compose_file key_prefix indices failed_ops w).1
       = failed_ops + Py.len (filter (fun c => exited_zero c = false) more).
Proof.
  revert failed_ops tr w.
  induction indices as [|i rest IH]; intros failed_ops tr w.
  - exists []. simpl. rewrite app_nil_r. unfold Py.len. simpl.
    split; [done|]. split; [done|lia].
  - cbn [benchmark_py.write_loop].
    change (@shell_time _ (tracing S) (tr, w))
      with (let '(t, w') := shell_time w in (t, (tr, w'))).
    destruct (shell_time w) as [now w1].
    set (command := [_; _; _]).
    destruct (traced_command compose_file command 10 tr w1) as (c & -> & Hc).
    destruct (benchmark_py.run_etcdctl_command compose_file command 10 w1)
      as [[[success out] err] w2].
    simpl in Hc. subst success.
    destruct (IH (if exited_zero c then failed_ops else failed_ops + 1)
                (tr ++ [c]) w2) as (more & Hrest & Hlen & Hfailed).
    cbn [fst snd]. rewrite Hrest.
    exists (c :: more). rewrite <- app_assoc. split; [done|].
    split.
    + unfold Py.len in *. simpl. lia.
    + cbn [fst snd]. rewrite Hfailed, failures_cons.
      destruct (exited_zero c); lia.
Qed.

Lemma read_loop_traced (compose_file key_prefix : string) (indices : list Z)
    (failed_ops : Z) tr w :
  exists more,
    @benchmark_py.read_loop _ (tracing S) compose_file key_prefix indices
      failed_ops (tr, w)
    = ((benchmark_py.read_loop compose_file key_prefix indices failed_ops w).1,
       (tr ++ more,
        (benchmark_py.read_loop compose_file key_prefix indices failed_ops w).2))
    /\ Py.len more = Py.len indices
    /\ (benchmark_py.read_loop compose_file key_prefix indices failed_ops w).1
       = failed_ops + Py.len (filter (fun c => exited_zero c = false) more).
Proof.
  revert failed_ops tr w.
  induction indices as [|i rest IH]; intros failed_ops tr w.
  - exists []. simpl. rewrite app_nil_r. unfold Py.len. simpl.
    split; [done|]. split; [done|lia].
  - cbn [benchmark_py.read_loop].
    set (command := [_; _]).
    destruct (traced_command compose_file command 10 tr w) as (c & -> & Hc).
    destruct (benchmark_py.run_etcdctl_command compose_file command 10 w)
      as [[[success out] err] w1].
    simpl in Hc. subst success.
    destruct (IH (if exited_zero c then failed_ops else failed_ops + 1)
                (tr ++ [c]) w1) as (more & Hrest & Hlen & Hfailed).
    cbn [fst snd]. rewrite Hrest.
    exists (c :: more). rewrite <- app_assoc. split; [done|].
    split.
    + unfold Py.len in *. simpl. lia.
    + cbn [fst snd]. rewrite Hfailed, failures_cons.
      destruct (exited_zero c); lia.
Qed.

Lemma sequential_writes_traced (compose_file : string) (count : Z)
    (key_prefix : string) w :
  0 <= count ->
  exists stats outcomes w',
    benchmark_py.benchmark_sequential_writes compose_file count key_prefix w
    = (stats, w')
    /\ @benchmark_py.benchmark_sequential_writes _ (tracing S) compose_file count
         key_prefix ([], w)
       = (stats, (outcomes, w'))
    /\ counts_outcomes stats count outcomes.
Proof.
  intros Hcount. unfold benchmark_py.benchmark_sequential_writes.
  change (@shell_time _ (tracing S) ([], w))
    with (let '(t, w') := shell_time w in (t, (@nil completed, w'))).
  destruct (shell_time w) as [start w1].
  destruct (write_loop_traced compose_file key_prefix (Py.range 0 count) 0 [] w1)
    as (outcomes & -> & Hlen & Hfailed).
  destruct (benchmark_py.write_loop _ _ _ 0 w1) as [failed w2].
  cbn [fst snd app] in *.
  change (@shell_time _ (tracing S) (outcomes, w2))
    with (let '(t, w') := shell_time w2 in (t, (outcomes, w'))).
  destruct (shell_time w2) as [stop w3].
  eexists _, outcomes, _. split; [reflexivity|]. split; [reflexivity|].
  rewrite len_range in Hlen by lia.
  pose proof (outcomes_partition outcomes).
  unfold counts_outcomes. simpl. lia.
Qed.

Lemma sequential_reads_traced (compose_file : string) (count : Z)
    (key_prefix : string) w :
  0 <= count ->
  exists stats outcomes w',
    benchmark_py.benchmark_sequential_reads compose_file count key_prefix w
    = (stats, w')
    /\ @benchmark_py.benchmark_sequential_reads _ (tracing S) compose_file count
         key_prefix ([], w)
       = (stats, (outcomes, w'))
    /\ counts_outcomes stats count outcomes.
Proof.
  intros Hcount. unfold benchmark_py.benchmark_sequential_reads.
  change (@shell_time _ (tracing S) ([], w))
    with (let '(t, w') := shell_time w in (t, (@nil completed, w'))).
  destruct (shell_time w) as [start w1].
  destruct (read_loop_traced compose_file key_prefix (Py.range 0 count) 0 [] w1)
    as (outcomes & -> & Hlen & Hfailed).
  destruct (benchmark_py.read_loop _ _ _ 0 w1) as [failed w2].
  cbn [fst snd app] in *.
  change (@shell_time _ (tracing S) (outcomes, w2))
    with (let '(t, w') := shell_time w2 in (t, (outcomes, w'))).
  destruct (shell_time w2) as [stop w3].
  eexists _, outcomes, _. split; [reflexivity|]. split; [reflexivity|].
  rewrite len_range in Hlen by lia.
  pose proof (outcomes_partition outcomes).
  unfold counts_outcomes. simpl. lia.
Qed.

End Traced.

(** X7.  A sequential benchmark over [count >= 0] operations runs one
    [etcdctl] process for each operation and returns
    total_operations = count.  Run beside a trace of how each process ended,
    it returns the same dictionary, and successful_operations is the number
    of processes that completed with return code 0, failed_operations the
    number of the others: a non-zero return code, an expired timeout and
    any other exception each count as one failure.  So the failures lie
    between 0 and count and the successes are count less the failures. *)
Theorem sequential_counts_consistent `{S : Shell World} (compose_file : string)
    (count : Z) (key_prefix : string) (w : World) :
  0 <= count ->
  (exists writes outcomes w',
     benchmark_py.benchmark_sequential_writes compose_file count key_prefix w
     = (writes, w')
     /\ @benchmark_py.benchmark_sequential_writes _ (tracing S) compose_file
          count key_prefix ([], w)
        = (writes, (outcomes, w'))
     /\ counts_outcomes writes count outcomes
     /\ 0 <= benchmark_py.failed_operations writes <= count
     /\ benchmark_py.successful_operations writes
        = count - benchmark_py.failed_operations writes)
  /\ (exists reads outcomes w',
        benchmark_py.benchmark_sequential_reads compose_file count key_prefix w
        = (reads, w')
        /\ @benchmark_py.benchmark_sequential_reads _ (tracing S) compose_file
             count key_prefix ([], w)
           = (reads, (outcomes, w'))
        /\ counts_outcomes reads count outcomes
        /\ 0 <= benchmark_py.failed_operations reads <= count
        /\ benchmark_py.successful_operations reads
           = count - benchmark_py.failed_operations reads).
Proof.
  intros Hc. split.
  - destruct (sequential_writes_traced compose_file count key_prefix w Hc)
      as (stats & outcomes & w' & Hrun & Htraced & Hcounts).
    exists stats, outcomes, w'. split; [exact Hrun|]. split; [exact Htraced|].
    split; [exact Hcounts|].
    destruct Hcounts as (_ & Hlen & Hs & Hf).
    pose proof (outcomes_partition outcomes).
    assert (0 <= Py.len (filter (fun c => exited_zero c = true) outcomes))
      by (unfold Py.len; lia).
    assert (0 <= Py.len (filter (fun c => exited_zero c = false) outcomes))
      by (unfold Py.len; lia).
    lia.
  - destruct (sequential_reads_traced compose_file count key_prefix w Hc)
      as (stats & outcomes & w' & Hrun & Htraced & Hcounts).
    exists stats, outcomes, w'. split; [exact Hrun|]. split; [exact Htraced|].
    split; [exact Hcounts|].
    destruct Hcounts as (_ & Hlen & Hs & Hf).
    pose proof (outcomes_partition outcomes).
    assert (0 <= Py.len (filter (fun c => exited_zero c = true) outcomes))
      by (unfold Py.len; lia).
    assert (0 <= Py.len (filter (fun c => exited_zero c = false) outcomes))
      by (unfold Py.len; lia).
    lia.
Qed.

Lemma sequential_counts_consistent_witness :
  0 <= 5
  /\ (exists writes outcomes w',
        benchmark_py.benchmark_sequential_writes "cluster.yml" 5
          "/benchmark/write" 0%nat
        = (writes, w')
        /\ @benchmark_py.benchmark_sequential_writes _ (tracing ticking_shell)
             "cluster.yml" 5 "/benchmark/write" ([], 0%nat)
           = (writes, (outcomes, w'))
        /\ counts_outcomes writes 5 outcomes
        /\ 0 <= benchmark_py.failed_operations writes <= 5
        /\ benchmark_py.successful_operations writes
           = 5 - benchmark_py.failed_operations writes)
  /\ (exists reads outcomes w',
        benchmark_py.benchmark_sequential_reads "cluster.yml" 5
          "/benchmark/write" 0%nat
        = (reads, w')
        /\ @benchmark_py.benchmark_sequential_reads _ (tracing ticking_shell)
             "cluster.yml" 5 "/benchmark/write" ([], 0%nat)
           = (reads, (outcomes, w'))
        /\ counts_outcomes reads 5 outcomes
        /\ 0 <= benchmark_py.failed_operations reads <= 5
        /\ benchmark_py.successful_operations reads
           = 5 - benchmark_py.failed_operations reads).
Proof.
  split; [lia|].
  apply (sequential_counts_consistent (S:=ticking_shell) "cluster.yml" 5
           "/benchmark/write" 0%nat).
  lia.
Defined.

(** ** [benchmark.py]: the concurrent writes *)

Section Concurrent.

Variable put_ok : Z -> Z -> bool.

Lemma sum_snoc (l : list Z) (x : Z) : Py.sum (l ++ [x]) = Py.sum l + x.
Proof. unfold Py.sum. by rewrite foldl_snoc. Qed.

(** A worker makes [ops_count] puts, none for a negative count, and counts
    each as a success or a failure. *)
Lemma worker_thread_total (thread_id ops_count : Z) :
  let r := benchmark_py.worker_thread put_ok thread_id ops_count in
  r.1 + r.2 = Z.max 0 ops_count /\ 0 <= r.1 /\ 0 <= r.2.
Proof.
  cbv zeta. unfold benchmark_py.worker_thread, Py.range.
  destruct (Z.le_gt_cases 0 ops_count) as [Hle|Hlt].
  - replace (Z.max 0 ops_count) with (Z.of_nat (Z.to_nat ops_count)) by lia.
    replace (ops_count - 0) with (Z.of_nat (Z.to_nat ops_count)) by lia.
    generalize (Z.to_nat ops_count) as n.
    induction n as [|n IH].
    + simpl. lia.
    + rewrite seqZ_S, foldl_snoc.
      destruct (foldl _ _ _) as [s f].
      destruct (put_ok thread_id (0 + Z.of_nat n)); simpl in *; lia.
  - rewrite seqZ_nil by lia. simpl. lia.
Qed.

(** The shares of the threads add up to the total. *)
Lemma shares_add_up (ops_per_thread remaining_ops : Z) (n : nat) :
  Py.sum ((fun thread_id =>
             ops_per_thread + (if thread_id <? remaining_ops then 1 else 0))
            <$> seqZ 0 (Z.of_nat n))
  = Z.of_nat n * ops_per_thread + Z.max 0 (Z.min (Z.of_nat n) remaining_ops).
Proof.
  induction n as [|n IH].
  { change (Py.sum _) with 0. lia. }
  rewrite seqZ_S, fmap_app, fmap_cons, fmap_nil, sum_snoc, IH.
  destruct (Z.ltb_spec (0 + Z.of_nat n) remaining_ops); lia.
Qed.

Lemma sum_pairs (l : list (Z * Z)) :
  Py.sum (fst <$> l) + Py.sum (snd <$> l) = Py.sum ((fun p => p.1 + p.2) <$> l).
Proof.
  induction l as [|p l IH] using rev_ind; [done|].
  rewrite !fmap_app, !fmap_cons, !fmap_nil, !sum_snoc. lia.
Qed.

Lemma concurrent_writes_totals (total_ops concurrency : Z) (duration : Q) :
  0 <= total_ops -> 0 < concurrency ->
  exists successful failed,
    benchmark_py.benchmark_concurrent_writes put_ok total_ops concurrency duration
    = Ok (benchmark_py.operation_stats total_ops successful failed duration,
          concurrency)
    /\ successful + failed = total_ops /\ 0 <= successful /\ 0 <= failed.
Proof.
  intros Ht Hc. unfold benchmark_py.benchmark_concurrent_writes.
  destruct (Z.eqb_spec concurrency 0) as [?|_]; [lia|].
  destruct (Z.ltb_spec concurrency 0) as [?|_]; [lia|].
  set (q := total_ops / concurrency). set (r := total_ops mod concurrency).
  assert (Hq : 0 <= q) by (unfold q; Z.to_euclidean_division_equations; nia).
  assert (Hr : 0 <= r < concurrency) by (apply Z.mod_pos_bound; lia).
  assert (Hqr : total_ops = concurrency * q + r) by (apply Z.div_mod; lia).
  set (results := _ <$> Py.range 0 concurrency).
  eexists _, _. split; [reflexivity|].
  assert (Hall : Forall (fun p : Z * Z => 0 <= p.1 /\ 0 <= p.2) results).
  { unfold results. apply Forall_fmap, Forall_forall. intros tid _. simpl.
    pose proof (worker_thread_total tid
      (q + (if tid <? r then 1 else 0))) as Hw.
    exact (proj2 Hw). }
  assert (Hnn : forall (l : list (Z * Z)),
            Forall (fun p : Z * Z => 0 <= p.1 /\ 0 <= p.2) l ->
            0 <= Py.sum (fst <$> l) /\ 0 <= Py.sum (snd <$> l)).
  { induction l as [|p l IH] using rev_ind; [done|].
    intros [Hl [Hp1 Hp2]%Forall_singleton]%Forall_app.
    rewrite !fmap_app, !fmap_cons, !fmap_nil, !sum_snoc.
    specialize (IH Hl). lia. }
  split; [|by apply Hnn].
  rewrite sum_pairs. unfold results. rewrite <- list_fmap_compose.
  rewrite (list_fmap_ext _
    (fun tid => q + (if tid <? r then 1 else 0)) (Py.range 0 concurrency)).
  2:{ intros _ tid _. simpl.
      pose proof (worker_thread_total tid (q + (if tid <? r then 1 else 0))) as Hw.
      destruct Hw as [Hw _]. cbv zeta in Hw. rewrite Hw.
      destruct (tid <? r); clearbody q; lia. }
  unfold Py.range. rewrite <- (Z2Nat.id (concurrency - 0)) by lia.
  rewrite shares_add_up. lia.
Qed.

End Concurrent.

(** X8.  [benchmark_concurrent_writes] splits [total_ops >= 0] operations
    over [concurrency > 0] threads so that none is lost or made twice:
    successful_operations + failed_operations = total_operations =
    total_ops, whatever the puts return.  With [concurrency = 0] it raises
    [ZeroDivisionError] before any thread starts. *)
Theorem concurrent_writes_complete (put_ok : Z -> Z -> bool)
    (total_ops concurrency : Z) (duration : Q) :
  (0 <= total_ops -> 0 < concurrency ->
   exists r,
     benchmark_py.benchmark_concurrent_writes put_ok total_ops concurrency duration
     = Ok (r, concurrency)
     /\ benchmark_py.total_operations r = total_ops
     /\ benchmark_py.successful_operations r + benchmark_py.failed_operations r
        = total_ops
     /\ 0 <= benchmark_py.successful_operations r
     /\ 0 <= benchmark_py.failed_operations r)
  /\ (concurrency = 0 ->
      benchmark_py.benchmark_concurrent_writes put_ok total_ops concurrency duration
      = Raise ZeroDivisionError).
Proof.
  split.
  - intros Ht Hc.
    destruct (concurrent_writes_totals put_ok total_ops concurrency duration Ht Hc)
      as (s & f & -> & Hsum & Hs & Hf).
    eexists. split; [reflexivity|]. simpl. lia.
  - by intros ->.
Qed.

Lemma concurrent_writes_complete_witness :
  (exists r,
     benchmark_py.benchmark_concurrent_writes (fun t i => negb (i =? 2)) 23 5 4
     = Ok (r, 5)
     /\ benchmark_py.total_operations r = 23
     /\ benchmark_py.successful_operations r + benchmark_py.failed_operations r = 23
     /\ 0 <= benchmark_py.successful_operations r
     /\ 0 <= benchmark_py.failed_operations r)
  /\ benchmark_py.benchmark_concurrent_writes (fun t i => negb (i =? 2)) 23 0 4
     = Raise ZeroDivisionError.
Proof.
  split.
  - apply (concurrent_writes_complete (fun t i => negb (i =? 2)) 23 5 4); lia.
  - by apply (concurrent_writes_complete (fun t i => negb (i =? 2)) 23 0 4).
Defined.



(** ** [benchmark.py]: the mixed workload *)

Lemma below_ceiling (d : Z) (x : Q) :
  (inject_Z d < x)%Q <-> d < Qceiling x.
Proof.
  split.
  - intros Hlt. pose proof (Qle_ceiling x) as Hc.
    assert (Hq : (inject_Z d < inject_Z (Qceiling x))%Q) by lra.
    by rewrite <- Zlt_Qlt in Hq.
  - intros Hlt. pose proof (Qceiling_lt x) as Hc.
    assert (Hq : (inject_Z d <= inject_Z (Qceiling x - 1))%Q)
      by (rewrite <- Zle_Qle; lia).
    lra.
Qed.

(** The selection reads the last digit of the count only. *)
Lemma should_read_slots (operation_count : Z) (read_ratio : Q) :
  benchmark.should_read Qmul_int Qint_lt operation_count read_ratio
  = (operation_count mod 10 <? read_slots read_ratio).
Proof.
  pose proof (should_read_iff operation_count read_ratio) as Hiff.
  rewrite below_ceiling in Hiff.
  assert (Hd : 0 <= operation_count mod 10 < 10) by (apply Z.mod_pos_bound; lia).
  unfold read_slots.
  destruct (benchmark.should_read _ _ _ _);
    destruct (Z.ltb_spec (operation_count mod 10)
                (Z.max 0 (Z.min 10 (Qceiling (read_ratio * 10))))); try done.
  - assert (operation_count mod 10 < Qceiling (read_ratio * 10)) by by apply Hiff.
    lia.
  - assert (Hlt : operation_count mod 10 < Qceiling (read_ratio * 10)) by lia.
    apply Hiff in Hlt. done.
Qed.

Lemma read_slots_bounds (read_ratio : Q) : 0 <= read_slots read_ratio <= 10.
Proof. unfold read_slots. lia. Qed.

Lemma reads_among_succ (read_ratio : Q) (n : Z) :
  0 <= n ->
  reads_among read_ratio (n + 1)
  = reads_among read_ratio n
    + (if (n + 1) mod 10 <? read_slots read_ratio then 1 else 0).
Proof.
  intros Hn. unfold reads_among.
  pose proof (read_slots_bounds read_ratio) as Hk.
  generalize dependent (read_slots read_ratio). intros k Hk.
  assert (Hd : 0 <= n mod 10 < 10) by (apply Z.mod_pos_bound; lia).
  destruct (Z.eq_dec (n mod 10) 9) as [H9|H9].
  - assert (Hm : (n + 1) mod 10 = 0)
      by (Z.to_euclidean_division_equations; lia).
    assert (Hq : (n + 1) / 10 = n / 10 + 1)
      by (Z.to_euclidean_division_equations; lia).
    rewrite Hm, Hq, H9. destruct (Z.ltb_spec 0 k); lia.
  - assert (Hm : (n + 1) mod 10 = n mod 10 + 1)
      by (Z.to_euclidean_division_equations; lia).
    assert (Hq : (n + 1) / 10 = n / 10)
      by (Z.to_euclidean_division_equations; lia).
    rewrite Hm, Hq. destruct (Z.ltb_spec (n mod 10 + 1) k); lia.
Qed.

Section MixedWorkload.

Context `{Shell World}.

Implicit Types c : benchmark_py.MixedCounters.

Lemma counted_start (read_ratio : Q) :
  counted read_ratio benchmark_py.no_operations.
Proof.
  unfold counted, reads_among. simpl.
  pose proof (read_slots_bounds read_ratio).
  change (0 / 10) with 0. change (0 mod 10) with 0. lia.
Qed.

Lemma mixed_operation_counted (compose_file : string) (read_ratio : Q) c
    (w : World) :
  counted read_ratio c ->
  counted read_ratio
    (benchmark_py.mixed_operation compose_file read_ratio c w).1.
Proof.
  intros (Hr & Hw & Hfr & Hfw & Hn & Hreads).
  assert (H0 : 0 <= benchmark_py.operation_count c) by lia.
  pose proof (reads_among_succ read_ratio _ H0) as Hsucc.
  unfold benchmark_py.mixed_operation.
  rewrite should_read_slots.
  destruct (_ <? read_slots read_ratio).
  - destruct (benchmark_py.run_etcdctl_command _ _ _ _) as [[[[] ?] ?] ?];
      unfold counted; simpl; lia.
  - destruct (shell_time w) as [now w1].
    destruct (benchmark_py.run_etcdctl_command _ _ _ _) as [[[[] ?] ?] ?];
      unfold counted; simpl; lia.
Qed.

Lemma mixed_loop_counted (fuel : nat) (compose_file : string)
    (read_ratio end_time : Q) c (w : World) c' (w' : World) :
  counted read_ratio c ->
  benchmark_py.mixed_loop fuel compose_file read_ratio end_time c w
  = Some (c', w') ->
  counted read_ratio c'.
Proof.
  revert c w. induction fuel as [|fuel IH]; intros c w Hc Hloop; [done|].
  simpl in Hloop. destruct (shell_time w) as [now w1].
  destruct (Qlt_le_dec now end_time).
  - pose proof (mixed_operation_counted compose_file read_ratio c w1 Hc) as Hc1.
    destruct (benchmark_py.mixed_operation _ _ _ _) as [c1 w2].
    by apply (IH c1 w2).
  - by injection Hloop as <- <-.
Qed.

(** The dictionary is built from counters that the loop returned. *)
Lemma mixed_workload_counters (fuel : nat) (compose_file : string)
    (duration_seconds read_ratio : Q) (w : World) r (w' : World) :
  benchmark_py.benchmark_mixed_workload fuel compose_file duration_seconds
    read_ratio w = Some (r, w') ->
  exists c,
    counted read_ratio c
    /\ benchmark_py.read_operations r = benchmark_py.read_count c
    /\ benchmark_py.write_operations r = benchmark_py.write_count c
    /\ benchmark_py.read_failures r = benchmark_py.failed_reads c
    /\ benchmark_py.write_failures r = benchmark_py.failed_writes c
    /\ benchmark_py.mixed_total_operations r
       = benchmark_py.read_count c + benchmark_py.write_count c
    /\ benchmark_py.total_operations_per_second r
       = benchmark_py.guarded_div
           (inject_Z (benchmark_py.read_count c + benchmark_py.write_count c))
           (benchmark_py.mixed_duration_seconds r)
    /\ benchmark_py.read_ops_per_second r
       = benchmark_py.guarded_div (inject_Z (benchmark_py.read_count c))
           (benchmark_py.mixed_duration_seconds r)
    /\ benchmark_py.write_ops_per_second r
       = benchmark_py.guarded_div (inject_Z (benchmark_py.write_count c))
           (benchmark_py.mixed_duration_seconds r)
    /\ benchmark_py.read_ratio_actual r
       = (if 0 <? benchmark_py.read_count c + benchmark_py.write_count c
          then (inject_Z (benchmark_py.read_count c)
                / inject_Z (benchmark_py.read_count c + benchmark_py.write_count c))%Q
          else 0%Q).
Proof.
  unfold benchmark_py.benchmark_mixed_workload.
  destruct (shell_time w) as [start_time w1].
  destruct (benchmark_py.mixed_loop _ _ _ _ _ _) as [[c w3]|] eqn:Hloop; [|done].
  destruct (shell_time w3) as [now w4].
  intros Hr. injection Hr as <- <-.
  exists c. split; [|by repeat split].
  eapply mixed_loop_counted; [apply counted_start|exact Hloop].
Qed.

End MixedWorkload.





Section Termination.

Context `{Shell World}.

Variable now : World -> Q.
Variable delta : Q.
Hypothesis clock : benchmark_py.advancing_clock now delta.
Hypothesis delta_pos : (0 < delta)%Q.

Lemma run_etcdctl_clock (compose_file : string) (command : list string)
    (timeout : Z) (w : World) :
  (now w <= now (benchmark_py.run_etcdctl_command compose_file command timeout w).2)%Q.
Proof.
  unfold benchmark_py.run_etcdctl_command.
  pose proof (benchmark_py.clock_run now delta clock
    (["docker-compose"; "-f"; compose_file; "exec"; "-T"; "etcd-1"; "etcdctl"]%string
     ++ command) timeout w) as Hrun.
  destruct (subprocess_run _ _ w) as [[] w1]; exact Hrun.
Qed.

Lemma shell_time_clock (w : World) :
  (now w <= (shell_time w).1)%Q /\ (now w + delta <= now (shell_time w).2)%Q.
Proof.
  split; [apply (benchmark_py.clock_reading now delta clock)
         |apply (benchmark_py.clock_tick now delta clock)].
Qed.

Lemma mixed_operation_clock (compose_file : string) (read_ratio : Q)
    (c : benchmark_py.MixedCounters) (w : World) :
  (now w <= now (benchmark_py.mixed_operation compose_file read_ratio c w).2)%Q.
Proof.
  unfold benchmark_py.mixed_operation.
  destruct (benchmark.should_read _ _ _ _).
  - match goal with
    | |- context [benchmark_py.run_etcdctl_command ?f ?k ?t ?x] =>
        pose proof (run_etcdctl_clock f k t x) as Hrun;
        destruct (benchmark_py.run_etcdctl_command f k t x) as [[[[] ?] ?] ?]
    end; exact Hrun.
  - pose proof (shell_time_clock w) as [_ Htick].
    destruct (shell_time w) as [t w1]. simpl in Htick.
    match goal with
    | |- context [benchmark_py.run_etcdctl_command ?f ?k ?t ?x] =>
        pose proof (run_etcdctl_clock f k t x) as Hrun;
        destruct (benchmark_py.run_etcdctl_command f k t x) as [[[[] ?] ?] ?]
    end; simpl in *; lra.
Qed.

Lemma mixed_loop_S (fuel : nat) (compose_file : string) (read_ratio end_time : Q)
    (c : benchmark_py.MixedCounters) (w : World) :
  benchmark_py.mixed_loop (S fuel) compose_file read_ratio end_time c w
  = (let '(t, w1) := shell_time w in
     if Qlt_le_dec t end_time
     then
       let '(c', w2) := benchmark_py.mixed_operation compose_file read_ratio c w1 in
       benchmark_py.mixed_loop fuel compose_file read_ratio end_time c' w2
     else Some (c, w1)).
Proof. reflexivity. Qed.

(** The test of the loop fails after [n] rounds at the latest when the end
    is no more than [n] ticks away. *)
Lemma mixed_loop_ends (n : nat) (compose_file : string) (read_ratio end_time : Q)
    (c : benchmark_py.MixedCounters) (w : World) :
  (end_time <= now w + inject_Z (Z.of_nat n) * delta)%Q ->
  exists c' w',
    benchmark_py.mixed_loop (S n) compose_file read_ratio end_time c w
    = Some (c', w').
Proof.
  revert c w. induction n as [|n IH]; intros c w Hend; rewrite mixed_loop_S;
    pose proof (shell_time_clock w) as [Hread Htick];
    destruct (shell_time w) as [t w1]; simpl in Hread, Htick;
    (destruct (Qlt_le_dec t end_time) as [Hlt|_]; [|by eexists _, _]).
  - change (inject_Z (Z.of_nat 0)) with 0%Q in Hend. lra.
  - pose proof (mixed_operation_clock compose_file read_ratio c w1) as Hop.
    destruct (benchmark_py.mixed_operation _ _ _ _) as [c1 w2]. simpl in Hop.
    apply IH.
    rewrite Nat2Z.inj_succ in Hend. unfold Z.succ in Hend.
    rewrite inject_Z_plus in Hend.
    change (inject_Z 1) with 1%Q in Hend. lra.
Qed.

Lemma ticks_suffice (x : Q) :
  exists n : nat, (x <= inject_Z (Z.of_nat n) * delta)%Q.
Proof.
  exists (Z.to_nat (Qceiling (x / delta))).
  pose proof (Qle_ceiling (x / delta)) as Hc.
  assert (Hn : (inject_Z (Qceiling (x / delta))
                <= inject_Z (Z.of_nat (Z.to_nat (Qceiling (x / delta)))))%Q)
    by (rewrite <- Zle_Qle; lia).
  assert (Hx : (x == x / delta * delta)%Q) by (field; lra).
  rewrite Hx at 1. apply Qmult_le_compat_r; lra.
Qed.

Lemma mixed_workload_ends (compose_file : string)
    (duration_seconds read_ratio : Q) (w : World) :
  exists fuel r w',
    benchmark_py.benchmark_mixed_workload fuel compose_file duration_seconds
      read_ratio w = Some (r, w').
Proof.
  unfold benchmark_py.benchmark_mixed_workload.
  destruct (shell_time w) as [start_time w1].
  set (w2 := benchmark_py.prepopulate _ _ w1).
  destruct (ticks_suffice (start_time + duration_seconds - now w2)) as [n Hn].
  destruct (mixed_loop_ends n compose_file read_ratio
              (start_time + duration_seconds) benchmark_py.no_operations w2)
    as (c & w3 & Hloop); [lra|].
  exists (S n). rewrite Hloop.
  destruct (shell_time w3) as [t w4]. by eexists _, _.
Qed.

End Termination.

(** X12.  The mixed workload ends when the clock advances: if every
    reading of the clock takes [delta > 0] at least and no command turns the
    clock back, the loop leaves after finitely many operations and
    [benchmark_mixed_workload] returns its dictionary, for any duration and
    read ratio and whatever the commands return. *)
Theorem mixed_workload_returns `{Shell World} (now : World -> Q) (delta : Q)
    (compose_file : string) (duration_seconds read_ratio : Q) (w : World) :
  benchmark_py.advancing_clock now delta -> (0 < delta)%Q ->
  exists fuel r w',
    benchmark_py.benchmark_mixed_workload fuel compose_file duration_seconds
      read_ratio w = Some (r, w').
Proof.
  intros Hclock Hdelta.
  exact (mixed_workload_ends now delta Hclock Hdelta compose_file
           duration_seconds read_ratio w).
Qed.

Lemma ticking_clock_advances :
  benchmark_py.advancing_clock (fun w : nat => inject_Z (Z.of_nat w)) 1.
Proof.
  split.
  - intros w. simpl. lra.
  - intros w. simpl. rewrite Nat2Z.inj_succ. unfold Z.succ.
    rewrite inject_Z_plus. change (inject_Z 1) with 1%Q. lra.
  - intros command timeout w. simpl. rewrite <- Zle_Qle. lia.
Qed.

Lemma mixed_workload_returns_witness :
  exists fuel r w',
    benchmark_py.benchmark_mixed_workload fuel "cluster.yml" 150 (7 # 10) 0%nat
    = Some (r, w').
Proof.
  apply (mixed_workload_returns (fun w : nat => inject_Z (Z.of_nat w)) 1).
  - exact ticking_clock_advances.
  - reflexivity.
Defined.

(** ** [usl_analysis.py]: the optimum of the fitted law *)

Lemma usl_denominator_pos (a b x : Q) :
  (0 <= a -> 0 <= b -> 1 <= x -> 1 <= 1 + a * (x - 1) + b * x * (x - 1))%Q.
Proof.
  intros Ha Hb Hx.
  assert (H1 : (0 <= a * (x - 1))%Q) by (apply Qmult_le_0_compat; lra).
  assert (H2 : (0 <= b * x)%Q) by (apply Qmult_le_0_compat; lra).
  assert (H3 : (0 <= b * x * (x - 1))%Q) by (apply Qmult_le_0_compat; lra).
  lra.
Qed.

Lemma node_ge_1 (n : Z) : 1 <= n -> (1 <= inject_Z n)%Q.
Proof. intros Hn. change 1%Q with (inject_Z 1). by rewrite <- Zle_Qle. Qed.

(** With coefficients that are not negative the law is finite at every
    node count from 1 on. *)
Lemma usl_function_finite (a b : Q) (n : Z) :
  (0 <= a)%Q -> (0 <= b)%Q -> 1 <= n ->
  usl_analysis.usl_function (Np.Fin (inject_Z n)) (Np.Fin a) (Np.Fin b)
  = Np.Fin (relative_capacity a b n).
Proof.
  intros Ha Hb Hn. pose proof (node_ge_1 n Hn) as Hx.
  pose proof (usl_denominator_pos a b (inject_Z n) Ha Hb Hx) as Hd.
  unfold usl_analysis.usl_function, relative_capacity. simpl.
  change (inject_Z n + - (1))%Q with (inject_Z n - 1)%Q.
  destruct (_ ?= 0)%Q eqn:Hcmp; try reflexivity.
  apply Qeq_alt in Hcmp. lra.
Qed.

Lemma argmax_scan_finite (rest pre : list Q) (k : nat) (m : Q) :
  first_maximum pre k m ->
  exists k' m',
    NpArray.argmax_scan (Np.Fin <$> rest) (Z.of_nat (length pre)) (Z.of_nat k)
      (Np.Fin m) = Z.of_nat k'
    /\ first_maximum (pre ++ rest) k' m'.
Proof.
  revert pre k m. induction rest as [|x rest IH]; intros pre k m Hmax.
  - exists k, m. by rewrite app_nil_r.
  - destruct Hmax as (Hk & Hall & Hfirst).
    assert (Hlt : (k < length pre)%nat) by (by eapply lookup_lt_Some).
    rewrite fmap_cons. simpl.
    replace (Z.of_nat (length pre) + 1) with (Z.of_nat (length (pre ++ [x])))
      by (rewrite length_app; simpl; lia).
    replace (pre ++ x :: rest) with ((pre ++ [x]) ++ rest)
      by (by rewrite <- app_assoc).
    destruct (Qle_bool x m) eqn:Hle.
    + apply Qle_bool_iff in Hle. apply IH. split; [|split].
      * by rewrite lookup_app_l.
      * intros j y Hj. apply lookup_app_Some in Hj as [Hj|[_ Hj]].
        -- by eapply Hall.
        -- apply list_lookup_singleton_Some in Hj as [_ <-]. done.
      * intros j y Hjk Hj. rewrite lookup_app_l in Hj by lia.
        by eapply Hfirst.
    + assert (Hgt : (m < x)%Q).
      { apply Qnot_le_lt. intros Hc. apply Qle_bool_iff in Hc. congruence. }
      replace (Z.of_nat (length pre)) with (Z.of_nat (length pre + 0)) at 2
        by (f_equal; lia).
      replace (length pre + 0)%nat with (length pre) by lia.
      apply IH. split; [|split].
      * rewrite lookup_app_r by lia. by rewrite Nat.sub_diag.
      * intros j y Hj. apply lookup_app_Some in Hj as [Hj|[_ Hj]].
        -- specialize (Hall j y Hj). lra.
        -- apply list_lookup_singleton_Some in Hj as [_ <-]. lra.
      * intros j y Hjk Hj. rewrite lookup_app_l in Hj by lia.
        specialize (Hall j y Hj). lra.
Qed.

(** On finite values [argmax] returns the place of the first maximum. *)
Lemma argmax_finite (q : Q) (qs : list Q) :
  exists k m,
    NpArray.argmax (Np.Fin <$> (q :: qs)) = Ok (Z.of_nat k)
    /\ first_maximum (q :: qs) k m.
Proof.
  destruct (argmax_scan_finite qs [q] 0 q) as (k & m & Hscan & Hmax).
  - split; [done|]. split.
    + intros [|j] x Hj; simpl in Hj; [|done]. injection Hj as <-. lra.
    + intros j x Hj. lia.
  - exists k, m. split; [|exact Hmax].
    rewrite fmap_cons. simpl. f_equal. exact Hscan.
Qed.

Lemma index_lookup {A} (l : list A) (k : nat) (x : A) :
  l !! k = Some x -> Py.index l (Z.of_nat k) = Ok x.
Proof.
  intros Hk. unfold Py.index.
  destruct (Z.ltb_spec (Z.of_nat k) 0) as [?|_]; [lia|].
  destruct (Z.ltb_spec (Z.of_nat k) 0) as [?|_]; [lia|].
  by rewrite Nat2Z.id, Hk.
Qed.

(** The sweep over [1..max_nodes], for coefficients that are not negative. *)
Lemma predictions_finite (a b : Q) (max_nodes : Z) :
  (0 <= a)%Q -> (0 <= b)%Q -> 1 <= max_nodes ->
  exists p k,
    usl_analysis_py.calculate_usl_predictions (Np.Fin a) (Np.Fin b) max_nodes
    = Ok p
    /\ usl_analysis_py.nodes p = seqZ 1 max_nodes
    /\ usl_analysis_py.capacity p
       = (fun n => Np.Fin (relative_capacity a b n)) <$> seqZ 1 max_nodes
    /\ usl_analysis_py.throughput p = usl_analysis_py.capacity p
    /\ usl_analysis_py.optimal_nodes p = 1 + Z.of_nat k
    /\ usl_analysis_py.optimal_capacity p
       = Np.Fin (relative_capacity a b (1 + Z.of_nat k))
    /\ 1 + Z.of_nat k <= max_nodes
    /\ first_maximum (relative_capacity a b <$> seqZ 1 max_nodes) k
         (relative_capacity a b (1 + Z.of_nat k)).
Proof.
  intros Ha Hb Hmax. unfold usl_analysis_py.calculate_usl_predictions.
  unfold NpArray.arange, Py.range.
  replace (max_nodes + 1 - 1) with max_nodes by lia.
  rewrite (list_fmap_ext _ (fun n => Np.Fin (relative_capacity a b n))
             (seqZ 1 max_nodes)).
  2:{ intros i n Hn. apply lookup_seqZ in Hn as [-> _].
      apply usl_function_finite; [done|done|lia]. }
  rewrite (list_fmap_compose (relative_capacity a b) Np.Fin).
  set (qs := relative_capacity a b <$> seqZ 1 max_nodes).
  assert (Hqs : exists q qs', qs = q :: qs').
  { unfold qs. rewrite seqZ_cons by lia. rewrite fmap_cons. by eexists _, _. }
  destruct Hqs as (q & qs' & Eqs). rewrite Eqs.
  destruct (argmax_finite q qs') as (k & m & Harg & Hfirst).
  rewrite Harg, bind_Ok. rewrite <- Eqs in *. clear Eqs Harg.
  destruct Hfirst as (Hk & Hall & Hbefore).
  assert (Hnode : seqZ 1 max_nodes !! k = Some (1 + Z.of_nat k)
                  /\ m = relative_capacity a b (1 + Z.of_nat k)).
  { unfold qs in Hk. rewrite list_lookup_fmap in Hk.
    destruct (seqZ 1 max_nodes !! k) as [n|] eqn:Hn; [|done].
    apply lookup_seqZ in Hn as [-> _]. simpl in Hk. injection Hk as <-. done. }
  destruct Hnode as [Hnode ->].
  rewrite (index_lookup _ _ _ Hnode), bind_Ok.
  rewrite (index_lookup (Np.Fin <$> qs) k
             (Np.Fin (relative_capacity a b (1 + Z.of_nat k))))
    by (by rewrite list_lookup_fmap, Hk).
  rewrite bind_Ok. eexists _, k. split; [reflexivity|]. simpl.
  repeat split; try done.
  apply lookup_seqZ in Hnode as [_ ?]. lia.
Qed.

Lemma capacity_at_one (a b : Q) : (relative_capacity a b 1 == 1)%Q.
Proof. unfold relative_capacity. change (inject_Z 1) with 1%Q. field. Qed.

Lemma capacity_le_nodes (a b : Q) (n : Z) :
  (0 <= a)%Q -> (0 <= b)%Q -> 1 <= n ->
  (relative_capacity a b n <= inject_Z n)%Q.
Proof.
  intros Ha Hb Hn. pose proof (node_ge_1 n Hn) as Hx.
  pose proof (usl_denominator_pos a b (inject_Z n) Ha Hb Hx) as Hd.
  unfold relative_capacity. apply Qle_shift_div_r; [lra|].
  nra.
Qed.

Lemma sweep_lookup (a b : Q) (max_nodes n : Z) :
  1 <= n <= max_nodes ->
  (relative_capacity a b <$> seqZ 1 max_nodes) !! Z.to_nat (n - 1)
  = Some (relative_capacity a b n).
Proof.
  intros Hn. rewrite list_lookup_fmap.
  rewrite (proj2 (lookup_seqZ 1 max_nodes (Z.to_nat (n - 1)) n)) by lia.
  done.
Qed.

(** With contention [a >= 1] no node count has more capacity than one
    node. *)
Lemma capacity_le_one (a b : Q) (n : Z) :
  (1 <= a)%Q -> (0 <= b)%Q -> 1 <= n -> (relative_capacity a b n <= 1)%Q.
Proof.
  intros Ha Hb Hn. pose proof (node_ge_1 n Hn) as Hx.
  pose proof (usl_denominator_pos a b (inject_Z n) ltac:(lra) Hb Hx) as Hd.
  unfold relative_capacity. apply Qle_shift_div_r; [lra|].
  assert (H1 : (0 <= (a - 1) * (inject_Z n - 1))%Q)
    by (apply Qmult_le_0_compat; lra).
  assert (H2 : (0 <= b * inject_Z n)%Q) by (apply Qmult_le_0_compat; lra).
  assert (H3 : (0 <= b * inject_Z n * (inject_Z n - 1))%Q)
    by (apply Qmult_le_0_compat; lra).
  lra.
Qed.

(** X13.  For coefficients that are not negative and [max_nodes >= 1],
    [calculate_usl_predictions] returns the node counts 1..max_nodes, one
    finite capacity for each, the capacities again as throughput, and as
    optimum the first place [k] where the capacities it has computed are
    largest: the optimal node count is [nodes[k]] = 1 + k, the optimal
    capacity is [capacity[k]], no capacity of the sweep is larger and every
    one before place [k] is strictly smaller.  The optimal capacity is at
    least 1 and at most the optimal node count, and with contention
    [a >= 1] the optimum is one node.  With [max_nodes <= 0] the sweep is
    empty and [np.argmax] raises [ValueError]. *)
Theorem optimum_is_first_maximum (a b : Q) (max_nodes : Z) :
  ((0 <= a)%Q -> (0 <= b)%Q -> 1 <= max_nodes ->
   exists p k qs m,
     usl_analysis_py.calculate_usl_predictions (Np.Fin a) (Np.Fin b) max_nodes
     = Ok p
     /\ usl_analysis_py.nodes p = seqZ 1 max_nodes
     /\ usl_analysis_py.capacity p = Np.Fin <$> qs
     /\ length qs = Z.to_nat max_nodes
     /\ usl_analysis_py.throughput p = usl_analysis_py.capacity p
     /\ usl_analysis_py.optimal_nodes p = 1 + Z.of_nat k
     /\ usl_analysis_py.optimal_capacity p = Np.Fin m
     /\ first_maximum qs k m
     /\ (1 <= m <= inject_Z (usl_analysis_py.optimal_nodes p))%Q
     /\ ((1 <= a)%Q -> usl_analysis_py.optimal_nodes p = 1))
  /\ (max_nodes <= 0 ->
      exists msg,
        usl_analysis_py.calculate_usl_predictions (Np.Fin a) (Np.Fin b) max_nodes
        = Raise (ValueError msg)).
Proof.
  split.
  - intros Ha Hb Hmax.
    destruct (predictions_finite a b max_nodes Ha Hb Hmax)
      as (p & k & Hp & Hnodes & Hcaps & Hthr & Hopt & Hcap & Hk & Hfirst).
    exists p, k, (relative_capacity a b <$> seqZ 1 max_nodes),
      (relative_capacity a b (1 + Z.of_nat k)).
    rewrite Hopt.
    split; [exact Hp|]. split; [exact Hnodes|].
    split; [by rewrite Hcaps, <- list_fmap_compose|].
    split; [by rewrite length_fmap, length_seqZ|].
    split; [exact Hthr|]. split; [reflexivity|]. split; [exact Hcap|].
    split; [exact Hfirst|].
    destruct Hfirst as (_ & Hall & Hbefore).
    split; [split|].
    + rewrite <- (capacity_at_one a b).
      apply (Hall (Z.to_nat (1 - 1))). apply sweep_lookup. lia.
    + apply capacity_le_nodes; [done|done|lia].
    + intros Ha1. destruct k as [|k]; [reflexivity|].
      assert (Hlt : (relative_capacity a b 1
                     < relative_capacity a b (1 + Z.of_nat (S k)))%Q).
      { apply (Hbefore (Z.to_nat (1 - 1))); [simpl; lia|].
        apply sweep_lookup. lia. }
      pose proof (capacity_le_one a b (1 + Z.of_nat (S k)) Ha1 Hb ltac:(lia)).
      pose proof (capacity_at_one a b). lra.
  - intros Hmax. unfold usl_analysis_py.calculate_usl_predictions.
    unfold NpArray.arange, Py.range. rewrite seqZ_nil by lia.
    by eexists.
Qed.

Lemma optimum_is_first_maximum_witness :
  exists p,
    usl_analysis_py.calculate_usl_predictions (Np.Fin 0) (Np.Fin (1 # 4)) 20
    = Ok p
    /\ usl_analysis_py.optimal_nodes p = 2
    /\ exists qs m,
         usl_analysis_py.capacity p = Np.Fin <$> qs
         /\ usl_analysis_py.optimal_capacity p = Np.Fin m
         /\ first_maximum qs 1 m.
Proof.
  destruct (optimum_is_first_maximum 0 (1 # 4) 20) as [Hopt _].
  destruct Hopt as (p & k & qs & m & Hp & _ & Hcaps & _ & _ & Hk & Hm & Hfirst & _);
    [done|done|lia|].
  assert (Hnodes : usl_analysis_py.optimal_nodes p = 2)
    by (vm_compute in Hp; injection Hp as <-; reflexivity).
  assert (k = 1%nat) as -> by lia.
  exists p. split; [exact Hp|]. split; [exact Hnodes|].
  by exists qs, m.
Defined.

(** X15.  What [create_usl_analysis_plots] does with a fit: whenever
    [fit_usl_model] returns coefficients, [calculate_usl_predictions] on
    them (with its default of 20 nodes) returns; no division by zero, no
    nan and no exception occur, the optimal node count lies within 1..20 and
    the optimal capacity is a finite value between 1 and the optimal node
    count. *)
Theorem fitted_law_has_optimum `{NumLib} (nodes : list Z) (throughput : list Q)
    (fit : USLFit) :
  usl_analysis.fit_usl_model nodes throughput = Ok (Some fit) ->
  exists p q,
    usl_analysis_py.calculate_usl_predictions (alpha fit) (beta fit) 20 = Ok p
    /\ 1 <= usl_analysis_py.optimal_nodes p <= 20
    /\ usl_analysis_py.optimal_capacity p = Np.Fin q
    /\ (1 <= q <= inject_Z (usl_analysis_py.optimal_nodes p))%Q
    /\ Forall (fun c => exists x, c = Np.Fin x /\ (x <= q)%Q)
         (usl_analysis_py.capacity p).
Proof.
  intros [pcov Hc]%fit_usl_model_Some.
  apply curve_fit_within_bounds in Hc
    as (a & b & -> & -> & Ha & _ & Hb & _). simpl in Ha, Hb.
  destruct (predictions_finite a b 20 Ha Hb ltac:(lia))
    as (p & k & Hp & _ & Hcaps & _ & Hopt & Hcap & Hk & Hk' & Hall & _).
  exists p, (relative_capacity a b (1 + Z.of_nat k)).
  rewrite Hopt. split; [exact Hp|]. split; [lia|]. split; [exact Hcap|].
  split; [split|].
  - rewrite <- (capacity_at_one a b).
    apply (Hall (Z.to_nat (1 - 1))). apply sweep_lookup. lia.
  - apply capacity_le_nodes; [done|done|lia].
  - rewrite Hcaps. apply Forall_fmap, Forall_forall. intros n Hn. simpl.
    eexists. split; [reflexivity|].
    apply elem_of_seqZ in Hn.
    apply (Hall (Z.to_nat (n - 1))). apply sweep_lookup. lia.
Qed.

Lemma fitted_law_has_optimum_witness :
  exists p q,
    usl_analysis_py.calculate_usl_predictions (Np.Fin (1 # 2)) (Np.Fin (1 # 2)) 20
    = Ok p
    /\ 1 <= usl_analysis_py.optimal_nodes p <= 20
    /\ usl_analysis_py.optimal_capacity p = Np.Fin q
    /\ (1 <= q <= inject_Z (usl_analysis_py.optimal_nodes p))%Q.
Proof.
  destruct (@fitted_law_has_optimum stationary_numlib [1] [100%Q]
              {| alpha := Np.Fin (1 # 2); beta := Np.Fin (1 # 2);
                 alpha_err := Np.PInf; beta_err := Np.PInf;
                 r_squared := Np.NaN;
                 normalized_throughput := [Np.Fin (100 / 100)] |})
    as (p & q & Hp & Hn & Hq & Hb & _); [vm_compute; reflexivity|].
  by exists p, q.
Defined.

(** ** [benchmark-etcd-cluster.py]: what a client generates *)

Lemma string_length_append (s1 s2 : string) :
  String.length (s1 +:+ s2) = (String.length s1 + String.length s2)%nat.
Proof. induction s1 as [|c s1 IH]; simpl; [done|]. by rewrite IH. Qed.

Lemma string_length_of_list (l : list Ascii.ascii) :
  String.length (string_of_list_ascii l) = length l.
Proof. induction l as [|c l IH]; simpl; [done|]. by rewrite IH. Qed.

Section Generated.

Context `{Host World}.

(** [k] draws from a population that is not empty are [k] of its
    elements. *)
Lemma draws_spec {A} (population : list A) (k : nat) (w : World) :
  population <> [] ->
  exists xs w',
    random.draws population k w = (Ok xs, w')
    /\ length xs = k /\ Forall (fun x => x ∈ population) xs.
Proof.
  intros Hne. revert w. induction k as [|k IH]; intros w; simpl.
  - by eexists _, _.
  - rewrite io_bind_total. unfold pure.
    destruct (random_range w) as [H0 H1].
    destruct population as [|d l]; [done|].
    assert (Hlen : 0 < Py.len (d :: l)) by (unfold Py.len; simpl; lia).
    pose proof (draw_index_in_range _ _ H0 H1 Hlen) as Hi.
    erewrite io_bind_Ok; [|by rewrite (index_in_range _ d) by exact Hi].
    destruct (IH (random_random w).2) as (xs & w' & Hd & Hk & Hall).
    erewrite io_bind_Ok by exact Hd.
    eexists _, _. split; [reflexivity|]. split; [simpl; by rewrite Hk|].
    constructor; [|done].
    apply list_elem_of_In, nth_In. destruct Hi as [Hi0 Hi1].
    apply Nat2Z.inj_lt. rewrite Z2Nat.id; [exact Hi1|exact Hi0].
Qed.

Lemma choices_spec {A} (population : list A) (k : Z) (w : World) :
  population <> [] ->
  exists xs w',
    random.choices population k w = (Ok xs, w')
    /\ Py.len xs = Z.max 0 k /\ Forall (fun x => x ∈ population) xs.
Proof.
  intros Hne. unfold random.choices.
  destruct (draws_spec population (Z.to_nat k) w Hne) as (xs & w' & Hd & Hk & Hall).
  exists xs, w'. split; [done|]. split; [|done]. unfold Py.len. lia.
Qed.

End Generated.

(** X16.  The keys and values that a client generates: a key is the
    configured prefix, an underscore, and letters and digits up to
    [key_size] characters in all.  A [key_size] that the prefix and the
    underscore fill or exceed is not an error: the key is then the prefix and
    the underscore alone, longer than configured.  A value is [value_size]
    letters, digits and spaces (none for a negative size).  Neither call
    raises. *)
Theorem generated_sizes `{Host World} (self : EtcdBenchmarkClient) (w : World) :
  (exists suffix w',
     EtcdBenchmarkClient.generate_random_key self w
     = (Ok (key_prefix (config self) +:+ "_" +:+ string_of_list_ascii suffix), w')
     /\ Forall (fun c => c ∈ list_ascii_of_string
                              (string_.ascii_letters +:+ string_.digits)) suffix
     /\ Z.of_nat (String.length
                    (key_prefix (config self) +:+ "_"
                     +:+ string_of_list_ascii suffix))
        = Z.max (key_size (config self))
            (Z.of_nat (String.length (key_prefix (config self))) + 1))
  /\ (exists chars w',
        EtcdBenchmarkClient.generate_random_value self w
        = (Ok (string_of_list_ascii chars), w')
        /\ Forall (fun c => c ∈ list_ascii_of_string
                                 (string_.ascii_letters +:+ string_.digits +:+ " "))
             chars
        /\ Z.of_nat (String.length (string_of_list_ascii chars))
           = Z.max 0 (value_size (config self))).
Proof.
  split.
  - unfold EtcdBenchmarkClient.generate_random_key.
    edestruct (choices_spec (A:=Ascii.ascii)) as (xs & w' & Hd & Hk & Hall);
      [|erewrite io_bind_Ok by exact Hd].
    { discriminate. }
    exists xs, w'. split; [reflexivity|]. split; [exact Hall|].
    rewrite !string_length_append, string_length_of_list. simpl.
    unfold Py.len in Hk. lia.
  - unfold EtcdBenchmarkClient.generate_random_value.
    edestruct (choices_spec (A:=Ascii.ascii)) as (xs & w' & Hd & Hk & Hall);
      [|erewrite io_bind_Ok by exact Hd].
    { discriminate. }
    exists xs, w'. split; [reflexivity|]. split; [exact Hall|].
    rewrite string_length_of_list. exact Hk.
Qed.

Section Configured.

Context `{Host World}.

Lemma operation_kind (write_ratio u : Q) :
  (0 <= u)%Q -> (u < 1)%Q ->
  let operation :=
    if negb (Qle_bool write_ratio u) then "write"%string else "read"%string in
  (operation = "read"%string \/ operation = "write"%string)
  /\ ((write_ratio <= 0)%Q -> operation = "read"%string)
  /\ ((1 <= write_ratio)%Q -> operation = "write"%string).
Proof.
  intros H0 H1. cbv zeta.
  destruct (Qle_bool write_ratio u) eqn:Hle; simpl.
  - apply Qle_bool_iff in Hle. split; [by left|]. split; [done|]. intros ?. lra.
  - split; [by right|]. split; [|done]. intros Hw.
    assert (Hc : Qle_bool write_ratio u = true) by (apply Qle_bool_iff; lra).
    congruence.
Qed.

Lemma perform_operation_as_configured (self : EtcdBenchmarkClient) (w : World) :
  endpoints (config self) <> [] ->
  exists r w',
    EtcdBenchmarkClient.perform_operation self w = (Ok r, w')
    /\ as_configured self r.
Proof.
  intros Hne. unfold EtcdBenchmarkClient.perform_operation.
  rewrite io_bind_total.
  destruct (random_range w) as [H0 H1].
  pose proof (operation_kind (write_ratio (config self)) _ H0 H1)
    as (Hkind & Hread & Hwrite).
  set (u := (random_random w).1) in *. set (w1 := (random_random w).2).
  destruct (choice_returns (endpoints (config self)) w1 Hne) as (ep & w2 & Hc & Hin).
  erewrite io_bind_Ok by exact Hc.
  destruct (etcd_clients self !! ep) as [client|] eqn:Hcl.
  - rewrite io_bind_total. unfold try_except.
    set (w3 := (time_perf_counter w2).2).
    match goal with
    | |- context [(?op ≫= ?k) w3] =>
        set (store_call := op); set (rest := k)
    end.
    destruct (store_call w3) as [[[]|e] w4] eqn:Hop.
    + erewrite (io_bind_Ok store_call) by exact Hop.
      unfold rest. rewrite io_bind_total, io_bind_total.
      eexists _, _. split; [reflexivity|].
      unfold as_configured, read_or_write. simpl.
      repeat split; try done; intros; congruence.
    + erewrite (io_bind_Raise store_call) by exact Hop.
      rewrite io_bind_total, io_bind_total.
      eexists _, _. split; [reflexivity|].
      unfold as_configured, read_or_write. simpl.
      repeat split; try done; intros; congruence.
  - rewrite io_bind_total.
    eexists _, _. split; [reflexivity|].
    unfold as_configured, read_or_write. simpl.
    repeat split; done.
Qed.

Lemma run_as_configured (fuel : nat) (self : EtcdBenchmarkClient)
    (duration : Z) (w : World) :
  endpoints (config self) <> [] ->
  exists results w',
    EtcdBenchmarkClient.run fuel self duration w = (Ok results, w')
    /\ Forall (as_configured self) results.
Proof.
  intros Hne. unfold EtcdBenchmarkClient.run. rewrite io_bind_total.
  generalize (time_time w).2 as w0. generalize (time_time w).1 as start.
  assert (Hnil : Forall (as_configured self) []) by constructor.
  revert Hnil. generalize (@nil OperationResult) as results.
  induction fuel as [|fuel IH]; intros results Hres start w0; simpl.
  - by eexists _, _.
  - rewrite io_bind_total.
    destruct (negb _); [|by eexists _, _].
    destruct (perform_operation_as_configured self (time_time w0).2 Hne)
      as (r & w1 & Hp & Hr).
    erewrite io_bind_Ok by exact Hp.
    rewrite io_bind_total. apply IH.
    apply Forall_app. split; [done|]. by constructor.
Qed.

End Configured.

(** X17.  What a client running over a non-empty endpoint list collects:
    [run] returns its buffer, and every result in it is a read or a write at
    one of the configured endpoints.  With a write ratio of 0 or less all
    of them are reads, with 1 or more all are writes.  A result for an
    endpoint that has no client (the connection failed in [__init__]) is a
    failure with latency 0 and the error text of that branch, and a
    successful result carries no error text. *)
Theorem run_results_as_configured `{Host World} (fuel : nat)
    (self : EtcdBenchmarkClient) (duration : Z) (w : World) :
  endpoints (config self) <> [] ->
  exists results w',
    EtcdBenchmarkClient.run fuel self duration w = (Ok results, w')
    /\ Forall (as_configured self) results.
Proof. apply run_as_configured. Qed.

Lemma run_results_as_configured_witness :
  exists results w',
    EtcdBenchmarkClient.run 3 example_client 30 0%nat = (Ok results, w')
    /\ length results = 3%nat
    /\ Forall (as_configured example_client) results.
Proof.
  destruct (run_results_as_configured 3 example_client 30 0%nat)
    as (results & w' & Hrun & Hall); [discriminate|].
  exists results, w'. split; [exact Hrun|]. split; [|exact Hall].
  vm_compute in Hrun. injection Hrun as <- _. reflexivity.
Defined.

(** ** From the clients to the record *)

Lemma filter_nil_Forall {A} (P : A -> Prop) `{!forall x, Decision (P x)}
    (l : list A) :
  Forall (fun x => ~ P x) l -> filter P l = [].
Proof.
  induction 1 as [|x l Hx _ IH]; [done|].
  by rewrite filter_cons_False.
Qed.

Lemma filter_all_Forall {A} (P : A -> Prop) `{!forall x, Decision (P x)}
    (l : list A) :
  Forall P l -> filter P l = l.
Proof.
  induction 1 as [|x l Hx _ IH]; [done|].
  by rewrite filter_cons_True, IH.
Qed.

Lemma attempts_at_pos (ep : string) (rs : list OperationResult) :
  attempts_at ep rs <> 0 -> exists x, x ∈ rs /\ endpoint x = ep.
Proof.
  unfold attempts_at, Py.len. intros Hn.
  destruct (filter (fun r => endpoint r = ep) rs) as [|x l] eqn:E; [done|].
  assert (Hx : x ∈ filter (fun r => endpoint r = ep) rs) by (rewrite E; left).
  apply list_elem_of_filter in Hx as [Hep Hx]. by exists x.
Qed.

(** X18.  From the clients to the record: when every client ran with the
    same configuration (its endpoint list not empty) and aggregation
    returns a record for their buffers, the endpoint distribution has
    entries for configured endpoints only.  With a write ratio of 0 or less
    the record has no write, with 1 or more no read.  And when no endpoint
    has a client, every operation failed and the only error is that of the
    missing client. *)
Theorem record_follows_configuration `{Host World} (v : version)
    (self : EtcdBenchmarkClient) (clients : list (list OperationResult))
    (d : Q) (r : BenchmarkResults) :
  endpoints (config self) <> [] ->
  Forall (run_of self) clients ->
  EtcdBenchmark.analyze_results v clients d = Ok r ->
  (forall ep n, endpoint_distribution r !! ep = Some n ->
     ep ∈ endpoints (config self))
  /\ ((write_ratio (config self) <= 0)%Q ->
      total_writes r = 0 /\ total_reads r = total_operations r)
  /\ ((1 <= write_ratio (config self))%Q ->
      total_reads r = 0 /\ total_writes r = total_operations r)
  /\ (etcd_clients self = ∅ ->
      failed_operations r = total_operations r
      /\ errors r = ["No client available for endpoint"%string]).
Proof.
  intros Hne Hruns Hr.
  assert (Hall : Forall (as_configured self) (merged clients)).
  { rewrite merged_concat. apply Forall_join.
    eapply Forall_impl; [exact Hruns|].
    intros rs (fuel & duration & w & w' & Hrun).
    destruct (run_as_configured fuel self duration w Hne)
      as (rs' & w'' & Hrun' & Hrs).
    rewrite Hrun in Hrun'. by injection Hrun' as -> _. }
  pose proof (analyze_results_Ok _ _ _ _ Hr) as (Hnil & _).
  apply analyze_results_record in Hr as (o & rs & ws & _ & _ & _ & ->).
  cbv zeta. simpl.
  generalize dependent (merged clients). intros l Hall Hnil. clear clients Hruns.
  split; [|split; [|split]].
  - intros ep n. rewrite count_endpoint_lookup, lookup_empty.
    destruct (Z.eqb_spec (attempts_at ep l) 0) as [|Hn]; [done|]. intros _.
    destruct (attempts_at_pos ep l Hn) as (x & Hx & <-).
    rewrite Forall_forall in Hall. by apply Hall.
  - intros Hw.
    assert (Hreads : Forall (fun x => operation x = "read"%string) l).
    { eapply Forall_impl; [exact Hall|]. intros x (_ & _ & Hread & _). auto. }
    unfold of_kind. rewrite (filter_all_Forall _ l Hreads).
    rewrite filter_nil_Forall; [done|].
    eapply Forall_impl; [exact Hreads|]. intros x -> ?. done.
  - intros Hw.
    assert (Hwrites : Forall (fun x => operation x = "write"%string) l).
    { eapply Forall_impl; [exact Hall|]. intros x (_ & _ & _ & Hwrite & _). auto. }
    unfold of_kind. rewrite (filter_all_Forall _ l Hwrites).
    rewrite filter_nil_Forall; [done|].
    eapply Forall_impl; [exact Hwrites|]. intros x -> ?. done.
  - intros Hclients.
    assert (Hfailed : Forall (fun x => success x = false
                /\ error x = "No client available for endpoint"%string) l).
    { eapply Forall_impl; [exact Hall|]. intros x (_ & _ & _ & _ & Hmissing & _).
      destruct Hmissing as (? & _ & ?); [by rewrite Hclients, lookup_empty|done]. }
    rewrite filter_nil_Forall.
    2:{ eapply Forall_impl; [exact Hfailed|]. intros x [-> _] ?. done. }
    split; [unfold Py.len; simpl; lia|].
    rewrite filter_all_Forall.
    2:{ eapply Forall_impl; [exact Hfailed|]. by intros x [-> ->]. }
    assert (Hset : (list_to_set (error <$> l) : gset string)
                   = {[ "No client available for endpoint"%string ]}).
    { apply set_eq. intros s.
      rewrite elem_of_list_to_set, list_elem_of_fmap, elem_of_singleton.
      rewrite Forall_forall in Hfailed. split.
      - intros (x & -> & Hx). by apply Hfailed.
      - intros ->. destruct l as [|x l]; [done|]. exists x.
        split; [symmetry; apply Hfailed; left|left]. }
    rewrite Hset. apply elements_singleton.
Qed.

Lemma record_follows_configuration_witness :
  exists rs w' r,
    EtcdBenchmarkClient.run 3 example_client 30 0%nat = (Ok rs, w')
    /\ EtcdBenchmark.analyze_results Before313 [rs] 2 = Ok r
    /\ total_operations r = 3
    /\ forall ep n, endpoint_distribution r !! ep = Some n ->
         ep ∈ endpoints (config example_client).
Proof.
  destruct (EtcdBenchmarkClient.run 3 example_client 30 0%nat)
    as [[rs|e] w'] eqn:Hrun; [|vm_compute in Hrun; discriminate].
  destruct (EtcdBenchmark.analyze_results Before313 [rs] 2) as [r|e] eqn:Hr.
  - exists rs, w', r. split; [reflexivity|]. split; [exact Hr|]. split.
    + vm_compute in Hrun. injection Hrun as <- _.
      vm_compute in Hr. injection Hr as <-. reflexivity.
    + apply (record_follows_configuration Before313 example_client [rs] 2 r).
      * discriminate.
      * constructor; [|constructor]. by exists 3%nat, 30, 0%nat, w'.
      * exact Hr.
  - vm_compute in Hrun. injection Hrun as <- _. vm_compute in Hr. discriminate.
Defined.

(** ** [benchmark-etcd-cluster.py]: preparing the benchmark *)

Lemma excluded_middle_host_and_port (endpoint : string) :
  host_and_port endpoint \/ ~ host_and_port endpoint.
Proof.
  unfold host_and_port.
  destruct (str_.split _ _) as [|a [|b [|c l]]].
  - right. by intros (? & ? & ?).
  - right. by intros (? & ? & ?).
  - left. by eexists _, _.
  - right. by intros (? & ? & ?).
Qed.

Section Setup.

Context `{Host World} `{Etcd3 World}.

Implicit Types (m : gmap string etcd3_client) (w : World).

(** One endpoint of [__init__]: a [ValueError] when it cannot be taken
    apart, else at most one more client, whatever [int] and [etcd3.client]
    do. *)
Lemma connect_endpoint_spec m (endpoint : string) w :
  (host_and_port endpoint ->
   exists m' w',
     EtcdBenchmarkSetup.connect_endpoint m endpoint w = (Ok m', w')
     /\ forall k, is_Some (m' !! k) -> is_Some (m !! k) \/ k = endpoint)
  /\ (~ host_and_port endpoint ->
      exists msg,
        EtcdBenchmarkSetup.connect_endpoint m endpoint w
        = (Raise (ValueError msg), w)).
Proof.
  unfold EtcdBenchmarkSetup.connect_endpoint, host_and_port.
  destruct (str_.split _ _) as [|a [|b [|c l]]] eqn:E.
  - split; [by intros (? & ? & ?)|]. intros _. by eexists.
  - split; [by intros (? & ? & ?)|]. intros _. by eexists.
  - split; [|intros Hn; destruct Hn; by eexists _, _]. intros _.
    unfold unpack_pair, pure, try_except, mbind, IO_bind, mret, IO_ret.
    destruct (int_of_str b) as [n|e].
    + destruct (etcd3_connect a n w) as [[client|e] w1].
      * eexists _, _. split; [reflexivity|]. intros k.
        destruct (decide (k = endpoint)) as [->|Hk]; [by right|].
        rewrite lookup_insert_ne by done. by left.
      * eexists _, _. split; [reflexivity|]. by left.
    + eexists _, _. split; [reflexivity|]. by left.
  - split; [by intros (? & ? & ?)|]. intros _. by eexists.
Qed.

Lemma connect_endpoints_returns (endpoints : list string) m w :
  Forall host_and_port endpoints ->
  exists m' w',
    EtcdBenchmarkSetup.connect_endpoints endpoints m w = (Ok m', w')
    /\ forall k, is_Some (m' !! k) -> is_Some (m !! k) \/ k ∈ endpoints.
Proof.
  intros Hall. revert m w. induction Hall as [|ep eps Hep _ IH]; intros m w; simpl.
  - eexists _, _. split; [reflexivity|]. by left.
  - destruct (connect_endpoint_spec m ep w) as [Hok _].
    destruct (Hok Hep) as (m1 & w1 & Hc & Hkeys).
    erewrite io_bind_Ok by exact Hc.
    destruct (IH m1 w1) as (m' & w' & Hr & Hkeys').
    exists m', w'. split; [exact Hr|]. intros k Hk.
    destruct (Hkeys' k Hk) as [Hm1|Hin]; [|right; by right].
    destruct (Hkeys k Hm1) as [?| ->]; [by left|right; left].
Qed.

Lemma connect_endpoints_raises (endpoints : list string) m w :
  ~ Forall host_and_port endpoints ->
  exists msg w',
    EtcdBenchmarkSetup.connect_endpoints endpoints m w
    = (Raise (ValueError msg), w').
Proof.
  revert m w. induction endpoints as [|ep eps IH]; intros m w Hn; simpl.
  - destruct Hn. constructor.
  - destruct (connect_endpoint_spec m ep w) as [Hok Hbad].
    destruct (excluded_middle_host_and_port ep) as [Hep|Hep].
    + destruct (Hok Hep) as (m1 & w1 & Hc & _).
      erewrite io_bind_Ok by exact Hc. apply IH.
      intros Hall. apply Hn. by constructor.
    + destruct (Hbad Hep) as (msg & Hc).
      erewrite io_bind_Raise by exact Hc. by eexists _, _.
Qed.

Lemma init_returns (i : Z) (cfg : BenchmarkConfig) w :
  Forall host_and_port (endpoints cfg) ->
  exists client w',
    EtcdBenchmarkSetup.__init__ i cfg w = (Ok client, w')
    /\ initialised i cfg client.
Proof.
  intros Hall. unfold EtcdBenchmarkSetup.__init__.
  destruct (connect_endpoints_returns (endpoints cfg) ∅ w Hall)
    as (m & w' & Hc & Hkeys).
  erewrite io_bind_Ok by exact Hc.
  eexists _, _. split; [reflexivity|]. split; [done|]. split; [done|].
  simpl. intros k Hk. destruct (Hkeys k Hk) as [Hempty|?]; [|done].
  rewrite lookup_empty in Hempty. by destruct Hempty.
Qed.

Lemma init_raises (i : Z) (cfg : BenchmarkConfig) w :
  ~ Forall host_and_port (endpoints cfg) ->
  exists msg w',
    EtcdBenchmarkSetup.__init__ i cfg w = (Raise (ValueError msg), w').
Proof.
  intros Hn. unfold EtcdBenchmarkSetup.__init__.
  destruct (connect_endpoints_raises (endpoints cfg) ∅ w Hn) as (msg & w' & Hc).
  erewrite io_bind_Raise by exact Hc. by eexists _, _.
Qed.

Lemma create_clients_returns (indices : list Z) (cfg : BenchmarkConfig) w :
  Forall host_and_port (endpoints cfg) ->
  exists clients w',
    EtcdBenchmarkSetup.create_clients indices cfg w = (Ok clients, w')
    /\ Forall2 (fun i client => initialised i cfg client) indices clients.
Proof.
  intros Hall. revert w. induction indices as [|i rest IH]; intros w; simpl.
  - eexists _, _. split; [reflexivity|]. constructor.
  - destruct (init_returns i cfg w Hall) as (client & w1 & Hc & Hinit).
    erewrite io_bind_Ok by exact Hc.
    destruct (IH w1) as (clients & w' & Hr & Hrest).
    erewrite io_bind_Ok by exact Hr.
    eexists _, _. split; [reflexivity|]. by constructor.
Qed.

Lemma create_clients_raises (indices : list Z) (cfg : BenchmarkConfig) w :
  ~ Forall host_and_port (endpoints cfg) -> indices <> [] ->
  exists msg w',
    EtcdBenchmarkSetup.create_clients indices cfg w
    = (Raise (ValueError msg), w').
Proof.
  intros Hn Hne. destruct indices as [|i rest]; [done|]. simpl.
  destruct (init_raises i cfg w Hn) as (msg & w' & Hc).
  erewrite io_bind_Raise by exact Hc. by eexists _, _.
Qed.

Lemma warmup_loop_returns (rounds : list Z) (client : EtcdBenchmarkClient) w :
  endpoints (config client) <> [] ->
  exists w', EtcdBenchmarkSetup.warmup_loop rounds client w = (Ok (), w').
Proof.
  intros Hne. revert w. induction rounds as [|i rest IH]; intros w; simpl.
  - by eexists.
  - destruct (perform_operation_returns client w Hne) as (r & w1 & Hp).
    erewrite io_bind_Ok by exact Hp.
    rewrite io_bind_total. apply IH.
Qed.

Lemma run_warmup_returns (cfg : BenchmarkConfig) w :
  Forall host_and_port (endpoints cfg) -> endpoints cfg <> [] ->
  exists w', EtcdBenchmarkSetup.run_warmup cfg w = (Ok (), w').
Proof.
  intros Hall Hne. unfold EtcdBenchmarkSetup.run_warmup.
  destruct (init_returns 0 cfg w Hall) as (client & w1 & Hc & _ & Hcfg & _).
  erewrite io_bind_Ok by exact Hc.
  apply warmup_loop_returns. by rewrite Hcfg.
Qed.

Lemma run_warmup_raises (cfg : BenchmarkConfig) w :
  ~ Forall host_and_port (endpoints cfg) ->
  exists msg w',
    EtcdBenchmarkSetup.run_warmup cfg w = (Raise (ValueError msg), w').
Proof.
  intros Hn. unfold EtcdBenchmarkSetup.run_warmup.
  destruct (init_raises 0 cfg w Hn) as (msg & w' & Hc).
  erewrite io_bind_Raise by exact Hc. by eexists _, _.
Qed.

(** The detection never raises, and what it returns are probed endpoints
    in the order of their ports. *)
Lemma detect_loop_spec (indices : list Z) (found : list string) w :
  exists more w',
    EtcdBenchmarkSetup.detect_loop indices found w = (Ok (found ++ more), w')
    /\ more `sublist_of`
         ((fun i => "http://localhost:" +:+ format_0d 0 (2379 + i - 1))%string
            <$> indices).
Proof.
  revert found w. induction indices as [|i rest IH]; intros found w; simpl.
  - exists [], w. by rewrite app_nil_r.
  - unfold try_except at 1.
    match goal with
    | |- context [(?c ≫= ?k) w] =>
        assert (Hstep : exists found1 w1,
                  c w = (Ok found1, w1)
                  /\ (found1 = found
                      \/ found1 = found ++ ["http://localhost:"
                                            +:+ format_0d 0 (2379 + i - 1)]%string))
    end.
    { destruct (etcd3_connect "localhost" (2379 + i - 1) w) as [[client|e] w1] eqn:Hc.
      - erewrite io_bind_Ok by exact Hc.
        destruct (client_status client w1) as [[[]|e] w2] eqn:Hs.
        + erewrite io_bind_Ok by exact Hs. eexists _, _. split; [reflexivity|]. by right.
        + erewrite io_bind_Raise by exact Hs. eexists _, _. split; [reflexivity|]. by left.
      - erewrite io_bind_Raise by exact Hc. eexists _, _. split; [reflexivity|]. by left. }
    destruct Hstep as (found1 & w1 & Hc & Hfound).
    erewrite io_bind_Ok by exact Hc.
    destruct (IH found1 w1) as (more & w' & Hr & Hsub).
    destruct Hfound as [->| ->].
    + exists more, w'. split; [exact Hr|]. by apply sublist_cons.
    + exists (("http://localhost:" +:+ format_0d 0 (2379 + i - 1))%string :: more), w'.
      rewrite <- app_assoc in Hr. split; [exact Hr|].
      by apply sublist_skip.
Qed.

Lemma detect_cluster_nodes_spec w :
  exists detected w',
    EtcdBenchmarkSetup.detect_cluster_nodes w = (Ok detected, w')
    /\ detected `sublist_of` local_endpoints.
Proof.
  unfold EtcdBenchmarkSetup.detect_cluster_nodes.
  destruct (detect_loop_spec (Py.range 1 11) [] w) as (more & w' & Hd & Hsub).
  by exists more, w'.
Qed.

End Setup.

Lemma local_endpoints_host_and_port : Forall host_and_port local_endpoints.
Proof. repeat constructor; by eexists _, _. Qed.

Lemma sublist_Forall {A} (P : A -> Prop) (l k : list A) :
  l `sublist_of` k -> Forall P k -> Forall P l.
Proof.
  induction 1 as [|x l k _ IH|x l k _ IH]; intros Hk; [done| |].
  - apply Forall_cons in Hk as [Hx Hk]. constructor; auto.
  - apply Forall_cons in Hk as [_ Hk]. auto.
Qed.

Section Prepare.

Context `{Host World} `{Etcd3 World}.

(** Once the endpoints are settled: the clients and the warmup. *)
Lemma prepared (cfg : BenchmarkConfig) (w : World) :
  Forall host_and_port (endpoints cfg) -> endpoints cfg <> [] ->
  exists clients w',
    (clients ← EtcdBenchmarkSetup.create_clients (Py.range 0 (num_clients cfg)) cfg;
     _ ← (if 0 <? warmup_time cfg then EtcdBenchmarkSetup.run_warmup cfg
          else mret ());
     mret (cfg, clients)) w = (Ok (cfg, clients), w')
    /\ Forall2 (fun i client => initialised i cfg client)
         (Py.range 0 (num_clients cfg)) clients.
Proof.
  intros Hall Hne.
  destruct (create_clients_returns (Py.range 0 (num_clients cfg)) cfg w Hall)
    as (clients & w1 & Hc & Hinit).
  destruct (0 <? warmup_time cfg).
  - destruct (run_warmup_returns cfg w1 Hall Hne) as (w2 & Hw).
    exists clients, w2. split; [|done].
    erewrite io_bind_Ok by exact Hc. erewrite io_bind_Ok by exact Hw. reflexivity.
  - exists clients, w1. split; [|done].
    erewrite io_bind_Ok by exact Hc. reflexivity.
Qed.

Lemma not_prepared (cfg : BenchmarkConfig) (w : World) :
  ~ Forall host_and_port (endpoints cfg) ->
  0 < num_clients cfg \/ 0 < warmup_time cfg ->
  exists msg w',
    (clients ← EtcdBenchmarkSetup.create_clients (Py.range 0 (num_clients cfg)) cfg;
     _ ← (if 0 <? warmup_time cfg then EtcdBenchmarkSetup.run_warmup cfg
          else mret ());
     mret (cfg, clients)) w = (Raise (ValueError msg), w').
Proof.
  intros Hn Hsome.
  destruct (Z.lt_ge_cases 0 (num_clients cfg)) as [Hc|Hc].
  - destruct (create_clients_raises (Py.range 0 (num_clients cfg)) cfg w Hn)
      as (msg & w' & Hr).
    { unfold Py.range. rewrite seqZ_cons by lia. done. }
    exists msg, w'. erewrite io_bind_Raise by exact Hr. reflexivity.
  - assert (Hw : 0 < warmup_time cfg) by lia.
    destruct (run_warmup_raises cfg w Hn) as (msg & w' & Hr).
    exists msg, w'.
    unfold Py.range. rewrite seqZ_nil by lia.
    erewrite io_bind_Ok by reflexivity.
    destruct (Z.ltb_spec 0 (warmup_time cfg)) as [_|?]; [|lia].
    erewrite io_bind_Raise by exact Hr. reflexivity.
Qed.

End Prepare.



(** X20.  With endpoints configured, [prepare_benchmark] keeps the
    configuration, and what it does depends on their form alone: when every
    endpoint is a host and a port around one colon once [http://] is
    removed, it returns, with clients 0..num_clients-1 that hold clients
    for configured endpoints only, whether or not a connection could be
    made; when one endpoint is not of that form (for one, an [https://]
    address) and a client or the warmup is asked for, it raises
    [ValueError]. *)
Theorem prepare_benchmark_configured `{Host World} `{Etcd3 World}
    (cfg : BenchmarkConfig) (w : World) :
  endpoints cfg <> [] ->
  (Forall host_and_port (endpoints cfg) ->
   exists clients w',
     EtcdBenchmarkSetup.prepare_benchmark cfg w = (Ok (cfg, clients), w')
     /\ Forall2 (fun i client => initialised i cfg client)
          (Py.range 0 (num_clients cfg)) clients)
  /\ (~ Forall host_and_port (endpoints cfg) ->
      0 < num_clients cfg \/ 0 < warmup_time cfg ->
      exists msg w',
        EtcdBenchmarkSetup.prepare_benchmark cfg w = (Raise (ValueError msg), w')).
Proof.
  intros Hne. unfold EtcdBenchmarkSetup.prepare_benchmark.
  assert (Hlen : (Py.len (endpoints cfg) =? 0) = false).
  { apply Z.eqb_neq. by rewrite len_nil_iff. }
  rewrite Hlen. split.
  - intros Hall. apply (prepared cfg w Hall Hne).
  - intros Hn Hsome. apply (not_prepared cfg w Hn Hsome).
Qed.

Lemma prepare_benchmark_configured_witness :
  (exists clients w',
     @EtcdBenchmarkSetup.prepare_benchmark nat refusing_host three_nodes
       example_config 0%nat = (Ok (example_config, clients), w')
     /\ length clients = 10%nat)
  /\ exists msg w',
       @EtcdBenchmarkSetup.prepare_benchmark nat refusing_host three_nodes
         https_config 0%nat = (Raise (ValueError msg), w').
Proof.
  split.
  - destruct (@prepare_benchmark_configured nat refusing_host three_nodes
                example_config 0%nat) as [Hok _]; [discriminate|].
    destruct Hok as (clients & w' & Hp & Hinit).
    { repeat constructor. by eexists _, _. }
    exists clients, w'. split; [exact Hp|].
    apply Forall2_length in Hinit. rewrite <- Hinit. reflexivity.
  - destruct (@prepare_benchmark_configured nat refusing_host three_nodes
                https_config 0%nat) as [_ Hbad]; [discriminate|].
    apply Hbad.
    + intros Hall. apply Forall_cons in Hall as [(host & port & Hsplit) _].
      vm_compute in Hsplit. discriminate.
    + left. reflexivity.
Defined.

(** ** [usl_analysis.py]: the result files *)

(** The digits of a decimal number are a run of digits that stops where a
    letter follows. *)
Lemma digits_of_uint (d : Decimal.uint) (rest : string) :
  re_.digits (DecimalString.NilEmpty.string_of_uint d +:+ String "n" rest)
  = (DecimalString.NilEmpty.string_of_uint d, String "n" rest).
Proof. induction d; simpl; [reflexivity|by rewrite IHd..]. Qed.

Lemma of_uint_zero_fill (k : nat) (d : Decimal.uint) :
  N.of_uint (zero_fill k d) = N.of_uint d.
Proof. induction k as [|k IH]; [done|]. exact IH. Qed.

Lemma zero_fill_nonnil (k : nat) (d : Decimal.uint) :
  d <> Decimal.Nil -> zero_fill k d <> Decimal.Nil.
Proof. destruct k; [done|]. by simpl. Qed.

Lemma to_uint_nonnil (n : N) : N.to_uint n <> Decimal.Nil.
Proof. destruct n; [done|]. apply DecimalPos.Unsigned.to_uint_nonnil. Qed.

Lemma string_of_uint_nonempty (d : Decimal.uint) :
  d <> Decimal.Nil ->
  String.eqb (DecimalString.NilEmpty.string_of_uint d) EmptyString = false.
Proof. by destruct d. Qed.

Lemma format_0d_of_N (width : nat) (n : N) :
  exists k,
    format_0d width (Z.of_N n)
    = DecimalString.NilEmpty.string_of_uint (zero_fill k (N.to_uint n)).
Proof.
  unfold format_0d.
  destruct (Z.ltb_spec (Z.of_N n) 0) as [?|_]; [lia|].
  rewrite Zabs2N.id. by eexists.
Qed.

Lemma int_of_digits_of_uint (max_str_digits : Z) (k : nat) (n : N) :
  max_str_digits <= 0
  \/ Z.of_nat (String.length
                 (DecimalString.NilEmpty.string_of_uint (zero_fill k (N.to_uint n))))
     <= max_str_digits ->
  int_of_digits max_str_digits
    (DecimalString.NilEmpty.string_of_uint (zero_fill k (N.to_uint n)))
  = Ok (Z.of_N n).
Proof.
  intros Hlimit. unfold int_of_digits.
  destruct (_ && _) eqn:Hover.
  { apply andb_true_iff in Hover as [?%Z.ltb_lt ?%Z.ltb_lt]. lia. }
  rewrite DecimalString.NilEmpty.usu.
  pose proof (zero_fill_nonnil k _ (to_uint_nonnil n)) as Hnil.
  assert (Hd : N.of_uint (zero_fill k (N.to_uint n)) = n)
    by (rewrite of_uint_zero_fill; apply DecimalN.Unsigned.of_to).
  destruct (zero_fill k (N.to_uint n)); [done|by rewrite Hd..].
Qed.

Lemma search_unfold (s : string) :
  re_.search s
  = match re_.match_here s with
    | Some group => Some group
    | None =>
        match s with
        | EmptyString => None
        | String _ s' => re_.search s'
        end
    end.
Proof. by destruct s. Qed.

Lemma search_skips (dir s : string) :
  Forall (fun c => c <> "r"%char) (list_ascii_of_string dir) ->
  re_.search (dir +:+ s) = re_.search s.
Proof.
  induction dir as [|c dir IH]; [done|]. simpl list_ascii_of_string.
  intros [Hc Hdir]%Forall_cons.
  change (String c dir +:+ s) with (String c (dir +:+ s)).
  assert (Hhere : re_.match_here (String c (dir +:+ s)) = None).
  { unfold re_.match_here.
    change (re_.literal "results-" (String c (dir +:+ s)))
      with (if Ascii.eqb "r" c then re_.literal "esults-" (dir +:+ s) else None).
    destruct (Ascii.eqb_spec "r"%char c) as [E|_]; [by destruct Hc|]. done. }
  rewrite search_unfold, Hhere. by apply IH.
Qed.

Lemma string_app_assoc (a b c : string) : (a +:+ b) +:+ c = a +:+ (b +:+ c).
Proof.
  induction a as [|x a IH]; [done|].
  change (String x ((a +:+ b) +:+ c) = String x (a +:+ (b +:+ c))).
  by rewrite IH.
Qed.

(** X21.  The node count of a result file comes back from its name:
    [extract_node_count] returns n for a file [results-<n>nodes.json] or
    [results-<n>node.json], with n written in decimal with or without
    leading zeros, in a directory whose name has no [r], and followed by
    anything; provided that n has no more digits than the interpreter's
    limit for [int] (from Python 3.11 on; 0 for none).  So
    [results-3nodes.json] and [results-03node.json] stand for the same
    cluster size.  File names are strings of ASCII characters. *)
Theorem node_count_round_trip (max_str_digits : Z) (dir : string) (width : nat)
    (n : N) (plural : bool) (suffix : string) :
  Forall (fun c => c <> "r"%char) (list_ascii_of_string dir) ->
  max_str_digits <= 0
  \/ Z.of_nat (String.length (format_0d width (Z.of_N n))) <= max_str_digits ->
  usl_analysis_py.extract_node_count max_str_digits
    (result_file dir width n plural +:+ suffix)
  = Ok (Some (Z.of_N n)).
Proof.
  intros Hdir Hlimit. unfold usl_analysis_py.extract_node_count, result_file.
  destruct (format_0d_of_N width n) as [k Hk]. rewrite Hk in *.
  set (ds := DecimalString.NilEmpty.string_of_uint (zero_fill k (N.to_uint n))) in *.
  rewrite !string_app_assoc, search_skips by done.
  assert (Hhere : re_.match_here
            ("results-" +:+ ds +:+ "node"
             +:+ (if plural then "s" else EmptyString) +:+ ".json" +:+ suffix)
          = Some ds).
  { unfold re_.match_here.
    change (re_.literal "results-" ("results-" +:+ ?s)) with (Some s).
    change (Some ?s ≫= ?k) with (k s). cbv beta.
    change ("node" +:+ ?s) with (String "n" ("ode" +:+ s)).
    unfold ds at 1. rewrite digits_of_uint.
    rewrite (string_of_uint_nonempty _ (zero_fill_nonnil k _ (to_uint_nonnil n))).
    destruct plural; reflexivity. }
  assert (Hsearch : forall s, re_.match_here s = Some ds -> re_.search s = Some ds).
  { intros s Hs. rewrite search_unfold. by rewrite Hs. }
  rewrite (Hsearch _ Hhere).
  unfold ds. rewrite int_of_digits_of_uint by done. reflexivity.
Qed.

Lemma node_count_round_trip_witness :
  usl_analysis_py.extract_node_count 4300 "data/results-03node.json.bak"
  = Ok (Some 3).
Proof.
  apply (node_count_round_trip 4300 "data/" 2 3 false ".bak").
  - repeat constructor; discriminate.
  - right. vm_compute. discriminate.
Defined.

Lemma literal_length (lit s rest : string) :
  re_.literal lit s = Some rest ->
  String.length s = (String.length lit + String.length rest)%nat.
Proof.
  revert s. induction lit as [|c lit IH]; intros s; simpl.
  - by intros [= ->].
  - destruct s as [|c' s]; [done|]. destruct (Ascii.eqb c c'); [|done].
    intros Hs. simpl. by rewrite (IH s Hs).
Qed.

(** A run of digits is a decimal number. *)
Lemma digits_spec (s : string) :
  exists d,
    DecimalString.NilEmpty.uint_of_string (re_.digits s).1 = Some d
    /\ (String.eqb (re_.digits s).1 EmptyString = false -> d <> Decimal.Nil)
    /\ String.length s
       = (String.length (re_.digits s).1 + String.length (re_.digits s).2)%nat.
Proof.
  induction s as [|c s (d & Hd & _ & Hlen)]; simpl.
  - by exists Decimal.Nil.
  - destruct (re_.is_digit c) eqn:Hc; [|by exists Decimal.Nil].
    destruct (re_.digits s) as [ds rest]. simpl in *.
    rewrite Hd, Hlen.
    destruct c as [[] [] [] [] [] [] [] []]; try discriminate Hc;
      eexists; (split; [reflexivity|split; [discriminate|reflexivity]]).
Qed.

Lemma match_here_spec (s group : string) :
  re_.match_here s = Some group ->
  (String.length group <= String.length s)%nat
  /\ exists d,
       DecimalString.NilEmpty.uint_of_string group = Some d /\ d <> Decimal.Nil.
Proof.
  unfold re_.match_here.
  destruct (re_.literal "results-" s) as [rest|] eqn:Hlit; [|done].
  change (Some rest ≫= ?k) with (k rest). cbv beta.
  apply literal_length in Hlit.
  destruct (digits_spec rest) as (d & Hd & Hnil & Hlen).
  destruct (re_.digits rest) as [g rest']. cbn [fst snd] in Hd, Hnil, Hlen.
  destruct (String.eqb g EmptyString); [done|].
  destruct (re_.literal "node" rest') as [rest2|]; [|done].
  change (Some rest2 ≫= ?k) with (k rest2). cbv beta zeta.
  destruct (re_.literal ".json" _); [|done].
  intros [= <-]. split; [lia|]. exists d. auto.
Qed.

Lemma search_spec (s group : string) :
  re_.search s = Some group ->
  (String.length group <= String.length s)%nat
  /\ exists d,
       DecimalString.NilEmpty.uint_of_string group = Some d /\ d <> Decimal.Nil.
Proof.
  induction s as [|c s IH]; rewrite search_unfold.
  - destruct (re_.match_here EmptyString) eqn:Hm; [|done].
    intros [= ->]. by apply match_here_spec.
  - destruct (re_.match_here (String c s)) eqn:Hm.
    + intros [= ->]. by apply match_here_spec.
    + intros Hs. destruct (IH Hs) as [Hlen Hd]. split; [simpl; lia|done].
Qed.

(** [extract_node_count] raises for a run of digits beyond the limit
    only. *)
Lemma extract_node_count_returns (max_str_digits : Z) (file : string) :
  max_str_digits <= 0 \/ Z.of_nat (String.length file) <= max_str_digits ->
  exists node_count,
    usl_analysis_py.extract_node_count max_str_digits file = Ok node_count.
Proof.
  intros Hlimit. unfold usl_analysis_py.extract_node_count.
  destruct (re_.search file) as [group|] eqn:Hs; [|by eexists].
  apply search_spec in Hs as (Hlen & d & Hd & Hnil).
  unfold int_of_digits. rewrite Hd.
  destruct (_ && _) eqn:Hover.
  { apply andb_true_iff in Hover as [?%Z.ltb_lt ?%Z.ltb_lt]. lia. }
  destruct d; [done|by eexists..].
Qed.

Section Load.

Context `{Files World Json}.

Lemma load_files_spec (max_str_digits : Z) (files seen : list string)
    (results : gmap Z Json) (w : World) :
  max_str_digits <= 0
  \/ Forall (fun file => Z.of_nat (String.length file) <= max_str_digits) files ->
  loaded_from max_str_digits seen results ->
  exists results' w',
    usl_analysis_py.load_files max_str_digits files results w = (Ok results', w')
    /\ loaded_from max_str_digits (seen ++ files) results'
    /\ (forall n, is_Some (results !! n) -> is_Some (results' !! n))
    /\ (forall file n,
          file ∈ files ->
          usl_analysis_py.extract_node_count max_str_digits file = Ok (Some n) ->
          (forall w0, exists data, (json_load file w0).1 = Ok data) ->
          is_Some (results' !! n)).
Proof.
  revert seen results w. induction files as [|file rest IH];
    intros seen results w Hlimit Hseen; simpl.
  - exists results, w. rewrite app_nil_r. split; [done|]. split; [done|].
    split; [done|]. intros file n Hin. by apply elem_of_nil in Hin.
  - assert (Hfile : max_str_digits <= 0
                    \/ Z.of_nat (String.length file) <= max_str_digits).
    { destruct Hlimit as [?|Hall]; [by left|right].
      by apply Forall_cons in Hall as [? _]. }
    assert (Hrest : max_str_digits <= 0
              \/ Forall (fun f => Z.of_nat (String.length f) <= max_str_digits) rest).
    { destruct Hlimit as [?|Hall]; [by left|right].
      by apply Forall_cons in Hall as [_ ?]. }
    destruct (extract_node_count_returns max_str_digits file Hfile)
      as (node_count & Hx).
    erewrite io_bind_Ok by (unfold pure; by rewrite Hx).
    replace (seen ++ file :: rest) with ((seen ++ [file]) ++ rest)
      by (by rewrite <- app_assoc).
    destruct node_count as [n|].
    + assert (Hstep : exists results1 w1,
                try_except
                  (data ← json_load file; mret (<[n := data]> results))
                  (fun e => mret results) w = (Ok results1, w1)
                /\ loaded_from max_str_digits (seen ++ [file]) results1
                /\ (forall k, is_Some (results !! k) -> is_Some (results1 !! k))
                /\ ((forall w0, exists data, (json_load file w0).1 = Ok data) ->
                    is_Some (results1 !! n))).
      { unfold try_except.
        destruct (json_load file w) as [[data|e] w1] eqn:Hload.
        - erewrite io_bind_Ok by exact Hload.
          eexists _, _. split; [reflexivity|]. split; [|split].
          + intros k x Hk. destruct (decide (k = n)) as [->|Hne].
            * rewrite lookup_insert_eq in Hk. injection Hk as <-.
              exists file, w. split; [set_solver|]. split; [done|].
              by rewrite Hload.
            * rewrite lookup_insert_ne in Hk by done.
              destruct (Hseen k x Hk) as (f & w0 & Hin & Hf).
              exists f, w0. split; [set_solver|done].
          + intros k Hk. destruct (decide (k = n)) as [->|Hne].
            * rewrite lookup_insert_eq. by eexists.
            * by rewrite lookup_insert_ne.
          + intros _. rewrite lookup_insert_eq. by eexists.
        - erewrite io_bind_Raise by exact Hload.
          eexists _, _. split; [reflexivity|]. split; [|split].
          + intros k x Hk. destruct (Hseen k x Hk) as (f & w0 & Hin & Hf).
            exists f, w0. split; [set_solver|done].
          + done.
          + intros Hloads. destruct (Hloads w) as [data Hd].
            rewrite Hload in Hd. discriminate. }
      destruct Hstep as (results1 & w1 & Hc & Hseen1 & Hkept & Hnew).
      erewrite io_bind_Ok by exact Hc.
      destruct (IH (seen ++ [file]) results1 w1 Hrest Hseen1)
        as (results' & w' & Hr & Hfrom & Hkept' & Hall).
      exists results', w'. split; [exact Hr|]. split; [exact Hfrom|].
      split; [by auto|].
      intros f k [->|Hin]%elem_of_cons Hf Hloads.
      * rewrite Hx in Hf. injection Hf as <-. apply Hkept'. by apply Hnew.
      * by apply (Hall f k).
    + destruct (IH (seen ++ [file]) results w Hrest) as (results' & w' & Hr & Hfrom & Hkept' & Hall).
      { intros k x Hk. destruct (Hseen k x Hk) as (f & w0 & Hin & Hf).
        exists f, w0. split; [set_solver|done]. }
      exists results', w'. split; [exact Hr|]. split; [exact Hfrom|].
      split; [done|].
      intros f k [->|Hin]%elem_of_cons Hf Hloads.
      * rewrite Hx in Hf. discriminate.
      * by apply (Hall f k).
Qed.

End Load.

(** X22.  [load_benchmark_results] returns, unless a file name holds a run
    of digits beyond the limit of [int]: a file whose name does not match
    is skipped, and so is one that cannot be opened or parsed.  Every entry
    of the dictionary is the content of a file that matched the pattern,
    under the node count of its name; and a matching file that can be loaded
    leaves its node count in the dictionary. *)
Theorem loaded_results_keyed_by_node_count `{Files World Json}
    (max_str_digits : Z) (pattern : string) (w : World) :
  max_str_digits <= 0
  \/ Forall (fun file => Z.of_nat (String.length file) <= max_str_digits)
       (glob_glob pattern w).1 ->
  exists results w',
    usl_analysis_py.load_benchmark_results max_str_digits pattern w
    = (Ok results, w')
    /\ (forall n data,
          results !! n = Some data ->
          exists file w0,
            file ∈ (glob_glob pattern w).1
            /\ usl_analysis_py.extract_node_count max_str_digits file = Ok (Some n)
            /\ (json_load file w0).1 = Ok data)
    /\ (forall file n,
          file ∈ (glob_glob pattern w).1 ->
          usl_analysis_py.extract_node_count max_str_digits file = Ok (Some n) ->
          (forall w0, exists data, (json_load file w0).1 = Ok data) ->
          is_Some (results !! n)).
Proof.
  intros Hlimit. unfold usl_analysis_py.load_benchmark_results.
  rewrite io_bind_total.
  destruct (glob_glob pattern w) as [files w1]. simpl in *.
  destruct (Z.eqb_spec (Py.len files) 0) as [Hnil|_].
  - apply len_nil_iff in Hnil as ->. exists ∅, w1. split; [done|].
    split; [by intros n data Hn|]. intros file n Hin. by apply elem_of_nil in Hin.
  - destruct (load_files_spec max_str_digits files [] ∅ w1 Hlimit)
      as (results & w' & Hr & Hfrom & _ & Hall).
    { by intros n data Hn. }
    by exists results, w'.
Qed.

Lemma loaded_results_keyed_by_node_count_witness :
  exists results w',
    @usl_analysis_py.load_benchmark_results nat string three_files 4300
      "results-*nodes*.json" 0%nat = (Ok results, w')
    /\ results !! 1 = Some "{}"%string /\ results !! 3 = None.
Proof.
  destruct (@loaded_results_keyed_by_node_count nat string three_files 4300
              "results-*nodes*.json" 0%nat)
    as (results & w' & Hload & _).
  { right. repeat constructor; vm_compute; discriminate. }
  exists results, w'. split; [exact Hload|].
  vm_compute in Hload. injection Hload as <- _. split; reflexivity.
Defined.

(** ** [benchmark.py]: the keys that are written and read *)

Section Logged.

Context `{S : Shell World}.

Implicit Types (log : list (list string)) (w : World).

Lemma logged_command (compose_file : string) (command : list string)
    (timeout : Z) log w :
  exists r w',
    @benchmark_py.run_etcdctl_command _ (logging S) compose_file command timeout
      (log, w)
    = (r, (log ++ [["docker-compose"; "-f"; compose_file; "exec"; "-T"; "etcd-1";
                     "etcdctl"]%string ++ command], w')).
Proof.
  unfold benchmark_py.run_etcdctl_command. simpl.
  destruct (subprocess_run _ timeout w) as [[] w']; by eexists _, _.
Qed.

Lemma logged_time log w :
  exists t w', @shell_time _ (logging S) (log, w) = (t, (log, w')).
Proof. simpl. destruct (shell_time w). by eexists _, _. Qed.

Lemma keys_of_app (verb : string) log log' :
  keys_of verb (log ++ log') = keys_of verb log ++ keys_of verb log'.
Proof. apply omap_app. Qed.

Lemma write_loop_log (compose_file key_prefix : string) (indices : list Z)
    (failed_ops : Z) log w :
  exists failed log' w',
    @benchmark_py.write_loop _ (logging S) compose_file key_prefix indices
      failed_ops (log, w) = (failed, (log ++ log', w'))
    /\ keys_of "put" log' = sequential_key key_prefix <$> indices
    /\ keys_of "get" log' = [].
Proof.
  revert failed_ops log w. induction indices as [|i rest IH];
    intros failed_ops log w.
  - exists failed_ops, [], w. by rewrite app_nil_r.
  - cbn [benchmark_py.write_loop].
    destruct (logged_time log w) as (t & w1 & ->).
    match goal with
    | |- context [benchmark_py.run_etcdctl_command ?f ?c ?t (log, w1)] =>
        destruct (logged_command f c t log w1) as ([[ok out] err] & w2 & ->)
    end.
    match goal with
    | |- context [benchmark_py.write_loop _ _ rest ?f (?l, w2)] =>
        destruct (IH f l w2) as (failed & log' & w' & -> & Hput & Hget)
    end.
    eexists failed, (_ :: log'), w'. rewrite <- app_assoc.
    split; [reflexivity|]. split.
    + change (keys_of "put" (?c :: log')) with
        (sequential_key key_prefix i :: keys_of "put" log').
      by rewrite Hput.
    + exact Hget.
Qed.

Lemma read_loop_log (compose_file key_prefix : string) (indices : list Z)
    (failed_ops : Z) log w :
  exists failed log' w',
    @benchmark_py.read_loop _ (logging S) compose_file key_prefix indices
      failed_ops (log, w) = (failed, (log ++ log', w'))
    /\ keys_of "get" log' = sequential_key key_prefix <$> indices
    /\ keys_of "put" log' = [].
Proof.
  revert failed_ops log w. induction indices as [|i rest IH];
    intros failed_ops log w.
  - exists failed_ops, [], w. by rewrite app_nil_r.
  - cbn [benchmark_py.read_loop].
    match goal with
    | |- context [benchmark_py.run_etcdctl_command ?f ?c ?t (log, w)] =>
        destruct (logged_command f c t log w) as ([[ok out] err] & w2 & ->)
    end.
    match goal with
    | |- context [benchmark_py.read_loop _ _ rest ?f (?l, w2)] =>
        destruct (IH f l w2) as (failed & log' & w' & -> & Hget & Hput)
    end.
    eexists failed, (_ :: log'), w'. rewrite <- app_assoc.
    split; [reflexivity|]. split.
    + change (keys_of "get" (?c :: log')) with
        (sequential_key key_prefix i :: keys_of "get" log').
      by rewrite Hget.
    + exact Hput.
Qed.

End Logged.

Lemma string_app_inv_head (a b c : string) : a +:+ b = a +:+ c -> b = c.
Proof.
  induction a as [|x a IH]; [done|].
  change (String x (a +:+ b) = String x (a +:+ c) -> b = c).
  intros [= Hbc]. by apply IH.
Qed.

(** The decimal form of a number that is not negative gives the number
    back, whatever the width. *)
Lemma format_0d_inj (width : nat) (i j : Z) :
  0 <= i -> 0 <= j -> format_0d width i = format_0d width j -> i = j.
Proof.
  intros Hi Hj Heq.
  destruct (format_0d_of_N width (Z.to_N i)) as [k Hk].
  destruct (format_0d_of_N width (Z.to_N j)) as [l Hl].
  rewrite Z2N.id in Hk, Hl by done.
  assert (Hparse : forall k n,
            option_map N.of_uint
              (DecimalString.NilEmpty.uint_of_string
                 (DecimalString.NilEmpty.string_of_uint (zero_fill k (N.to_uint n))))
            = Some n).
  { intros k' n. rewrite DecimalString.NilEmpty.usu. simpl.
    by rewrite of_uint_zero_fill, DecimalN.Unsigned.of_to. }
  pose proof (Hparse k (Z.to_N i)) as Pi. pose proof (Hparse l (Z.to_N j)) as Pj.
  rewrite <- Hk in Pi. rewrite <- Hl, <- Heq in Pj.
  rewrite Pi in Pj. injection Pj as Hn. lia.
Qed.

Lemma sequential_keys_NoDup (key_prefix : string) (count : Z) :
  NoDup (sequential_key key_prefix <$> Py.range 0 count).
Proof.
  apply NoDup_fmap_2_strong; [|apply NoDup_seqZ].
  intros i j Hi%elem_of_seqZ Hj%elem_of_seqZ Heq.
  unfold sequential_key in Heq.
  apply string_app_inv_head, string_app_inv_head in Heq.
  apply (format_0d_inj 6); [lia|lia|done].
Qed.

(** X23.  The sequential read benchmark asks for the keys that the
    sequential write benchmark puts: with the same count and key prefix
    (the defaults, and what [run_full_benchmark] passes), the writes put
    the keys [<prefix>/key-000000 ...] for the indices 0..count-1, all
    different, one [put] each and no [get]; the reads issue one [get] for
    each of these keys, in the same order, and no [put]; whatever the
    commands return. *)
Theorem reads_ask_for_written_keys `{S : Shell World} (compose_file : string)
    (count : Z) (key_prefix : string) (w w0 : World) :
  let written :=
    (@benchmark_py.benchmark_sequential_writes _ (logging S) compose_file count
       key_prefix ([], w)).2.1 in
  let read :=
    (@benchmark_py.benchmark_sequential_reads _ (logging S) compose_file count
       key_prefix ([], w0)).2.1 in
  keys_of "put" written = sequential_key key_prefix <$> Py.range 0 count
  /\ NoDup (keys_of "put" written)
  /\ keys_of "get" read = keys_of "put" written
  /\ keys_of "get" written = [] /\ keys_of "put" read = [].
Proof.
  cbv zeta.
  unfold benchmark_py.benchmark_sequential_writes,
    benchmark_py.benchmark_sequential_reads.
  destruct (logged_time [] w) as (t1 & w1 & ->).
  destruct (write_loop_log compose_file key_prefix (Py.range 0 count) 0 [] w1)
    as (fw & logw & w2 & -> & Hput & Hget).
  destruct (logged_time ([] ++ logw) w2) as (t2 & w3 & ->).
  destruct (logged_time [] w0) as (t3 & w4 & ->).
  destruct (read_loop_log compose_file key_prefix (Py.range 0 count) 0 [] w4)
    as (fr & logr & w5 & -> & Hget' & Hput').
  destruct (logged_time ([] ++ logr) w5) as (t4 & w6 & ->).
  simpl. rewrite Hput, Hget, Hget', Hput'.
  split; [done|]. split; [apply sequential_keys_NoDup|done].
Qed.

Section LoggedMixed.

Context `{S : Shell World}.

Implicit Types (log : list (list string)) (w : World).

Lemma prepopulate_log (compose_file : string) (indices : list Z) log w :
  exists log' w',
    @benchmark_py.prepopulate _ (logging S) compose_file indices (log, w)
    = (log ++ log', w')
    /\ keys_of "put" log' = mixed_key <$> indices
    /\ keys_of "get" log' = [].
Proof.
  revert log w. induction indices as [|i rest IH]; intros log w.
  - exists [], w. by rewrite app_nil_r.
  - cbn [benchmark_py.prepopulate].
    match goal with
    | |- context [benchmark_py.run_etcdctl_command ?f ?c ?t (log, w)] =>
        destruct (logged_command f c t log w) as (r & w1 & ->)
    end.
    match goal with
    | |- context [benchmark_py.prepopulate _ rest (?l, w1)] =>
        destruct (IH l w1) as (log' & w' & -> & Hput & Hget)
    end.
    eexists (_ :: log'), w'. rewrite <- app_assoc.
    split; [reflexivity|]. split.
    + change (keys_of "put" (?c :: log')) with (mixed_key i :: keys_of "put" log').
      by rewrite Hput.
    + exact Hget.
Qed.

(** An operation of the loop is one command: a [get] of one of the hundred
    keys, or a [put]. *)
Lemma mixed_operation_log (compose_file : string) (read_ratio : Q)
    (c : benchmark_py.MixedCounters) log w :
  exists c' command w',
    @benchmark_py.mixed_operation _ (logging S) compose_file read_ratio c (log, w)
    = (c', (log ++ [command], w'))
    /\ Forall (fun key => key ∈ mixed_key <$> Py.range 0 100)
         (keys_of "get" [command]).
Proof.
  unfold benchmark_py.mixed_operation.
  destruct (benchmark.should_read _ _ _ _).
  - match goal with
    | |- context [benchmark_py.run_etcdctl_command ?f ?k ?t (log, w)] =>
        destruct (logged_command f k t log w) as ([[ok out] err] & w1 & ->)
    end.
    destruct ok; eexists _, _, _; (split; [reflexivity|]).
    all: change (keys_of "get" [?k]) with
           [mixed_key ((benchmark_py.operation_count c + 1) mod 100)].
    all: constructor; [|constructor].
    all: apply list_elem_of_fmap; eexists; split; [reflexivity|].
    all: apply elem_of_seqZ;
      pose proof (Z.mod_pos_bound (benchmark_py.operation_count c + 1) 100); lia.
  - destruct (logged_time log w) as (t & w1 & ->).
    match goal with
    | |- context [benchmark_py.run_etcdctl_command ?f ?k ?t (log, w1)] =>
        destruct (logged_command f k t log w1) as ([[ok out] err] & w2 & ->)
    end.
    destruct ok; eexists _, _, _; (split; [reflexivity|]); constructor.
Qed.

Lemma mixed_loop_log (fuel : nat) (compose_file : string)
    (read_ratio end_time : Q) (c : benchmark_py.MixedCounters) log w c' lw' :
  @benchmark_py.mixed_loop _ (logging S) fuel compose_file read_ratio end_time c
    (log, w) = Some (c', lw') ->
  exists log',
    lw'.1 = log ++ log'
    /\ Forall (fun key => key ∈ mixed_key <$> Py.range 0 100) (keys_of "get" log').
Proof.
  revert c log w. induction fuel as [|fuel IH]; intros c log w; [done|].
  cbn [benchmark_py.mixed_loop].
  destruct (logged_time log w) as (t & w1 & ->).
  destruct (Qlt_le_dec t end_time).
  - destruct (mixed_operation_log compose_file read_ratio c log w1)
      as (c1 & command & w2 & -> & Hcommand).
    intros Hloop. destruct (IH _ _ _ Hloop) as (log' & -> & Hlog').
    exists (command :: log'). rewrite <- app_assoc. split; [done|].
    change (command :: log') with ([command] ++ log').
    rewrite keys_of_app. by apply Forall_app.
  - intros [= <- <-]. exists []. rewrite app_nil_r. split; [done|constructor].
Qed.

End LoggedMixed.

(** X24.  The mixed workload reads what it has put: before the loop it
    puts the hundred keys [/benchmark/mixed/key-000000 ... key-000099], one
    [put] each and no [get], and every [get] of the loop asks for one of
    these hundred keys, whatever the commands return and however long the
    loop runs. *)
Theorem mixed_reads_prepopulated_keys `{S : Shell World} (fuel : nat)
    (compose_file : string) (duration_seconds read_ratio : Q) (w : World)
    (r : benchmark_py.MixedStats) (log : list (list string)) (w' : World) :
  @benchmark_py.benchmark_mixed_workload _ (logging S) fuel compose_file
    duration_seconds read_ratio ([], w) = Some (r, (log, w')) ->
  exists before loop,
    log = before ++ loop
    /\ keys_of "put" before = mixed_key <$> Py.range 0 100
    /\ keys_of "get" before = []
    /\ Forall (fun key => key ∈ keys_of "put" before) (keys_of "get" loop).
Proof.
  unfold benchmark_py.benchmark_mixed_workload.
  destruct (logged_time [] w) as (t0 & w1 & ->).
  destruct (prepopulate_log compose_file (Py.range 0 100) [] w1)
    as (before & w2 & -> & Hput & Hget).
  destruct (benchmark_py.mixed_loop _ _ _ _ _ _) as [[c [log3 w3]]|] eqn:Hloop;
    [|done].
  apply mixed_loop_log in Hloop as (loop & Hlog & Hkeys). simpl in Hlog. subst log3.
  destruct (logged_time (before ++ loop) w3) as (t1 & w4 & ->).
  intros [= _ <- _]. exists before, loop.
  split; [done|]. split; [done|]. split; [done|]. by rewrite Hput.
Qed.

Lemma mixed_reads_prepopulated_keys_witness :
  exists r log w',
    @benchmark_py.benchmark_mixed_workload _ (logging ticking_shell) 40
      "cluster.yml" 150 (7 # 10) ([], 0%nat) = Some (r, (log, w'))
    /\ length (keys_of "get" log) = 16%nat
    /\ exists before loop,
         log = before ++ loop
         /\ keys_of "put" before = mixed_key <$> Py.range 0 100
         /\ keys_of "get" before = []
         /\ Forall (fun key => key ∈ keys_of "put" before) (keys_of "get" loop).
Proof.
  eexists _, _, _. split; [vm_compute; reflexivity|].
  split; [vm_compute; reflexivity|].
  eapply (mixed_reads_prepopulated_keys (S:=ticking_shell) 40 "cluster.yml" 150
            (7 # 10) 0%nat).
  vm_compute; reflexivity.
Defined.
